(** * Driver management system: day-off patterns and the replacement ledger

    A shallow embedding of the two rule sets of the repository:

    - the trigger [create_monthly_dayoff_schedules] of
      [supabase/migrations/20240323000000_recreate_driver_monthly_dayoff.sql]
      together with the form handler [handleSubmit] of the
      [DriverMonthlyDayoff] component and [handleDelete] of
      [components/driver-monthly-dayoff-list.tsx];
    - the handlers [handleScheduleUpdate], [handleAssignReplacement] and
      [handleUpdateReplacement] of [components/day-schedule-dialog.tsx].

    Around them: the views of the dialog, the pages of the pattern list, the
    overtime form and report, and the schedule page with its monthly
    calendar, whose dates are JavaScript [Date]s read in the zone of the
    machine they run on.

    Tables are lists of rows in storage order.  Handlers are functions from
    a database to a database and the toast they show. *)

From Stdlib Require Import ZArith Bool Lia String Ascii List.
Import ListNotations.
Local Open Scope Z_scope.

(* ================================================================== *)
(** ** Calendar arithmetic *)
(* ================================================================== *)

Module Calendar.

(** A [DATE] value is a day number: days since 1970-01-01. *)
Definition date := Z.

(** Julian day number of a proleptic Gregorian date, the formula PostgreSQL
    uses for [make_date] ([date2j]); the [date] type holds the years 1 to
    5874897 AD this way. *)
Definition date2j (y m d : Z) : Z :=
  let m' := if 2 <? m then m + 1 else m + 13 in
  let y' := if 2 <? m then y + 4800 else y + 4799 in
  let century := y' / 100 in
  y' * 365 - 32167 + (y' / 4 - century + century / 4) + 7834 * m' / 256 + d.

Definition UNIX_EPOCH_JDATE : Z := 2440588.

(** [make_date(year, month, day)]. *)
Definition make_date (y m d : Z) : date := date2j y m d - UNIX_EPOCH_JDATE.

(** [EXTRACT(DOW FROM d)] on a date: 0 = Sunday .. 6 = Saturday
    (PostgreSQL's [j2day]: [(jd + 1) mod 7]). *)
Definition extract_dow (d : date) : Z := (d + UNIX_EPOCH_JDATE + 1) mod 7.

(** [d + interval '1 month'] for [d = make_date y m 1]: the first day of
    the following month (month 12 rolls over into the next year). *)
Definition first_of_next_month (y m : Z) : date :=
  if m =? 12 then make_date (y + 1) 1 1 else make_date y (m + 1) 1.

(** The civil calendar, independently of the day numbers: leap years and
    month lengths as the Gregorian rule gives them. *)
Definition is_leap (y : Z) : bool :=
  ((y mod 4 =? 0) && negb (y mod 100 =? 0)) || (y mod 400 =? 0).

Definition days_in_month (y m : Z) : Z :=
  if m =? 2 then (if is_leap y then 29 else 28)
  else if (m =? 4) || (m =? 6) || (m =? 9) || (m =? 11) then 30
  else 31.

(** The calendar dates of a month, in order: day 1 .. day [days_in_month]. *)
Definition month_dates (y m : Z) : list date :=
  map (fun k => make_date y m (Z.of_nat k))
      (seq 1 (Z.to_nat (days_in_month y m))).

End Calendar.

Import Calendar.

(* ================================================================== *)
(** ** The relational store *)
(* ================================================================== *)

(** Row identifiers are UUIDs in the database; only their equality and
    freshness matter, so they are numbers handed out by a counter. *)
Definition uuid := nat.

(** [ot_type TEXT CHECK (ot_type IN ('replacement', 'extension', 'special'))] *)
Inductive OtType := ot_replacement | ot_extension | ot_special.

Definition OtType_eqb (a b : OtType) : bool :=
  match a, b with
  | ot_replacement, ot_replacement | ot_extension, ot_extension
  | ot_special, ot_special => true
  | _, _ => false
  end.

Record Schedule := mkSchedule {
  s_id : uuid;
  s_driver_id : uuid;
  s_date : date;
  is_day_off : bool;
  is_annual_leave : bool }.

Record Replacement := mkReplacement {
  r_id : uuid;
  r_schedule_id : uuid;
  replacement_driver_id : uuid;
  r_shift_id : uuid }.

(** [hours DECIMAL(5,2)] and [ot_rate DECIMAL(3,2)] are kept in hundredths:
    8 hours is [800], the rate 1.5 is [150]. *)
Record OvertimeRecord := mkOvertime {
  o_id : uuid;
  o_driver_id : uuid;
  o_date : date;
  hours : Z;
  ot_type : OtType;
  ot_rate : Z }.

Record DayOffPattern := mkPattern {
  p_id : uuid;
  p_driver_id : uuid;
  month : Z;
  year : Z;
  day_of_week : Z }.

Record DB := mkDB {
  schedules : list Schedule;
  replacements : list Replacement;
  overtime_records : list OvertimeRecord;
  driver_monthly_dayoff : list DayOffPattern;
  next_uuid : uuid }.

Definition empty_db : DB := mkDB [] [] [] [] 0%nat.

Inductive Toast := ToastSuccess | ToastError.

(** *** Query results of the storage client

    [.maybeSingle()] yields the row when exactly one row matches, [null]
    without an error when none does, and [null] with an error when several
    do; [.single()] also reports an error when no row matches.  The second
    component is the [error] field. *)
Definition maybeSingle {A} (rows : list A) : option A * bool :=
  match rows with
  | [] => (None, false)
  | [r] => (Some r, false)
  | _ => (None, true)
  end.

Definition single {A} (rows : list A) : option A * bool :=
  match rows with
  | [r] => (Some r, false)
  | _ => (None, true)
  end.

(** *** The [schedules] table: [UNIQUE (driver_id, date)] *)

Definition schedule_key_eqb (driver : uuid) (d : date) (s : Schedule) : bool :=
  Nat.eqb (s_driver_id s) driver && (s_date s =? d).

Definition set_schedules (db : DB) (l : list Schedule) : DB :=
  mkDB l (replacements db) (overtime_records db) (driver_monthly_dayoff db)
       (next_uuid db).

(** [DELETE FROM schedules WHERE p]; [replacements.schedule_id] is declared
    [ON DELETE CASCADE], so the replacements of a deleted row go with it. *)
Definition delete_schedules (p : Schedule -> bool) (db : DB) : DB :=
  let deleted := filter p (schedules db) in
  mkDB (filter (fun s => negb (p s)) (schedules db))
       (filter (fun r => negb (existsb (fun s => Nat.eqb (s_id s) (r_schedule_id r))
                                       deleted))
               (replacements db))
       (overtime_records db) (driver_monthly_dayoff db) (next_uuid db).

(** Modelled from the spec: the [CREATE TABLE] of [schedules] is not among
    the migrations; its [UNIQUE (driver_id, date)] is the one sections 3 and
    6 of the specification state and the trigger's [ON CONFLICT (driver_id,
    date)] relies on.  A plain [INSERT INTO schedules] is rejected by it when
    the key is taken.  The second component is the error. *)
Definition insert_schedule (driver : uuid) (d : date) (day_off annual : bool)
    (db : DB) : DB * bool :=
  if existsb (schedule_key_eqb driver d) (schedules db) then (db, true)
  else (mkDB (schedules db ++ [mkSchedule (next_uuid db) driver d day_off annual])
             (replacements db) (overtime_records db) (driver_monthly_dayoff db)
             (S (next_uuid db)), false).

(** [UPDATE schedules SET is_day_off = .., is_annual_leave = .. WHERE id = ..] *)
Definition update_schedule_flags (id : uuid) (day_off annual : bool) (db : DB) : DB :=
  set_schedules db
    (map (fun s => if Nat.eqb (s_id s) id
                   then mkSchedule (s_id s) (s_driver_id s) (s_date s) day_off annual
                   else s)
         (schedules db)).

(** [INSERT INTO schedules (driver_id, date, is_day_off) VALUES (.., .., true)
     ON CONFLICT (driver_id, date) DO UPDATE SET is_day_off = true]:
    a conflicting row keeps its id and its [is_annual_leave]; a new row takes
    the column default for [is_annual_leave] ([is_annual_leave?: boolean] in
    the generated insert type), which is [false]. *)
Definition upsert_day_off (driver : uuid) (d : date) (db : DB) : DB :=
  if existsb (schedule_key_eqb driver d) (schedules db)
  then set_schedules db
         (map (fun s => if schedule_key_eqb driver d s
                        then mkSchedule (s_id s) (s_driver_id s) (s_date s) true
                                        (is_annual_leave s)
                        else s)
              (schedules db))
  else mkDB (schedules db ++ [mkSchedule (next_uuid db) driver d true false])
            (replacements db) (overtime_records db) (driver_monthly_dayoff db)
            (S (next_uuid db)).

(** *** The [overtime_records] table *)

Definition overtime_key_eqb (driver : uuid) (d : date) (o : OvertimeRecord) : bool :=
  Nat.eqb (o_driver_id o) driver && (o_date o =? d).

(** [DECIMAL(5,2)]: fewer than three digits before the point. *)
Definition numeric_5_2 (h : Z) : bool := Z.abs h <? 100000.

Definition set_overtime_records (db : DB) (l : list OvertimeRecord) : DB :=
  mkDB (schedules db) (replacements db) l (driver_monthly_dayoff db) (next_uuid db).

(** [UPDATE overtime_records SET hours = h WHERE id = ..]; a value outside
    the column type is rejected and nothing changes. *)
Definition update_overtime_hours (id : uuid) (h : Z) (db : DB) : DB :=
  if numeric_5_2 h
  then set_overtime_records db
         (map (fun o => if Nat.eqb (o_id o) id
                        then mkOvertime (o_id o) (o_driver_id o) (o_date o) h
                                        (ot_type o) (ot_rate o)
                        else o)
              (overtime_records db))
  else db.

Definition insert_overtime (driver : uuid) (d : date) (h : Z) (ty : OtType)
    (rate : Z) (db : DB) : DB :=
  mkDB (schedules db) (replacements db)
       (overtime_records db ++ [mkOvertime (next_uuid db) driver d h ty rate])
       (driver_monthly_dayoff db) (S (next_uuid db)).

Definition delete_overtime (p : OvertimeRecord -> bool) (db : DB) : DB :=
  set_overtime_records db (filter (fun o => negb (p o)) (overtime_records db)).

(** *** The [replacements] table *)

(** What the storage answers to a write. *)
Inductive StorageOutcome := Accepted | Rejected.

Definition set_replacements (db : DB) (l : list Replacement) : DB :=
  mkDB (schedules db) l (overtime_records db) (driver_monthly_dayoff db)
       (next_uuid db).

Definition insert_replacement (schedule_id driver shift : uuid) (db : DB) : DB :=
  mkDB (schedules db)
       (replacements db ++ [mkReplacement (next_uuid db) schedule_id driver shift])
       (overtime_records db) (driver_monthly_dayoff db) (S (next_uuid db)).

Definition update_replacement_driver (id new_driver : uuid) (db : DB) : DB :=
  set_replacements db
    (map (fun r => if Nat.eqb (r_id r) id
                   then mkReplacement (r_id r) (r_schedule_id r) new_driver (r_shift_id r)
                   else r)
         (replacements db)).

(** *** The [driver_monthly_dayoff] table:
    [UNIQUE (driver_id, month, year)], [CHECK (month >= 1 AND month <= 12)],
    [CHECK (day_of_week >= 0 AND day_of_week <= 6)] *)

Definition pattern_key_eqb (driver : uuid) (m y : Z) (p : DayOffPattern) : bool :=
  Nat.eqb (p_driver_id p) driver && (month p =? m) && (year p =? y).

Definition pattern_checks (p : DayOffPattern) : bool :=
  (1 <=? month p) && (month p <=? 12) &&
  (0 <=? day_of_week p) && (day_of_week p <=? 6).

Definition set_day_of_week (dow : Z) (p : DayOffPattern) : DayOffPattern :=
  mkPattern (p_id p) (p_driver_id p) (month p) (year p) dow.

Definition set_patterns (db : DB) (l : list DayOffPattern) : DB :=
  mkDB (schedules db) (replacements db) (overtime_records db) l (next_uuid db).

Section Deployment.

(** The [TimeZone] of the database session and the time zone of the
    browser, as minutes east of UTC. *)
Variable session_utc_offset : Z.
Variable client_utc_offset : Z.

(* ---------------------------------------------------------------- *)
(** ** The expansion trigger [create_monthly_dayoff_schedules] *)
(* ---------------------------------------------------------------- *)

(** Asia/Bangkok is UTC+7 all year. *)
Definition BANGKOK_UTC_OFFSET : Z := 420.

(** [curr_date AT TIME ZONE 'Asia/Bangkok']: the date becomes the instant
    of its midnight in the session's zone, which is then read as a local
    Bangkok time.  In minutes since 1970-01-01 00:00 local. *)
Definition at_time_zone_bangkok (d : date) : Z :=
  d * 1440 - session_utc_offset + BANGKOK_UTC_OFFSET.

(** [local_dow := EXTRACT(DOW FROM curr_date AT TIME ZONE 'Asia/Bangkok')] *)
Definition local_dow (d : date) : Z :=
  extract_dow (at_time_zone_bangkok d / 1440).

(** The [WHILE curr_date <= last_day LOOP .. curr_date + interval '1 day']
    loop.  The fuel is the number of dates left, so the loop always runs
    to its end. *)
Fixpoint dayoff_loop (fuel : nat) (curr_date last_day : date)
    (NEW : DayOffPattern) (db : DB) : DB :=
  match fuel with
  | O => db
  | S fuel' =>
      if curr_date <=? last_day then
        dayoff_loop fuel' (curr_date + 1) last_day NEW
          (if local_dow curr_date =? day_of_week NEW
           then upsert_day_off (p_driver_id NEW) curr_date db
           else db)
      else db
  end.

Definition create_monthly_dayoff_schedules (NEW : DayOffPattern) (db : DB) : DB :=
  let curr_date := make_date (year NEW) (month NEW) 1 in
  let last_day := first_of_next_month (year NEW) (month NEW) - 1 in
  let db1 :=
    delete_schedules
      (fun s => Nat.eqb (s_driver_id s) (p_driver_id NEW)
                && (curr_date <=? s_date s) && (s_date s <=? last_day)
                && is_day_off s)
      db in
  dayoff_loop (Z.to_nat (last_day - curr_date + 1)) curr_date last_day NEW db1.

(** The earlier version of the migration: no [DELETE] first, and the
    weekday is read off the date itself. *)
Fixpoint dayoff_loop_v1 (fuel : nat) (current_date last_day : date)
    (NEW : DayOffPattern) (db : DB) : DB :=
  match fuel with
  | O => db
  | S fuel' =>
      if current_date <=? last_day then
        dayoff_loop_v1 fuel' (current_date + 1) last_day NEW
          (if extract_dow current_date =? day_of_week NEW
           then upsert_day_off (p_driver_id NEW) current_date db
           else db)
      else db
  end.

Definition create_monthly_dayoff_schedules_v1 (NEW : DayOffPattern) (db : DB) : DB :=
  let current_date := make_date (year NEW) (month NEW) 1 in
  let last_day := first_of_next_month (year NEW) (month NEW) - 1 in
  dayoff_loop_v1 (Z.to_nat (last_day - current_date + 1)) current_date last_day NEW db.

(** [INSERT INTO driver_monthly_dayoff]; the [AFTER INSERT] trigger runs
    for the new row.  The second component is the error. *)
Definition insert_pattern (driver : uuid) (m y dow : Z) (db : DB) : DB * bool :=
  let NEW := mkPattern (next_uuid db) driver m y dow in
  if pattern_checks NEW
     && negb (existsb (pattern_key_eqb driver m y) (driver_monthly_dayoff db))
  then (create_monthly_dayoff_schedules NEW
          (mkDB (schedules db) (replacements db) (overtime_records db)
                (driver_monthly_dayoff db ++ [NEW]) (S (next_uuid db))),
        false)
  else (db, true).

(** [UPDATE driver_monthly_dayoff SET day_of_week = .. WHERE id = ..]; the
    [AFTER UPDATE] trigger runs for each updated row. *)
Definition update_pattern (id : uuid) (dow : Z) (db : DB) : DB * bool :=
  let updated :=
    map (set_day_of_week dow)
        (filter (fun p => Nat.eqb (p_id p) id) (driver_monthly_dayoff db)) in
  if forallb pattern_checks updated
  then (fold_left (fun acc NEW => create_monthly_dayoff_schedules NEW acc) updated
          (set_patterns db
             (map (fun p => if Nat.eqb (p_id p) id then set_day_of_week dow p else p)
                  (driver_monthly_dayoff db))),
        false)
  else (db, true).

(* ---------------------------------------------------------------- *)
(** ** Set Pattern: [handleSubmit] of the day-off form *)
(* ---------------------------------------------------------------- *)

(** The storage part of [handleSubmit], once the form fields are numbers:
    look the pattern up by (driver, month, year), then update or insert. *)
Definition set_pattern (driver : uuid) (m y dow : Z) (db : DB) : DB * Toast :=
  match maybeSingle (filter (pattern_key_eqb driver m y) (driver_monthly_dayoff db)) with
  | (_, true) => (db, ToastError)
  | (Some existingPattern, false) =>
      let '(db', operationError) := update_pattern (p_id existingPattern) dow db in
      (db', if operationError then ToastError else ToastSuccess)
  | (None, false) =>
      let '(db', operationError) := insert_pattern driver m y dow db in
      (db', if operationError then ToastError else ToastSuccess)
  end.

(** [parseInt] on a decimal numeral with an optional sign: the digits up
    to the first other character, [None] for [NaN].  Leading white space
    and the [0x] prefix, which no value of the form carries, are left out. *)
Definition digit_of (c : ascii) : option Z :=
  let n := Z.of_nat (nat_of_ascii c) in
  if (48 <=? n) && (n <=? 57) then Some (n - 48) else None.

Fixpoint parse_digits (s : string) (acc : option Z) : option Z :=
  match s with
  | EmptyString => acc
  | String c s' =>
      match digit_of c with
      | Some d => parse_digits s' (Some (10 * match acc with Some a => a | None => 0 end + d))
      | None => acc
      end
  end.

Definition parseInt (s : string) : option Z :=
  match s with
  | String "-"%char s' => option_map Z.opp (parse_digits s' None)
  | String "+"%char s' => parse_digits s' None
  | _ => parse_digits s None
  end.

(** The options of the weekday select, as [(value, label)], in the order
    of the source. *)
Definition DAYS_OF_WEEK : list (string * string) :=
  [ ("6", "Sunday"); ("0", "Monday"); ("1", "Tuesday"); ("2", "Wednesday");
    ("3", "Thursday"); ("4", "Friday"); ("5", "Saturday") ]%string.

(** Picking the option labelled [label] puts its value into
    [selectedDayOfWeek]. *)
Definition select_day_of_week (label : string) : option string :=
  option_map fst (find (fun o => String.eqb (snd o) label) DAYS_OF_WEEK).

(** [const dayOfWeek = selectedDayOfWeek === "7" ? 0 : parseInt(selectedDayOfWeek)] *)
Definition dayOfWeek_of (selectedDayOfWeek : string) : option Z :=
  if String.eqb selectedDayOfWeek "7" then Some 0 else parseInt selectedDayOfWeek.

(** [handleSubmit]: an empty field stops with a toast; a field that does
    not parse makes the storage reject the request. *)
Definition handleSubmit (selectedDriver : option uuid)
    (selectedMonth selectedYear selectedDayOfWeek : string) (db : DB) : DB * Toast :=
  match selectedDriver with
  | None => (db, ToastError)
  | Some driver =>
      if String.eqb selectedMonth "" || String.eqb selectedYear ""
         || String.eqb selectedDayOfWeek ""
      then (db, ToastError)
      else
        match parseInt selectedMonth, parseInt selectedYear,
              dayOfWeek_of selectedDayOfWeek with
        | Some m, Some y, Some dayOfWeek => set_pattern driver m y dayOfWeek db
        | _, _, _ => (db, ToastError)
        end
  end.

(** The weekday names of the trigger's numbering, as the migration
    documents it: [-- 0 = Sunday, 6 = Saturday]. *)
Definition dow_name (n : Z) : string :=
  nth (Z.to_nat n)
      [ "Sunday"; "Monday"; "Tuesday"; "Wednesday"; "Thursday"; "Friday";
        "Saturday" ]%string ""%string.

(* ---------------------------------------------------------------- *)
(** ** JavaScript dates *)
(* ---------------------------------------------------------------- *)

(** A [Date] is a number of milliseconds since 1970-01-01T00:00Z. *)
Definition MS_PER_DAY : Z := 86400000.

(** [new Date(year, monthIndex, day)]: midnight of that day in the
    browser's zone; months and days outside their range carry over, and
    years 0..99 mean 1900..1999. *)
Definition new_Date (y monthIndex d : Z) : Z :=
  let y' := if (0 <=? y) && (y <=? 99) then 1900 + y else y in
  (make_date (y' + monthIndex / 12) (monthIndex mod 12 + 1) 1 + (d - 1)) * MS_PER_DAY
  - client_utc_offset * 60000.

(** [t.toISOString().split("T")[0]]: the UTC calendar date of the instant. *)
Definition toISOString_date (t : Z) : date := t / MS_PER_DAY.

(* ---------------------------------------------------------------- *)
(** ** Delete Pattern: [handleDelete] *)
(* ---------------------------------------------------------------- *)

Definition delete_pattern (id : uuid) (db : DB) : DB :=
  set_patterns db (filter (fun p => negb (Nat.eqb (p_id p) id))
                          (driver_monthly_dayoff db)).

Definition handleDelete (patternId : uuid) (db : DB) : DB * Toast :=
  match single (filter (fun p => Nat.eqb (p_id p) patternId)
                       (driver_monthly_dayoff db)) with
  | (Some pattern, false) =>
      let startDate := new_Date (year pattern) (month pattern - 1) 1 in
      let endDate := new_Date (year pattern) (month pattern) 0 in
      let db1 :=
        delete_schedules
          (fun s => Nat.eqb (s_driver_id s) (p_driver_id pattern)
                    && is_day_off s
                    && (toISOString_date startDate <=? s_date s)
                    && (s_date s <=? toISOString_date endDate))
          db in
      (delete_pattern patternId db1, ToastSuccess)
  | _ => (db, ToastError)
  end.

(* ---------------------------------------------------------------- *)
(** ** The day-schedule dialog *)
(* ---------------------------------------------------------------- *)

Inductive ScheduleType := day_off | annual_leave.

(** [handleScheduleUpdate]: no [error] is looked at, the toast is always
    the success one. *)
Definition handleScheduleUpdate (date : Z) (driverId : uuid) (type : ScheduleType)
    (db : DB) : DB * Toast :=
  let dateStr := toISOString_date date in
  let '(existingSchedule, _) :=
    maybeSingle (filter (schedule_key_eqb driverId dateStr) (schedules db)) in
  match existingSchedule with
  | Some existing =>
      (update_schedule_flags (s_id existing)
         (match type with day_off => negb (is_day_off existing) | annual_leave => false end)
         (match type with annual_leave => negb (is_annual_leave existing) | day_off => false end)
         db,
       ToastSuccess)
  | None =>
      (fst (insert_schedule driverId dateStr
              (match type with day_off => true | annual_leave => false end)
              (match type with annual_leave => true | day_off => false end)
              db),
       ToastSuccess)
  end.

(** The accrual shared by both replacement handlers: look up the driver's
    overtime record of the date, add 8 hours to it or insert one of 8
    hours. *)
Definition accrue_overtime (driver : uuid) (dateStr : date) (db : DB) : DB :=
  let '(existingOT, _) :=
    maybeSingle (filter (overtime_key_eqb driver dateStr) (overtime_records db)) in
  match existingOT with
  | Some existing => update_overtime_hours (o_id existing) (hours existing + 800) db
  | None => insert_overtime driver dateStr 800 ot_replacement 150 db
  end.

(** [handleAssignReplacement]; [outcome] is the storage's answer to the
    insert into [replacements], of which the handler reads only [data]. *)
Definition handleAssignReplacement (outcome : StorageOutcome) (date : Z)
    (scheduleId replacementDriverId driverId shiftId : uuid) (db : DB) : DB * Toast :=
  let dateStr := toISOString_date date in
  let db1 :=
    match outcome with
    | Accepted => insert_replacement scheduleId replacementDriverId shiftId db
    | Rejected => db
    end in
  (accrue_overtime replacementDriverId dateStr db1, ToastSuccess).

(** [handleUpdateReplacement] *)
Definition handleUpdateReplacement (date : Z)
    (replacementId newDriverId driverId scheduleId : uuid) (db : DB) : DB * Toast :=
  let dateStr := toISOString_date date in
  match single (filter (fun r => Nat.eqb (r_id r) replacementId) (replacements db)) with
  | (Some oldReplacement, _) =>
      let db1 := update_replacement_driver replacementId newDriverId db in
      let db2 :=
        delete_overtime
          (fun o => Nat.eqb (o_driver_id o) (replacement_driver_id oldReplacement)
                    && (o_date o =? dateStr)
                    && OtType_eqb (ot_type o) ot_replacement)
          db1 in
      (accrue_overtime newDriverId dateStr db2, ToastSuccess)
  | (None, _) => (db, ToastError)
  end.

(* ---------------------------------------------------------------- *)
(** ** Reachable states *)
(* ---------------------------------------------------------------- *)

Inductive Operation :=
| MarkSchedule (date : Z) (driverId : uuid) (type : ScheduleType)
| SetPattern (driver : uuid) (m y dow : Z)
| DeletePattern (patternId : uuid)
| AssignReplacement (outcome : StorageOutcome) (date : Z)
    (scheduleId replacementDriverId driverId shiftId : uuid)
| UpdateReplacement (date : Z) (replacementId newDriverId driverId scheduleId : uuid).

Definition run (op : Operation) (db : DB) : DB :=
  match op with
  | MarkSchedule date driverId type => fst (handleScheduleUpdate date driverId type db)
  | SetPattern driver m y dow => fst (set_pattern driver m y dow db)
  | DeletePattern patternId => fst (handleDelete patternId db)
  | AssignReplacement outcome date scheduleId replacementDriverId driverId shiftId =>
      fst (handleAssignReplacement outcome date scheduleId replacementDriverId
             driverId shiftId db)
  | UpdateReplacement date replacementId newDriverId driverId scheduleId =>
      fst (handleUpdateReplacement date replacementId newDriverId driverId scheduleId db)
  end.

Inductive reachable : DB -> Prop :=
| reachable_empty : reachable empty_db
| reachable_run : forall op db, reachable db -> reachable (run op db).

End Deployment.

(* ================================================================== *)
(** ** Vocabulary of the statements *)
(* ================================================================== *)

Definition schedule_key (s : Schedule) : uuid * date := (s_driver_id s, s_date s).

Definition pattern_key (p : DayOffPattern) : uuid * Z * Z :=
  (p_driver_id p, month p, year p).

(** The constraints the schema declares: [UNIQUE (driver_id, date)] on
    schedules, [UNIQUE (driver_id, month, year)] and the primary key on
    patterns; identifiers in use were handed out before [next_uuid]. *)
Record constraints (db : DB) : Prop := mkConstraints {
  schedules_unique : NoDup (map schedule_key (schedules db));
  patterns_unique : NoDup (map pattern_key (driver_monthly_dayoff db));
  pattern_ids_unique : NoDup (map p_id (driver_monthly_dayoff db));
  pattern_ids_fresh :
    Forall (fun p => (p_id p < next_uuid db)%nat) (driver_monthly_dayoff db) }.

(** A date of the month, by the civil calendar. *)
Definition in_month (y m : Z) (d : date) : bool :=
  existsb (Z.eqb d) (month_dates y m).

(** The schedule rows of a driver in a month, and the day-off ones. *)
Definition month_rows (driver : uuid) (y m : Z) (db : DB) : list Schedule :=
  filter (fun s => Nat.eqb (s_driver_id s) driver && in_month y m (s_date s))
         (schedules db).

Definition day_off_rows (driver : uuid) (y m : Z) (db : DB) : list Schedule :=
  filter (fun s => Nat.eqb (s_driver_id s) driver && is_day_off s
                   && in_month y m (s_date s))
         (schedules db).

(** The number of calendar dates of the month that fall on weekday [dow]. *)
Definition weekday_count (y m dow : Z) : nat :=
  length (filter (fun d => extract_dow d =? dow) (month_dates y m)).

Definition pattern_rows (driver : uuid) (m y : Z) (db : DB) : list DayOffPattern :=
  filter (pattern_key_eqb driver m y) (driver_monthly_dayoff db).

(** The overtime records of a driver on a date, and their hours in total. *)
Definition overtime_of (driver : uuid) (d : date) (db : DB) : list OvertimeRecord :=
  filter (overtime_key_eqb driver d) (overtime_records db).

Definition total_hours (l : list OvertimeRecord) : Z :=
  fold_right (fun o acc => hours o + acc) 0 l.

(** No row is both a day off and an annual leave. *)
Definition exclusive (s : Schedule) : Prop :=
  is_day_off s && is_annual_leave s = false.

Definition exclusive_flags (db : DB) : Prop := Forall exclusive (schedules db).

(** The number of rows of [rows] with key [(driver, d)] that satisfy [p]. *)
Definition count_at (p : Schedule -> bool) (driver : uuid) (d : date)
    (rows : list Schedule) : nat :=
  length (filter (fun s => schedule_key_eqb driver d s && p s) rows).

(** The states the dialog's marking and Set Pattern alone lead to. *)
Inductive ui_reachable (tz : Z) : DB -> Prop :=
| ui_empty : ui_reachable tz empty_db
| ui_mark : forall db date driverId type,
    ui_reachable tz db ->
    ui_reachable tz (fst (handleScheduleUpdate date driverId type db))
| ui_set_pattern : forall db driver m y dow,
    ui_reachable tz db ->
    ui_reachable tz (fst (set_pattern tz driver m y dow db)).

(** The driver has no annual leave on a date of the month that the trigger
    reads as weekday [dow]. *)
Definition no_annual_leave_on (tz : Z) (driver : uuid) (m y dow : Z) (db : DB) : Prop :=
  forall s, In s (schedules db) ->
    s_driver_id s = driver ->
    in_month y m (s_date s) = true ->
    local_dow tz (s_date s) = dow ->
    is_annual_leave s = false.

(** The same states, with Set Pattern invoked only where it meets no annual
    leave. *)
Inductive ui_reachable_guarded (tz : Z) : DB -> Prop :=
| uig_empty : ui_reachable_guarded tz empty_db
| uig_mark : forall db date driverId type,
    ui_reachable_guarded tz db ->
    ui_reachable_guarded tz (fst (handleScheduleUpdate date driverId type db))
| uig_set_pattern : forall db driver m y dow,
    ui_reachable_guarded tz db ->
    no_annual_leave_on tz driver m y dow db ->
    ui_reachable_guarded tz (fst (set_pattern tz driver m y dow db)).

(* ================================================================== *)
(** ** Example states *)
(* ================================================================== *)

(** A day of February 2024, and an instant of that day for the dialog's
    [date] (noon UTC). *)
Definition feb_2024 (day : Z) : date := make_date 2024 2 day.

Definition noon (d : date) : Z := d * MS_PER_DAY + 43200000.

(** Driver 1 has a day off left on Friday 2 February and an annual leave on
    Thursday 8 February. *)
Definition february_db : DB :=
  mkDB [ mkSchedule 0%nat 1%nat (feb_2024 2) true false;
         mkSchedule 1%nat 1%nat (feb_2024 8) false true ]
       [] [] [] 2%nat.

(** Driver 1 is marked on annual leave for Thursday 8 February, then gets
    the pattern "Thursdays of February 2024". *)
Definition leave_then_pattern : DB :=
  fst (set_pattern 0 1%nat 2 2024 4
         (fst (handleScheduleUpdate (noon (feb_2024 8)) 1%nat annual_leave empty_db))).

(** The same with the annual leave on Friday 9 February. *)
Definition leave_off_pattern : DB :=
  fst (set_pattern 0 1%nat 2 2024 4
         (fst (handleScheduleUpdate (noon (feb_2024 9)) 1%nat annual_leave empty_db))).

(** Driver 1 is off on 29 February; driver 9 replaces them on shifts 3 and
    4, which merges into one overtime record of 16 hours. *)
Definition two_shifts_db : DB :=
  fst (handleAssignReplacement Accepted (noon (feb_2024 29)) 0%nat 9%nat 1%nat 4%nat
    (fst (handleAssignReplacement Accepted (noon (feb_2024 29)) 0%nat 9%nat 1%nat 3%nat
      (fst (handleScheduleUpdate (noon (feb_2024 29)) 1%nat day_off empty_db))))).

(** Driver 9 has 2 hours of extension overtime on 29 February. *)
Definition extension_db : DB :=
  mkDB [ mkSchedule 0%nat 1%nat (feb_2024 29) true false ] []
       [ mkOvertime 1%nat 9%nat (feb_2024 29) 200 ot_extension 150 ] [] 2%nat.

(** Driver 9 has both an extension and a replacement record on that date. *)
Definition two_types_db : DB :=
  mkDB [ mkSchedule 0%nat 1%nat (feb_2024 29) true false ] []
       [ mkOvertime 1%nat 9%nat (feb_2024 29) 200 ot_extension 150;
         mkOvertime 2%nat 9%nat (feb_2024 29) 800 ot_replacement 150 ] [] 3%nat.

(** Driver 1 has the pattern "Thursdays of February 2024", expanded. *)
Definition thursdays_db : DB := fst (set_pattern 0 1%nat 2 2024 4 empty_db).

(** The form, with driver 1, February 2024 and the option labelled
    [label] picked. *)
Definition submit_weekday (label : string) : DB :=
  match select_day_of_week label with
  | Some selectedDayOfWeek =>
      fst (handleSubmit 0 (Some 1%nat) "2" "2024" selectedDayOfWeek empty_db)
  | None => empty_db
  end.

(* ================================================================== *)
(** ** The views of the day-schedule dialog *)
(* ================================================================== *)

Record Driver := mkDriver {
  d_id : uuid;
  d_name : string;
  d_staff_id : string;
  d_car_number : option string }.

(** A schedule as the pages select it: the row with its [replacements]
    nested. *)
Record DialogSchedule := mkDialogSchedule {
  ds_row : Schedule;
  ds_replacements : list Replacement }.

(** The nested select [replacements (id, replacement_driver_id, shift_id)]
    of a schedule row. *)
Definition join_replacements (db : DB) (s : Schedule) : DialogSchedule :=
  mkDialogSchedule s
    (filter (fun r => Nat.eqb (r_schedule_id r) (s_id s)) (replacements db)).

(** [.from("schedules").select(..).gte("date", lo).lte("date", hi)] *)
Definition fetch_schedules (lo hi : date) (db : DB) : list DialogSchedule :=
  map (join_replacements db)
      (filter (fun s => (lo <=? s_date s) && (s_date s <=? hi)) (schedules db)).

(** [getSchedulesForDate] of the monthly calendar: the schedules whose date
    is the ISO date of the cell's [Date]. *)
Definition getSchedulesForDate (schedules : list DialogSchedule) (date : Z)
    : list DialogSchedule :=
  filter (fun schedule => s_date (ds_row schedule) =? toISOString_date date) schedules.

(** [getDriverSchedule]: the first schedule of the list for the driver. *)
Definition getDriverSchedule (schedules : list DialogSchedule) (driverId : uuid)
    : option DialogSchedule :=
  find (fun schedule => Nat.eqb (s_driver_id (ds_row schedule)) driverId) schedules.

(** [!schedule?.is_day_off && !schedule?.is_annual_leave] *)
Definition on_duty (schedule : option DialogSchedule) : bool :=
  match schedule with
  | Some s => negb (is_day_off (ds_row s)) && negb (is_annual_leave (ds_row s))
  | None => true
  end.

Definition getAvailableDrivers (drivers : list Driver) (schedules : list DialogSchedule)
    : list Driver :=
  filter (fun driver => on_duty (getDriverSchedule schedules (d_id driver))) drivers.

(** The options of a replacement select:
    [getAvailableDrivers().filter(d => d.id !== driver.id)]. *)
Definition replacement_options (drivers : list Driver) (schedules : list DialogSchedule)
    (driver : Driver) : list Driver :=
  filter (fun d => negb (Nat.eqb (d_id d) (d_id driver)))
         (getAvailableDrivers drivers schedules).

Definition needsReplacement (schedule : DialogSchedule) : bool :=
  (is_day_off (ds_row schedule) || is_annual_leave (ds_row schedule))
  && Nat.eqb (length (ds_replacements schedule)) 0.

(** [schedule?.is_day_off] and [schedule?.is_annual_leave] as conditions. *)
Definition shows_day_off (schedule : option DialogSchedule) : bool :=
  match schedule with Some s => is_day_off (ds_row s) | None => false end.

Definition shows_annual_leave (schedule : option DialogSchedule) : bool :=
  match schedule with Some s => is_annual_leave (ds_row s) | None => false end.

(** The [disabled] of the two marking buttons, with nothing loading: the
    day-off button is disabled on an annual leave and the other way round. *)
Definition button_disabled (type : ScheduleType) (schedule : option DialogSchedule)
    : bool :=
  match type with
  | day_off => shows_annual_leave schedule
  | annual_leave => shows_day_off schedule
  end.

(** The status filter of [filteredDrivers]: one entry of [statusFilter]
    against the driver's schedule. *)
Definition status_matches (schedule : option DialogSchedule) (filter : string) : bool :=
  if String.eqb filter "available" then on_duty schedule
  else if String.eqb filter "dayOff" then shows_day_off schedule
  else if String.eqb filter "annual" then shows_annual_leave schedule
  else true.

(** [filteredDrivers]; [matchesSearch] stands for the text search on name,
    staff id and car number. *)
Definition filteredDrivers (matchesSearch : Driver -> bool) (statusFilter : list string)
    (drivers : list Driver) (schedules : list DialogSchedule) : list Driver :=
  filter (fun driver =>
            if negb (matchesSearch driver) then false
            else if Nat.eqb (length statusFilter) 0 then true
            else existsb (status_matches (getDriverSchedule schedules (d_id driver)))
                         statusFilter)
         drivers.

(** [groupedDrivers]: [(onDuty, dayOff, annual)]. *)
Definition groupedDrivers (filtered : list Driver) (schedules : list DialogSchedule)
    : list Driver * list Driver * list Driver :=
  (filter (fun d => on_duty (getDriverSchedule schedules (d_id d))) filtered,
   filter (fun d => shows_day_off (getDriverSchedule schedules (d_id d))) filtered,
   filter (fun d => shows_annual_leave (getDriverSchedule schedules (d_id d))) filtered).

(* ================================================================== *)
(** ** The list of patterns: pages and labels *)
(* ================================================================== *)

Definition ITEMS_PER_PAGE : nat := 5.

(** [Math.ceil(n / d)] on lengths. *)
Definition ceil_div (n d : nat) : nat :=
  if Nat.eqb (n mod d) 0 then (n / d)%nat else S (n / d).

Definition totalPages {A} (patterns : list A) : nat :=
  ceil_div (length patterns) ITEMS_PER_PAGE.

(** [l.slice(start, end)] for [0 <= start <= end]. *)
Definition slice {A} (start end_ : nat) (l : list A) : list A :=
  firstn (end_ - start) (skipn start l).

(** [currentPatterns], for [currentPage >= 1]. *)
Definition currentPatterns {A} (currentPage : nat) (patterns : list A) : list A :=
  let startIndex := ((currentPage - 1) * ITEMS_PER_PAGE)%nat in
  let endIndex := (startIndex + ITEMS_PER_PAGE)%nat in
  slice startIndex endIndex patterns.

(** The Previous and Next buttons: [Math.max(1, p - 1)] and
    [Math.min(totalPages, p + 1)]. *)
Definition previousPage (p : nat) : nat := Nat.max 1 (p - 1).

Definition nextPage (total p : nat) : nat := Nat.min total (p + 1).

(** [Number(value)] on the strings used as option values: the empty string
    is 0, a run of decimal digits is its number, anything else [NaN]
    ([None]).  White space, signs, fractions and exponents, which no option
    value carries, are left out. *)
Fixpoint all_digits (s : string) : bool :=
  match s with
  | EmptyString => true
  | String c s' => match digit_of c with Some _ => all_digits s' | None => false end
  end.

Definition Number_of (s : string) : option Z :=
  if all_digits s
  then Some (match parse_digits s None with Some n => n | None => 0 end)
  else None.


(* ================================================================== *)
(** ** The overtime form and the overtime report *)
(* ================================================================== *)

(** [z.enum(["normal", "holiday", "day_off", "night"])] *)
Inductive FormOtType := form_normal | form_holiday | form_day_off | form_night.

Definition form_ot_type_text (t : FormOtType) : string :=
  match t with
  | form_normal => "normal"
  | form_holiday => "holiday"
  | form_day_off => "day_off"
  | form_night => "night"
  end.

(** The text of a stored [ot_type], and the table's
    [CHECK (ot_type IN ('replacement', 'extension', 'special'))] read the
    other way: the type a text stands for, if the check lets it in. *)
Definition ot_type_text (t : OtType) : string :=
  match t with
  | ot_replacement => "replacement"
  | ot_extension => "extension"
  | ot_special => "special"
  end.

Definition ot_type_check (s : string) : option OtType :=
  if String.eqb s "replacement" then Some ot_replacement
  else if String.eqb s "extension" then Some ot_extension
  else if String.eqb s "special" then Some ot_special
  else None.

(** [getOTRate], in hundredths. *)
Definition getOTRate (type : string) : Z :=
  if String.eqb type "normal" then 150
  else if String.eqb type "holiday" then 200
  else if String.eqb type "day_off" then 200
  else if String.eqb type "night" then 200
  else 100.

(** [DECIMAL(3,2)] *)
Definition numeric_3_2 (r : Z) : bool := Z.abs r <? 1000.

Record OvertimeFormValues := mkOvertimeFormValues {
  v_driver_id : uuid;
  v_date : Z;
  v_hours : Z;
  v_ot_type : FormOtType }.

(** [onSubmit] of the overtime form: one insert, whose error is thrown. *)
Definition OvertimeForm_onSubmit (values : OvertimeFormValues) (db : DB) : DB * Toast :=
  let type := form_ot_type_text (v_ot_type values) in
  match ot_type_check type with
  | Some ty =>
      if numeric_5_2 (v_hours values) && numeric_3_2 (getOTRate type)
      then (insert_overtime (v_driver_id values) (toISOString_date (v_date values))
              (v_hours values) ty (getOTRate type) db,
            ToastSuccess)
      else (db, ToastError)
  | None => (db, ToastError)
  end.

(** The "OT Type" column of [exportToExcel]. *)
Definition otTypeFormatted (ot_type : string) : string :=
  if String.eqb ot_type "normal" then "Normal OT (150%)"
  else if String.eqb ot_type "holiday" then "Holiday OT (200%)"
  else if String.eqb ot_type "day_off" then "Day-off OT (200%)"
  else if String.eqb ot_type "night" then "Night OT (200%)"
  else "".

(** [handleDelete] of the overtime page and of the overtime report:
    [.delete().eq("id", id)]. *)
Definition overtime_handleDelete (id : uuid) (db : DB) : DB * Toast :=
  (delete_overtime (fun o => Nat.eqb (o_id o) id) db, ToastSuccess).

(** [calculateTotals] of the report on the hours, in hundredths. *)
Definition totalHours (overtimeData : list OvertimeRecord) : Z :=
  fold_left (fun acc record => acc + hours record) overtimeData 0.

(** A run of assignments of one replacement driver on one date, each for a
    schedule, an absent driver and a shift. *)
Definition assign_all (date : Z) (replacementDriverId : uuid)
    (shifts : list (uuid * uuid * uuid)) (db : DB) : DB :=
  fold_left (fun acc a =>
               match a with
               | (scheduleId, driverId, shiftId) =>
                   fst (handleAssignReplacement Accepted date scheduleId
                          replacementDriverId driverId shiftId acc)
               end)
            shifts db.

(* ================================================================== *)
(** ** JavaScript dates: the local getters *)
(* ================================================================== *)

(** The day functions of ECMAScript's time values.  [YearFromDay] is the
    specification's "largest integer y such that DayFromYear(y) <= day",
    found from an estimate that is off by at most one. *)
Definition Day (t : Z) : Z := t / MS_PER_DAY.

Definition DaysInYear (y : Z) : Z :=
  if negb (y mod 4 =? 0) then 365
  else if negb (y mod 100 =? 0) then 366
  else if negb (y mod 400 =? 0) then 365
  else 366.

Definition DayFromYear (y : Z) : Z :=
  365 * (y - 1970) + (y - 1969) / 4 - (y - 1901) / 100 + (y - 1601) / 400.

Definition YearFromDay (day : Z) : Z :=
  let y := 1970 + 400 * day / 146097 in
  if DayFromYear (y + 1) <=? day then y + 1
  else if day <? DayFromYear y then y - 1
  else y.

Definition YearFromTime (t : Z) : Z := YearFromDay (Day t).

Definition DayWithinYear (t : Z) : Z := Day t - DayFromYear (YearFromTime t).

Definition InLeapYear (t : Z) : Z :=
  if DaysInYear (YearFromTime t) =? 366 then 1 else 0.

Definition MonthFromTime (t : Z) : Z :=
  let d := DayWithinYear t in
  let leap := InLeapYear t in
  if d <? 31 then 0
  else if d <? 59 + leap then 1
  else if d <? 90 + leap then 2
  else if d <? 120 + leap then 3
  else if d <? 151 + leap then 4
  else if d <? 181 + leap then 5
  else if d <? 212 + leap then 6
  else if d <? 243 + leap then 7
  else if d <? 273 + leap then 8
  else if d <? 304 + leap then 9
  else if d <? 334 + leap then 10
  else 11.

Definition DateFromTime (t : Z) : Z :=
  let d := DayWithinYear t in
  let leap := InLeapYear t in
  match MonthFromTime t with
  | 0 => d + 1
  | 1 => d - 30
  | 2 => d - 58 - leap
  | 3 => d - 89 - leap
  | 4 => d - 119 - leap
  | 5 => d - 150 - leap
  | 6 => d - 180 - leap
  | 7 => d - 211 - leap
  | 8 => d - 242 - leap
  | 9 => d - 272 - leap
  | 10 => d - 303 - leap
  | _ => d - 333 - leap
  end.

Definition WeekDay (t : Z) : Z := (Day t + 4) mod 7.

(** [`${n}`] for an integer: its decimal digits, after a minus sign below
    zero.  The digits are produced from the last one; [fuel] bounds their
    number. *)
Fixpoint to_digits (fuel : nat) (n : Z) (acc : string) : string :=
  match fuel with
  | O => acc
  | S fuel' =>
      let acc' := String (ascii_of_nat (Z.to_nat (48 + n mod 10))) acc in
      if n <? 10 then acc' else to_digits fuel' (n / 10) acc'
  end.

Definition Number_toString (n : Z) : string :=
  if n <? 0
  then String "-"%char (to_digits (S (Z.to_nat (Z.log2 (- n)))) (- n) EmptyString)
  else to_digits (S (Z.to_nat (Z.log2 n))) n EmptyString.

Section Browser.

(** The zone of the machine the code runs on, in minutes east of UTC. *)
Variable utc_offset : Z.

Definition LocalTime (t : Z) : Z := t + utc_offset * 60000.

Definition getFullYear (t : Z) : Z := YearFromTime (LocalTime t).
Definition getMonth (t : Z) : Z := MonthFromTime (LocalTime t).
Definition getDate (t : Z) : Z := DateFromTime (LocalTime t).
Definition getDay (t : Z) : Z := WeekDay (LocalTime t).

(* ---------------------------------------------------------------- *)
(** ** The monthly calendar *)
(* ---------------------------------------------------------------- *)

(** [getDaysInMonth] of the calendar, for its props [year] and [month]
    (0 = January): the cells of the grid, [None] for an empty cell. *)
Definition getDaysInMonth (year month : Z) : list (option Z) :=
  let date := new_Date utc_offset year month 1 in
  let lastDay := getDate (new_Date utc_offset year (month + 1) 0) in
  let firstDayOfWeek := getDay date in
  repeat None (Z.to_nat firstDayOfWeek)
  ++ map (fun i => Some (new_Date utc_offset year month (Z.of_nat i)))
         (seq 1 (Z.to_nat lastDay)).

(* ---------------------------------------------------------------- *)
(** ** The schedule page *)
(* ---------------------------------------------------------------- *)

(** The schedules the page fetches for [year] and [month] (0 = January). *)
Definition SchedulePage_schedules (year month : Z) (db : DB) : list DialogSchedule :=
  let startDate := new_Date utc_offset year month 1 in
  let endDate := new_Date utc_offset year (month + 1) 0 in
  fetch_schedules (toISOString_date startDate) (toISOString_date endDate) db.

(** The [month] and [year] parameters the page reads:
    [Number(searchParams?.month ?? (today.getMonth() + 1)) - 1] and
    [Number(searchParams?.year ?? today.getFullYear())]; [None] is [NaN]. *)
Definition SchedulePage_month (today : Z) (month : option string) : option Z :=
  option_map (fun n => n - 1)
    (match month with
     | Some s => Number_of s
     | None => Some (getMonth today + 1)
     end).

Definition SchedulePage_year (today : Z) (year : option string) : option Z :=
  match year with
  | Some s => Number_of s
  | None => Some (getFullYear today)
  end.

(** The [month] and [year] parameters of the links to the previous and to
    the next month. *)
Definition prevMonthUrl (year month : Z) : string * string :=
  let prevMonth := new_Date utc_offset year (month - 1) 1 in
  (Number_toString (getMonth prevMonth + 1), Number_toString (getFullYear prevMonth)).

Definition nextMonthUrl (year month : Z) : string * string :=
  let nextMonth := new_Date utc_offset year (month + 1) 1 in
  (Number_toString (getMonth nextMonth + 1), Number_toString (getFullYear nextMonth)).

End Browser.

(** The days of the year before month [m]. *)
Definition days_before (leap : Z) (m : Z) : Z :=
  match m with
  | 1 => 0 | 2 => 31 | 3 => 59 + leap | 4 => 90 + leap | 5 => 120 + leap
  | 6 => 151 + leap | 7 => 181 + leap | 8 => 212 + leap | 9 => 243 + leap
  | 10 => 273 + leap | 11 => 304 + leap | _ => 334 + leap
  end.

(* ================================================================== *)
(** ** A roster for the examples *)
(* ================================================================== *)

Definition roster_drivers : list Driver :=
  [ mkDriver 1%nat "Dara" "S001" None;
    mkDriver 2%nat "Sok" "S002" (Some "2A-1234"%string);
    mkDriver 3%nat "Vanna" "S003" None ]%string.

(** Driver 1 is off on Friday 2 February, on annual leave on Thursday 8
    February and off on 1 March; driver 2 is off on 8 February; driver 3 has
    a row without flags on 8 February, replaces drivers 1 and 2 on shift 7
    and has the overtime of it. *)
Definition roster_db : DB :=
  mkDB [ mkSchedule 0%nat 1%nat (feb_2024 2) true false;
         mkSchedule 1%nat 1%nat (feb_2024 8) false true;
         mkSchedule 2%nat 2%nat (feb_2024 8) true false;
         mkSchedule 3%nat 3%nat (feb_2024 8) false false;
         mkSchedule 4%nat 1%nat (feb_2024 29 + 1) true false ]
       [ mkReplacement 5%nat 0%nat 3%nat 7%nat;
         mkReplacement 6%nat 2%nat 3%nat 7%nat ]
       [ mkOvertime 8%nat 3%nat (feb_2024 2) 800 ot_replacement 150;
         mkOvertime 9%nat 3%nat (feb_2024 8) 800 ot_replacement 150 ]
       [] 10%nat.


(* ================================================================== *)
(** ** Proof automation *)
(* ================================================================== *)

(** Closed goals on the examples, by evaluation. *)
Ltac evaluated := vm_compute; repeat split; (reflexivity || discriminate).

Ltac distinct_keys :=
  repeat (apply NoDup_cons; [cbn; intuition (discriminate || lia)|]); apply NoDup_nil.

Ltac constraints_hold :=
  constructor; vm_compute; [distinct_keys | distinct_keys | distinct_keys | repeat constructor].

(* ================================================================== *)
(** ** Calendar facts *)
(* ================================================================== *)

Example make_date_epoch : make_date 1970 1 1 = 0.
Proof. reflexivity. Qed.

Example make_date_2024_02_29 : make_date 2024 2 29 = 19782.
Proof. reflexivity. Qed.

Example dow_2024_02_01 : extract_dow (make_date 2024 2 1) = 4.
Proof. reflexivity. Qed.

Lemma make_date_day (y m d : Z) : make_date y m d = make_date y m 1 + (d - 1).
Proof. unfold make_date, date2j. lia. Qed.

(** The day numbers agree with the civil calendar: the first of the next
    month comes [days_in_month] days after the first of this month. *)
Lemma first_of_next_month_spec (y m : Z) :
  1 <= m <= 12 ->
  first_of_next_month y m = make_date y m 1 + days_in_month y m.
Proof.
  intros Hm.
  assert (Hc : m = 1 \/ m = 2 \/ m = 3 \/ m = 4 \/ m = 5 \/ m = 6 \/ m = 7 \/
               m = 8 \/ m = 9 \/ m = 10 \/ m = 11 \/ m = 12) by lia.
  unfold first_of_next_month, days_in_month, is_leap, make_date, date2j.
  repeat (destruct Hc as [-> | Hc]); try subst m;
    repeat match goal with
           | |- context [?a =? ?b] => destruct (Z.eqb_spec a b)
           | |- context [?a <? ?b] => destruct (Z.ltb_spec a b)
           end; cbn [andb orb negb]; try lia;
    Z.to_euclidean_division_equations; lia.
Qed.


(* ================================================================== *)
(** ** Counting rows of the schedules table *)
(* ================================================================== *)

Lemma schedule_key_eqb_iff (driver : uuid) (d : date) (s : Schedule) :
  schedule_key_eqb driver d s = true <-> schedule_key s = (driver, d).
Proof.
  unfold schedule_key_eqb, schedule_key.
  rewrite andb_true_iff, Nat.eqb_eq, Z.eqb_eq.
  split; [intros [-> ->]; reflexivity | intros [= -> ->]; auto].
Qed.

Lemma existsb_key_In (driver : uuid) (d : date) (rows : list Schedule) :
  existsb (schedule_key_eqb driver d) rows = true <->
  In (driver, d) (map schedule_key rows).
Proof.
  rewrite existsb_exists, in_map_iff.
  split; intros [s [H1 H2]]; exists s.
  - apply schedule_key_eqb_iff in H2. auto.
  - split; [assumption | now apply schedule_key_eqb_iff].
Qed.

Lemma filter_length_ext_in {A} (f g : A -> bool) (l : list A) :
  (forall a, In a l -> f a = g a) ->
  length (filter f l) = length (filter g l).
Proof.
  intros H. now rewrite (filter_ext_in f g l H).
Qed.

Lemma filter_filter_andb {A} (f g : A -> bool) (l : list A) :
  filter f (filter g l) = filter (fun a => g a && f a) l.
Proof.
  induction l as [|a l IH]; cbn; [reflexivity|].
  destruct (g a); cbn; [destruct (f a)|]; now rewrite IH.
Qed.

Lemma filter_map_length {A B} (f : A -> B) (g : B -> bool) (l : list A) :
  length (filter g (map f l)) = length (filter (fun a => g (f a)) l).
Proof.
  induction l as [|a l IH]; cbn; [reflexivity|].
  destruct (g (f a)); cbn; now rewrite IH.
Qed.

Lemma NoDup_map_filter {A B} (k : A -> B) (f : A -> bool) (l : list A) :
  NoDup (map k l) -> NoDup (map k (filter f l)).
Proof.
  induction l as [|a l IH]; cbn; intros H; [constructor|].
  inversion H as [|? ? Hn Hd]; subst.
  destruct (f a); cbn; [constructor|]; auto.
  intros Hin. apply Hn.
  apply in_map_iff in Hin. destruct Hin as [x [Hx Hin]].
  apply filter_In in Hin. apply in_map_iff. exists x. tauto.
Qed.

Lemma count_at_notin (p : Schedule -> bool) (driver : uuid) (d : date)
    (rows : list Schedule) :
  ~ In (driver, d) (map schedule_key rows) -> count_at p driver d rows = 0%nat.
Proof.
  unfold count_at. induction rows as [|s rows IH]; cbn; intros H; [reflexivity|].
  destruct (schedule_key_eqb driver d s) eqn:E.
  - apply schedule_key_eqb_iff in E. exfalso. apply H. now left.
  - cbn. apply IH. intros Hin. apply H. now right.
Qed.

Lemma count_at_unique (driver : uuid) (d : date) (rows : list Schedule) :
  NoDup (map schedule_key rows) ->
  In (driver, d) (map schedule_key rows) ->
  count_at (fun _ => true) driver d rows = 1%nat.
Proof.
  induction rows as [|s rows IH]; cbn; intros Hnd Hin; [contradiction|].
  inversion Hnd as [|? ? Hn Hd]; subst.
  unfold count_at in *. cbn.
  destruct (schedule_key_eqb driver d s) eqn:E; cbn.
  - apply schedule_key_eqb_iff in E. rewrite E in Hn.
    f_equal. apply (count_at_notin (fun _ => true)). assumption.
  - destruct Hin as [Hin|Hin].
    + apply schedule_key_eqb_iff in Hin. congruence.
    + auto.
Qed.

Lemma count_at_app (p : Schedule -> bool) (driver : uuid) (d : date)
    (l1 l2 : list Schedule) :
  count_at p driver d (l1 ++ l2) = (count_at p driver d l1 + count_at p driver d l2)%nat.
Proof. unfold count_at. now rewrite filter_app, length_app. Qed.

Lemma count_at_filter (p q : Schedule -> bool) (driver : uuid) (d : date)
    (rows : list Schedule) :
  count_at p driver d (filter q rows) =
  count_at (fun s => q s && p s) driver d rows.
Proof.
  unfold count_at. rewrite filter_filter_andb.
  apply filter_length_ext_in. intros s _.
  destruct (q s), (schedule_key_eqb driver d s), (p s); reflexivity.
Qed.

Lemma count_at_ext (p q : Schedule -> bool) (driver : uuid) (d : date)
    (rows : list Schedule) :
  (forall s, In s rows -> schedule_key s = (driver, d) -> p s = q s) ->
  count_at p driver d rows = count_at q driver d rows.
Proof.
  intros H. unfold count_at. apply filter_length_ext_in. intros s Hs.
  destruct (schedule_key_eqb driver d s) eqn:E; [|reflexivity].
  cbn. apply H; [assumption | now apply schedule_key_eqb_iff].
Qed.

Lemma count_at_cons (p : Schedule -> bool) (driver : uuid) (d : date)
    (s : Schedule) (rows : list Schedule) :
  count_at p driver d (s :: rows) =
  ((if schedule_key_eqb driver d s && p s then 1 else 0)
   + count_at p driver d rows)%nat.
Proof.
  unfold count_at. cbn [filter].
  now destruct (schedule_key_eqb driver d s && p s).
Qed.

(** The dates of [L] partition the rows whose date is in [L]. *)
Lemma count_in_dates (x : date) (L : list date) :
  NoDup L ->
  fold_right (fun d acc => ((if (x =? d)%Z then 1 else 0) + acc)%nat) 0%nat L =
  if existsb (Z.eqb x) L then 1%nat else 0%nat.
Proof.
  induction L as [|d L IH]; cbn; intros H; [reflexivity|].
  inversion H as [|? ? Hn Hd]; subst. rewrite (IH Hd).
  destruct (Z.eqb_spec x d) as [->|Hne]; cbn; [|reflexivity].
  destruct (existsb (Z.eqb d) L) eqn:E; [|reflexivity].
  apply existsb_exists in E. destruct E as [z [Hz E]].
  apply Z.eqb_eq in E. subst z. contradiction.
Qed.

Lemma length_filter_dates (p : Schedule -> bool) (driver : uuid) (L : list date)
    (rows : list Schedule) :
  NoDup L ->
  length (filter (fun s => Nat.eqb (s_driver_id s) driver && p s
                           && existsb (Z.eqb (s_date s)) L) rows) =
  fold_right (fun d acc => (count_at p driver d rows + acc)%nat) 0%nat L.
Proof.
  intros HL. induction rows as [|s rows IH].
  - cbn. induction L as [|d L IHL]; cbn; [reflexivity|].
    inversion HL; subst. now rewrite <- IHL.
  - cbn [filter].
    assert (Hsum : forall M,
      fold_right (fun d acc => (count_at p driver d (s :: rows) + acc)%nat) 0%nat M =
      ((if Nat.eqb (s_driver_id s) driver && p s then
          fold_right (fun d acc => ((if (s_date s =? d)%Z then 1 else 0) + acc)%nat) 0%nat M
        else 0) +
       fold_right (fun d acc => (count_at p driver d rows + acc)%nat) 0%nat M)%nat).
    { induction M as [|d M IHM]; cbn [fold_right].
      - now destruct (Nat.eqb (s_driver_id s) driver && p s).
      - rewrite IHM, count_at_cons. unfold schedule_key_eqb.
        destruct (Nat.eqb (s_driver_id s) driver), (p s), (s_date s =? d);
          cbn; lia. }
    rewrite Hsum, (count_in_dates _ _ HL), <- IH.
    destruct (Nat.eqb (s_driver_id s) driver), (p s),
             (existsb (Z.eqb (s_date s)) L); cbn; lia.
Qed.

(* ================================================================== *)
(** ** The upsert and the expansion loop *)
(* ================================================================== *)

Lemma NoDup_snoc {A} (l : list A) (x : A) :
  NoDup l -> ~ In x l -> NoDup (l ++ [x]).
Proof.
  intros Hl Hx. apply NoDup_app; [assumption | repeat constructor; intros [] |].
  intros a Ha [<-|[]]. contradiction.
Qed.

Lemma upsert_day_off_unique (driver : uuid) (d : date) (db : DB) :
  NoDup (map schedule_key (schedules db)) ->
  NoDup (map schedule_key (schedules (upsert_day_off driver d db))).
Proof.
  intros H. unfold upsert_day_off.
  destruct (existsb (schedule_key_eqb driver d) (schedules db)) eqn:E; cbn.
  - rewrite map_map.
    erewrite map_ext; [exact H|].
    intros s. now destruct (schedule_key_eqb driver d s).
  - rewrite map_app. cbn. apply NoDup_snoc; [assumption|].
    intros Hin.
    change (In (driver, d) (map schedule_key (schedules db))) in Hin.
    apply existsb_key_In in Hin. congruence.
Qed.

(** The upsert leaves every other key as it was. *)
Lemma upsert_day_off_other (p : Schedule -> bool) (driver driver' : uuid)
    (d d' : date) (db : DB) :
  (driver', d') <> (driver, d) ->
  count_at p driver' d' (schedules (upsert_day_off driver d db)) =
  count_at p driver' d' (schedules db).
Proof.
  intros Hne. unfold upsert_day_off.
  destruct (existsb (schedule_key_eqb driver d) (schedules db));
    cbn [schedules set_schedules].
  - unfold count_at. rewrite filter_map_length.
    apply filter_length_ext_in. intros s _.
    destruct (schedule_key_eqb driver d s) eqn:E; [|reflexivity].
    apply schedule_key_eqb_iff in E.
    assert (Hf : forall t, schedule_key t = (driver, d) ->
                           schedule_key_eqb driver' d' t = false).
    { intros t Ht. destruct (schedule_key_eqb driver' d' t) eqn:E'; [|reflexivity].
      apply schedule_key_eqb_iff in E'. congruence. }
    rewrite (Hf s E). rewrite Hf; [reflexivity | exact E].
  - rewrite count_at_app. unfold count_at at 2. cbn [filter].
    destruct (schedule_key_eqb driver' d' _) eqn:E'; cbn; [|lia].
    apply schedule_key_eqb_iff in E'. unfold schedule_key in E'. cbn in E'.
    congruence.
Qed.

(** After the upsert the key holds exactly one row, and it is a day off. *)
Lemma upsert_day_off_here (driver : uuid) (d : date) (db : DB) :
  NoDup (map schedule_key (schedules db)) ->
  count_at (fun _ => true) driver d (schedules (upsert_day_off driver d db)) = 1%nat /\
  count_at is_day_off driver d (schedules (upsert_day_off driver d db)) = 1%nat.
Proof.
  intros Hnd.
  assert (Hone : count_at (fun _ => true) driver d
                   (schedules (upsert_day_off driver d db)) = 1%nat).
  { apply count_at_unique.
    - now apply upsert_day_off_unique.
    - unfold upsert_day_off.
      destruct (existsb (schedule_key_eqb driver d) (schedules db)) eqn:E; cbn.
      + apply existsb_key_In in E. rewrite map_map.
        erewrite map_ext; [exact E|].
        intros s. now destruct (schedule_key_eqb driver d s).
      + rewrite map_app. apply in_or_app. right. now left. }
  split; [exact Hone|]. rewrite <- Hone.
  apply count_at_ext. intros s Hs Hk.
  unfold upsert_day_off in Hs.
  destruct (existsb (schedule_key_eqb driver d) (schedules db)) eqn:E; cbn in Hs.
  - apply in_map_iff in Hs. destruct Hs as [t [Ht Hin]].
    destruct (schedule_key_eqb driver d t) eqn:Et.
    + now subst s.
    + subst s. apply schedule_key_eqb_iff in Hk. congruence.
  - apply in_app_or in Hs. destruct Hs as [Hs|[<-|[]]]; [|reflexivity].
    exfalso. apply (in_map schedule_key) in Hs. rewrite Hk in Hs.
    apply existsb_key_In in Hs. congruence.
Qed.

Lemma upsert_day_off_tables (driver : uuid) (d : date) (db : DB) :
  replacements (upsert_day_off driver d db) = replacements db /\
  overtime_records (upsert_day_off driver d db) = overtime_records db /\
  driver_monthly_dayoff (upsert_day_off driver d db) = driver_monthly_dayoff db /\
  (next_uuid db <= next_uuid (upsert_day_off driver d db))%nat.
Proof.
  unfold upsert_day_off.
  destruct (existsb (schedule_key_eqb driver d) (schedules db)); cbn; auto.
Qed.

Section Expansion.

Variable tz : Z.

Lemma dayoff_loop_unique (fuel : nat) (curr last : date) (NEW : DayOffPattern)
    (db : DB) :
  NoDup (map schedule_key (schedules db)) ->
  NoDup (map schedule_key (schedules (dayoff_loop tz fuel curr last NEW db))).
Proof.
  revert curr db. induction fuel as [|fuel IH]; intros curr db H; cbn; [exact H|].
  destruct (curr <=? last); [|exact H].
  apply IH. destruct (local_dow tz curr =? day_of_week NEW); [|exact H].
  now apply upsert_day_off_unique.
Qed.

Lemma dayoff_loop_tables (fuel : nat) (curr last : date) (NEW : DayOffPattern)
    (db : DB) :
  replacements (dayoff_loop tz fuel curr last NEW db) = replacements db /\
  overtime_records (dayoff_loop tz fuel curr last NEW db) = overtime_records db /\
  driver_monthly_dayoff (dayoff_loop tz fuel curr last NEW db)
    = driver_monthly_dayoff db /\
  (next_uuid db <= next_uuid (dayoff_loop tz fuel curr last NEW db))%nat.
Proof.
  revert curr db. induction fuel as [|fuel IH]; intros curr db; cbn; [auto|].
  destruct (curr <=? last); [|auto].
  destruct (local_dow tz curr =? day_of_week NEW); [|apply IH].
  destruct (IH (curr + 1) (upsert_day_off (p_driver_id NEW) curr db))
    as (-> & -> & -> & Hn).
  destruct (upsert_day_off_tables (p_driver_id NEW) curr db)
    as (-> & -> & -> & Hn').
  repeat split; lia.
Qed.

(** Keys the loop does not write keep their rows. *)
Lemma dayoff_loop_other (p : Schedule -> bool) (fuel : nat) (curr last : date)
    (NEW : DayOffPattern) (db : DB) (driver : uuid) (d : date) :
  ~ (driver = p_driver_id NEW /\ curr <= d <= last
     /\ local_dow tz d = day_of_week NEW) ->
  count_at p driver d (schedules (dayoff_loop tz fuel curr last NEW db)) =
  count_at p driver d (schedules db).
Proof.
  revert curr db. induction fuel as [|fuel IH]; intros curr db H; cbn; [reflexivity|].
  destruct (Z.leb_spec curr last) as [Hle|Hgt]; [|reflexivity].
  rewrite IH by lia.
  destruct (Z.eqb_spec (local_dow tz curr) (day_of_week NEW)) as [Hd|Hd];
    [|reflexivity].
  apply upsert_day_off_other. intros [= -> ->]. apply H. repeat split; lia.
Qed.

(** Every date of the range on the pattern's weekday ends with exactly
    one row, a day off. *)
Lemma dayoff_loop_here (fuel : nat) (curr last : date) (NEW : DayOffPattern)
    (db : DB) (d : date) :
  NoDup (map schedule_key (schedules db)) ->
  Z.of_nat fuel = last - curr + 1 ->
  curr <= d <= last ->
  local_dow tz d = day_of_week NEW ->
  count_at (fun _ => true) (p_driver_id NEW) d
    (schedules (dayoff_loop tz fuel curr last NEW db)) = 1%nat /\
  count_at is_day_off (p_driver_id NEW) d
    (schedules (dayoff_loop tz fuel curr last NEW db)) = 1%nat.
Proof.
  revert curr db. induction fuel as [|fuel IH]; intros curr db Hnd Hf Hr Hd.
  - lia.
  - cbn. destruct (Z.leb_spec curr last) as [Hle|Hgt]; [|lia].
    destruct (Z.eq_dec d curr) as [->|Hne].
    + rewrite Hd, Z.eqb_refl.
      rewrite !(dayoff_loop_other _ fuel (curr + 1)) by lia.
      now apply upsert_day_off_here.
    + apply IH; [| lia | lia | assumption].
      destruct (local_dow tz curr =? day_of_week NEW); [|assumption].
      now apply upsert_day_off_unique.
Qed.

End Expansion.

(** With the session's zone not east of Bangkok (and less than a day west
    of it) the Bangkok-local weekday is the weekday of the date. *)
Lemma local_dow_extract_dow (tz : Z) (d : date) :
  -1020 < tz <= 420 -> local_dow tz d = extract_dow d.
Proof.
  intros Htz. unfold local_dow, at_time_zone_bangkok, BANGKOK_UTC_OFFSET. f_equal.
  Z.to_euclidean_division_equations; lia.
Qed.

(* ================================================================== *)
(** ** The dates of a month *)
(* ================================================================== *)

Lemma days_in_month_range (y m : Z) : 28 <= days_in_month y m <= 31.
Proof.
  unfold days_in_month.
  destruct (m =? 2); [destruct (is_leap y); lia|].
  destruct ((m =? 4) || (m =? 6) || (m =? 9) || (m =? 11)); lia.
Qed.

Lemma in_month_iff (y m : Z) (d : date) :
  in_month y m d = true <->
  make_date y m 1 <= d <= make_date y m 1 + days_in_month y m - 1.
Proof.
  unfold in_month, month_dates. rewrite existsb_exists.
  pose proof (days_in_month_range y m) as Hr.
  split.
  - intros [x [Hin Hx]]. apply Z.eqb_eq in Hx. subst x.
    apply in_map_iff in Hin. destruct Hin as [k [<- Hk]].
    apply in_seq in Hk. rewrite (make_date_day y m (Z.of_nat k)). lia.
  - intros H. exists d. split; [|apply Z.eqb_refl].
    apply in_map_iff. exists (Z.to_nat (d - make_date y m 1 + 1)). split.
    + rewrite (make_date_day y m (Z.of_nat _)). lia.
    + apply in_seq. lia.
Qed.

Lemma month_dates_NoDup (y m : Z) : NoDup (month_dates y m).
Proof.
  unfold month_dates. generalize (Z.to_nat (days_in_month y m)) as n.
  generalize 1%nat as lo. intros lo n. revert lo.
  induction n as [|n IH]; intros lo; cbn; constructor; [|apply IH].
  intros Hin. apply in_map_iff in Hin. destruct Hin as [k [Hk Hin]].
  apply in_seq in Hin. rewrite (make_date_day y m (Z.of_nat k)) in Hk.
  rewrite (make_date_day y m (Z.of_nat lo)) in Hk. lia.
Qed.

(** The trigger's range is the month. *)
Lemma trigger_range (y m : Z) (d : date) :
  1 <= m <= 12 ->
  (make_date y m 1 <=? d) && (d <=? first_of_next_month y m - 1) = in_month y m d.
Proof.
  intros Hm. rewrite (first_of_next_month_spec y m Hm).
  destruct (in_month y m d) eqn:E.
  - apply in_month_iff in E. apply andb_true_iff. split; apply Z.leb_le; lia.
  - apply not_true_iff_false. intros H. apply not_true_iff_false in E. apply E.
    apply in_month_iff. apply andb_true_iff in H. destruct H as [H1 H2].
    apply Z.leb_le in H1, H2. lia.
Qed.

Lemma sum_counts_weekday (f : date -> nat) (dow : Z) (L : list date) :
  (forall d, In d L -> f d = if extract_dow d =? dow then 1%nat else 0%nat) ->
  fold_right (fun d acc => (f d + acc)%nat) 0%nat L =
  length (filter (fun d => extract_dow d =? dow) L).
Proof.
  induction L as [|d L IH]; intros H; cbn; [reflexivity|].
  rewrite IH by (intros; apply H; now right).
  rewrite (H d) by now left.
  now destruct (extract_dow d =? dow).
Qed.

Lemma sum_counts_ext (f g : date -> nat) (L : list date) :
  (forall d, In d L -> f d = g d) ->
  fold_right (fun d acc => (f d + acc)%nat) 0%nat L =
  fold_right (fun d acc => (g d + acc)%nat) 0%nat L.
Proof.
  induction L as [|d L IH]; intros H; cbn; [reflexivity|].
  rewrite IH by (intros; apply H; now right).
  now rewrite (H d) by now left.
Qed.

Lemma In_month_dates (y m : Z) (d : date) :
  In d (month_dates y m) -> in_month y m d = true.
Proof.
  intros H. unfold in_month. apply existsb_exists. exists d.
  split; [assumption | apply Z.eqb_refl].
Qed.

(* ================================================================== *)
(** ** What the trigger leaves behind *)
(* ================================================================== *)

Lemma delete_schedules_unique (q : Schedule -> bool) (db : DB) :
  NoDup (map schedule_key (schedules db)) ->
  NoDup (map schedule_key (schedules (delete_schedules q db))).
Proof. intros H. cbn. now apply NoDup_map_filter. Qed.

Section Trigger.

Variable tz : Z.
Variable NEW : DayOffPattern.
Hypothesis month_range : 1 <= month NEW <= 12.

Lemma trigger_unique (db : DB) :
  NoDup (map schedule_key (schedules db)) ->
  NoDup (map schedule_key (schedules (create_monthly_dayoff_schedules tz NEW db))).
Proof.
  intros H. unfold create_monthly_dayoff_schedules.
  apply dayoff_loop_unique. now apply delete_schedules_unique.
Qed.

Lemma trigger_tables (db : DB) :
  overtime_records (create_monthly_dayoff_schedules tz NEW db) = overtime_records db /\
  driver_monthly_dayoff (create_monthly_dayoff_schedules tz NEW db)
    = driver_monthly_dayoff db /\
  (next_uuid db <= next_uuid (create_monthly_dayoff_schedules tz NEW db))%nat.
Proof.
  unfold create_monthly_dayoff_schedules.
  match goal with
  | |- context [dayoff_loop tz ?f ?c ?l NEW ?d] =>
      destruct (dayoff_loop_tables tz f c l NEW d) as (_ & -> & -> & Hn)
  end.
  cbn in *. auto.
Qed.

Lemma trigger_fuel :
  Z.of_nat (Z.to_nat (first_of_next_month (year NEW) (month NEW) - 1
                      - make_date (year NEW) (month NEW) 1 + 1))
  = first_of_next_month (year NEW) (month NEW) - 1
    - make_date (year NEW) (month NEW) 1 + 1.
Proof.
  rewrite (first_of_next_month_spec _ _ month_range).
  pose proof (days_in_month_range (year NEW) (month NEW)). lia.
Qed.

(** A date of the month on the pattern's weekday: one row, a day off. *)
Lemma trigger_on_weekday (db : DB) (d : date) :
  NoDup (map schedule_key (schedules db)) ->
  in_month (year NEW) (month NEW) d = true ->
  local_dow tz d = day_of_week NEW ->
  count_at (fun _ => true) (p_driver_id NEW) d
    (schedules (create_monthly_dayoff_schedules tz NEW db)) = 1%nat /\
  count_at is_day_off (p_driver_id NEW) d
    (schedules (create_monthly_dayoff_schedules tz NEW db)) = 1%nat.
Proof.
  intros Hnd Hin Hd. unfold create_monthly_dayoff_schedules.
  apply dayoff_loop_here; try assumption.
  - now apply delete_schedules_unique.
  - apply trigger_fuel.
  - rewrite <- (trigger_range _ _ d month_range) in Hin.
    apply andb_true_iff in Hin. destruct Hin as [H1 H2].
    apply Z.leb_le in H1, H2. lia.
Qed.

(** Any other date of the month: the day-off rows are gone, the other
    rows stay. *)
Lemma trigger_off_weekday (p : Schedule -> bool) (db : DB) (d : date) :
  in_month (year NEW) (month NEW) d = true ->
  local_dow tz d <> day_of_week NEW ->
  count_at p (p_driver_id NEW) d
    (schedules (create_monthly_dayoff_schedules tz NEW db)) =
  count_at (fun s => negb (is_day_off s) && p s) (p_driver_id NEW) d (schedules db).
Proof.
  intros Hin Hd. unfold create_monthly_dayoff_schedules.
  rewrite dayoff_loop_other by tauto.
  cbn [schedules delete_schedules]. rewrite count_at_filter.
  apply count_at_ext. intros s _ Hk. f_equal. f_equal.
  injection Hk as Hk1 Hk2. rewrite Hk1, Hk2, Nat.eqb_refl.
  rewrite andb_true_l, trigger_range, Hin by assumption. reflexivity.
Qed.

Lemma count_at_negb_day_off (driver : uuid) (d : date) (rows : list Schedule) :
  count_at (fun s => negb (is_day_off s) && is_day_off s) driver d rows = 0%nat.
Proof.
  unfold count_at. induction rows as [|s l IH]; cbn; [reflexivity|].
  destruct (schedule_key_eqb driver d s), (is_day_off s); cbn; exact IH.
Qed.

(** The count of the claim, for any state the trigger runs on. *)
Lemma trigger_day_off_count (db : DB) :
  -1020 < tz <= 420 ->
  NoDup (map schedule_key (schedules db)) ->
  length (day_off_rows (p_driver_id NEW) (year NEW) (month NEW)
            (create_monthly_dayoff_schedules tz NEW db))
  = weekday_count (year NEW) (month NEW) (day_of_week NEW).
Proof.
  intros Htz Hnd. unfold day_off_rows, in_month, weekday_count.
  rewrite length_filter_dates by apply month_dates_NoDup.
  apply sum_counts_weekday. intros d Hd. apply In_month_dates in Hd.
  destruct (Z.eqb_spec (extract_dow d) (day_of_week NEW)) as [He|Hne].
  - apply trigger_on_weekday; try assumption.
    now rewrite local_dow_extract_dow.
  - rewrite trigger_off_weekday; try assumption.
    + apply count_at_negb_day_off.
    + now rewrite local_dow_extract_dow.
Qed.

(** Every day-off row of the month is on the pattern's weekday. *)
Lemma trigger_day_off_dates (db : DB) (s : Schedule) :
  In s (day_off_rows (p_driver_id NEW) (year NEW) (month NEW)
          (create_monthly_dayoff_schedules tz NEW db)) ->
  local_dow tz (s_date s) = day_of_week NEW.
Proof.
  intros Hs. unfold day_off_rows in Hs. apply filter_In in Hs.
  destruct Hs as [Hin Hp]. apply andb_true_iff in Hp. destruct Hp as [Hp Hmonth].
  apply andb_true_iff in Hp. destruct Hp as [Hdrv Hoff]. apply Nat.eqb_eq in Hdrv.
  destruct (Z.eq_dec (local_dow tz (s_date s)) (day_of_week NEW)) as [|Hne];
    [assumption|exfalso].
  pose proof (trigger_off_weekday is_day_off db (s_date s) Hmonth Hne) as Hc.
  rewrite count_at_negb_day_off in Hc.
  unfold count_at in Hc.
  assert (Hf : In s (filter (fun t => schedule_key_eqb (p_driver_id NEW) (s_date s) t
                                      && is_day_off t)
                       (schedules (create_monthly_dayoff_schedules tz NEW db)))).
  { apply filter_In. split; [assumption|]. rewrite Hoff, andb_true_r.
    apply schedule_key_eqb_iff. unfold schedule_key. now rewrite Hdrv. }
  destruct (filter _ _); [contradiction | discriminate].
Qed.

End Trigger.

(* ================================================================== *)
(** ** Set Pattern on a database that satisfies its constraints *)
(* ================================================================== *)

Lemma filter_nil_notin {A K} (k : A -> K) (test : A -> bool) (x : K) (l : list A) :
  (forall a, test a = true <-> k a = x) ->
  ~ In x (map k l) -> filter test l = [].
Proof.
  intros Ht. induction l as [|b l IH]; cbn; intros H; [reflexivity|].
  destruct (test b) eqn:E.
  - apply Ht in E. exfalso. apply H. now left.
  - apply IH. intros Hin. apply H. now right.
Qed.

Lemma filter_unique_In {A K} (k : A -> K) (test : A -> bool) (x : K) (l : list A)
    (a : A) :
  (forall a, test a = true <-> k a = x) ->
  NoDup (map k l) -> In a l -> k a = x -> filter test l = [a].
Proof.
  intros Ht. induction l as [|b l IH]; cbn; intros Hnd Hin Hk; [contradiction|].
  apply NoDup_cons_iff in Hnd. destruct Hnd as [Hn Hd].
  destruct (test b) eqn:E.
  - apply Ht in E. destruct Hin as [->|Hin].
    + f_equal. apply (filter_nil_notin k test (k a)); [|assumption].
      intros c. rewrite Ht. split; congruence.
    + exfalso. apply Hn. rewrite E, <- Hk. now apply in_map.
  - destruct Hin as [->|Hin]; [|now apply IH].
    apply Ht in Hk. congruence.
Qed.

Lemma filter_unique_cases {A K} (k : A -> K) (test : A -> bool) (x : K) (l : list A) :
  (forall a, test a = true <-> k a = x) ->
  NoDup (map k l) ->
  filter test l = [] \/ exists a, filter test l = [a].
Proof.
  intros Ht Hnd. destruct (filter test l) as [|a r] eqn:E; [now left|right].
  exists a. rewrite <- E.
  assert (Hin : In a (filter test l)) by (rewrite E; now left).
  apply filter_In in Hin. destruct Hin as [Hin Ha].
  apply (filter_unique_In k test x); try assumption. now apply Ht.
Qed.

Lemma pattern_key_eqb_iff (driver : uuid) (m y : Z) (p : DayOffPattern) :
  pattern_key_eqb driver m y p = true <-> pattern_key p = (driver, m, y).
Proof.
  unfold pattern_key_eqb, pattern_key.
  rewrite !andb_true_iff, Nat.eqb_eq, !Z.eqb_eq.
  split; [intros [[-> ->] ->]; reflexivity | intros [= -> -> ->]; auto].
Qed.

Lemma pattern_id_eqb_iff (id : uuid) (p : DayOffPattern) :
  Nat.eqb (p_id p) id = true <-> p_id p = id.
Proof. apply Nat.eqb_eq. Qed.

Lemma trigger_constraints (tz : Z) (NEW : DayOffPattern) (db : DB) :
  constraints db -> constraints (create_monthly_dayoff_schedules tz NEW db).
Proof.
  intros [H1 H2 H3 H4].
  destruct (trigger_tables tz NEW db) as (_ & Hp & Hn).
  constructor; rewrite ?Hp; try assumption.
  - now apply trigger_unique.
  - eapply Forall_impl; [|exact H4]. cbn. intros p Hlt. lia.
Qed.

Lemma pattern_checks_range (id driver : uuid) (m y dow : Z) :
  pattern_checks (mkPattern id driver m y dow) = true <->
  1 <= m <= 12 /\ 0 <= dow <= 6.
Proof.
  unfold pattern_checks. cbn. rewrite !andb_true_iff, !Z.leb_le. lia.
Qed.

(** Set Pattern on a database that satisfies its constraints: the storage
    rejects a month or weekday outside the [CHECK]s; otherwise the pattern
    row of the key becomes [NEW] (a new row, or the old one with its weekday
    set) and the trigger runs once, for [NEW]. *)
Lemma set_pattern_spec (tz : Z) (driver : uuid) (m y dow : Z) (db : DB) :
  constraints db ->
  exists id db0,
    set_pattern tz driver m y dow db =
      (if pattern_checks (mkPattern id driver m y dow)
       then (create_monthly_dayoff_schedules tz (mkPattern id driver m y dow) db0,
             ToastSuccess)
       else (db, ToastError)) /\
    schedules db0 = schedules db /\
    pattern_rows driver m y db0 = [mkPattern id driver m y dow] /\
    constraints db0 /\
    (forall p, pattern_rows driver m y db = [p] -> id = p_id p).
Proof.
  intros [H1 H2 H3 H4].
  unfold set_pattern.
  destruct (filter_unique_cases pattern_key (pattern_key_eqb driver m y)
              (driver, m, y) (driver_monthly_dayoff db)
              (pattern_key_eqb_iff driver m y) H2) as [E|[p E]].
  - (* no pattern yet: insert *)
    rewrite E. cbn [maybeSingle]. unfold insert_pattern.
    assert (Hnone : ~ In (driver, m, y) (map pattern_key (driver_monthly_dayoff db))).
    { intros Hin. apply in_map_iff in Hin. destruct Hin as [q [Hq Hin]].
      assert (Hf : In q (filter (pattern_key_eqb driver m y) (driver_monthly_dayoff db))).
      { apply filter_In. split; [assumption | now apply pattern_key_eqb_iff]. }
      rewrite E in Hf. contradiction. }
    assert (Hex : existsb (pattern_key_eqb driver m y) (driver_monthly_dayoff db) = false).
    { apply not_true_iff_false. intros Hex. apply existsb_exists in Hex.
      destruct Hex as [q [Hin Hq]]. apply Hnone. apply pattern_key_eqb_iff in Hq.
      rewrite <- Hq. now apply in_map. }
    rewrite Hex. cbn [negb]. rewrite andb_true_r.
    exists (next_uuid db),
           (mkDB (schedules db) (replacements db) (overtime_records db)
                 (driver_monthly_dayoff db ++ [mkPattern (next_uuid db) driver m y dow])
                 (S (next_uuid db))).
    split; [now destruct (pattern_checks _)|]. cbn [schedules].
    split; [reflexivity|]. split; [|split].
    + unfold pattern_rows. cbn [driver_monthly_dayoff].
      rewrite filter_app, E. cbn [filter app].
      replace (pattern_key_eqb driver m y _) with true; [reflexivity|].
      symmetry. now apply pattern_key_eqb_iff.
    + constructor; cbn [schedules driver_monthly_dayoff next_uuid].
      * assumption.
      * rewrite map_app. apply NoDup_snoc; assumption.
      * rewrite map_app. apply NoDup_snoc; [assumption|]. cbn.
        intros Hin. apply in_map_iff in Hin. destruct Hin as [q [Hq Hin]].
        rewrite Forall_forall in H4. apply H4 in Hin. lia.
      * apply Forall_app. split.
        -- eapply Forall_impl; [|exact H4]. cbn. intros q Hq. lia.
        -- repeat constructor.
    + intros q Hq. unfold pattern_rows in Hq. congruence.
  - (* a pattern exists: update it *)
    rewrite E. cbn [maybeSingle].
    assert (Hp : In p (filter (pattern_key_eqb driver m y) (driver_monthly_dayoff db)))
      by (rewrite E; now left).
    apply filter_In in Hp. destruct Hp as [Hin Hk].
    apply pattern_key_eqb_iff in Hk. injection Hk as Hk1 Hk2 Hk3.
    unfold update_pattern.
    rewrite (filter_unique_In p_id (fun q => Nat.eqb (p_id q) (p_id p)) (p_id p)
               (driver_monthly_dayoff db) p (pattern_id_eqb_iff (p_id p)) H3 Hin eq_refl).
    assert (Hset : set_day_of_week dow p = mkPattern (p_id p) driver m y dow).
    { unfold set_day_of_week. now rewrite Hk1, Hk2, Hk3. }
    cbn [map forallb fold_left]. rewrite Hset, andb_true_r.
    set (upd := fun q => if Nat.eqb (p_id q) (p_id p) then set_day_of_week dow q else q).
    assert (Hkeys : map pattern_key (map upd (driver_monthly_dayoff db))
                    = map pattern_key (driver_monthly_dayoff db)).
    { rewrite map_map. apply map_ext. intros q. unfold upd.
      now destruct (Nat.eqb (p_id q) (p_id p)). }
    assert (Hids : map p_id (map upd (driver_monthly_dayoff db))
                   = map p_id (driver_monthly_dayoff db)).
    { rewrite map_map. apply map_ext. intros q. unfold upd.
      now destruct (Nat.eqb (p_id q) (p_id p)). }
    exists (p_id p), (set_patterns db (map upd (driver_monthly_dayoff db))).
    split; [now destruct (pattern_checks _)|]. cbn [schedules set_patterns].
    split; [reflexivity|]. split; [|split].
    + unfold pattern_rows. cbn [driver_monthly_dayoff set_patterns].
      apply (filter_unique_In pattern_key _ (driver, m, y)).
      * apply pattern_key_eqb_iff.
      * now rewrite Hkeys.
      * apply in_map_iff. exists p. split; [|assumption].
        unfold upd. now rewrite Nat.eqb_refl.
      * reflexivity.
    + constructor; cbn [schedules driver_monthly_dayoff next_uuid set_patterns].
      * assumption.
      * now rewrite Hkeys.
      * now rewrite Hids.
      * rewrite Forall_forall in *. intros q Hq.
        apply in_map_iff in Hq. destruct Hq as [q0 [<- Hq0]].
        apply H4 in Hq0. unfold upd.
        now destruct (Nat.eqb (p_id q0) (p_id p)).
    + intros q Hq. unfold pattern_rows in Hq. congruence.
Qed.

(** [handleSubmit] is Set Pattern on the parsed fields, or stops with the
    error toast and changes nothing. *)
Lemma handleSubmit_set_pattern (tz : Z) (driver : uuid)
    (selectedMonth selectedYear selectedDayOfWeek : string) (m y dow : Z) (db : DB) :
  parseInt selectedMonth = Some m ->
  parseInt selectedYear = Some y ->
  dayOfWeek_of selectedDayOfWeek = Some dow ->
  handleSubmit tz (Some driver) selectedMonth selectedYear selectedDayOfWeek db
  = set_pattern tz driver m y dow db.
Proof.
  intros Hm Hy Hd. unfold handleSubmit.
  destruct selectedMonth as [|c1 s1]; [discriminate|].
  destruct selectedYear as [|c2 s2]; [discriminate|].
  destruct selectedDayOfWeek as [|c3 s3]; [discriminate|].
  cbn [String.eqb orb]. now rewrite Hm, Hy, Hd.
Qed.

Lemma handleSubmit_cases (tz : Z) (selectedDriver : option uuid)
    (selectedMonth selectedYear selectedDayOfWeek : string) (db : DB) :
  handleSubmit tz selectedDriver selectedMonth selectedYear selectedDayOfWeek db
    = (db, ToastError) \/
  exists driver m y dow,
    handleSubmit tz selectedDriver selectedMonth selectedYear selectedDayOfWeek db
    = set_pattern tz driver m y dow db.
Proof.
  unfold handleSubmit. destruct selectedDriver as [driver|]; [|now left].
  destruct (_ || _); [now left|].
  destruct (parseInt selectedMonth) as [m|]; [|now left].
  destruct (parseInt selectedYear) as [y|]; [|now left].
  destruct (dayOfWeek_of selectedDayOfWeek) as [dow|]; [|now left].
  right. now exists driver, m, y, dow.
Qed.

Lemma month_rows_length (driver : uuid) (y m : Z) (db : DB) :
  length (month_rows driver y m db) =
  fold_right (fun d acc => (count_at (fun _ => true) driver d (schedules db) + acc)%nat)
             0%nat (month_dates y m).
Proof.
  rewrite <- length_filter_dates by apply month_dates_NoDup.
  unfold month_rows, in_month. apply filter_length_ext_in.
  intros s _. now rewrite andb_true_r.
Qed.

Lemma day_off_rows_length (driver : uuid) (y m : Z) (db : DB) :
  length (day_off_rows driver y m db) =
  fold_right (fun d acc => (count_at is_day_off driver d (schedules db) + acc)%nat)
             0%nat (month_dates y m).
Proof.
  rewrite <- length_filter_dates by apply month_dates_NoDup. reflexivity.
Qed.

(* ================================================================== *)
(** ** Set Pattern: the count of day-off rows and idempotence *)
(* ================================================================== *)

(** C1. For a driver, a month in 1..12, a year and a weekday in 0..6, Set
    Pattern succeeds and leaves, for that driver in that month, exactly as
    many day-off schedule rows as the month has calendar dates on that
    weekday, all of them on that weekday.  The database satisfies the
    constraints of its schema, the year is one the [date] type holds, and
    the session's time zone is not east of Bangkok. *)
Theorem set_pattern_day_off_count (tz : Z) (driver : uuid) (m y dow : Z) (db : DB) :
  -1020 < tz <= 420 ->
  constraints db ->
  1 <= m <= 12 -> 1 <= y <= 5874896 -> 0 <= dow <= 6 ->
  snd (set_pattern tz driver m y dow db) = ToastSuccess /\
  length (day_off_rows driver y m (fst (set_pattern tz driver m y dow db)))
    = weekday_count y m dow /\
  (forall s, In s (day_off_rows driver y m (fst (set_pattern tz driver m y dow db))) ->
             extract_dow (s_date s) = dow).
Proof.
  intros Htz Hc Hm _ Hdow.
  destruct (set_pattern_spec tz driver m y dow db Hc)
    as (id & db0 & E & Hs0 & _ & Hc0 & _).
  rewrite (proj2 (pattern_checks_range id driver m y dow) (conj Hm Hdow)) in E.
  rewrite E. cbn [fst snd]. split; [reflexivity|].
  set (NEW := mkPattern id driver m y dow).
  assert (Hm' : 1 <= month NEW <= 12) by exact Hm.
  split.
  - exact (trigger_day_off_count tz NEW Hm' db0 Htz (schedules_unique db0 Hc0)).
  - intros s Hs. rewrite <- (local_dow_extract_dow tz) by assumption.
    exact (trigger_day_off_dates tz NEW Hm' db0 s Hs).
Qed.

(** C7. Set Pattern is idempotent: invoked a second time with the same
    arguments it leaves the number of the driver's schedule rows in the
    month, and of the day-off rows among them, unchanged, and the single
    pattern row of the key stays what it was. *)
Theorem set_pattern_idempotent (tz : Z) (driver : uuid) (m y dow : Z) (db : DB) :
  constraints db ->
  1 <= m <= 12 -> 1 <= y <= 5874896 -> 0 <= dow <= 6 ->
  let db1 := fst (set_pattern tz driver m y dow db) in
  let db2 := fst (set_pattern tz driver m y dow db1) in
  length (month_rows driver y m db2) = length (month_rows driver y m db1) /\
  length (day_off_rows driver y m db2) = length (day_off_rows driver y m db1) /\
  pattern_rows driver m y db2 = pattern_rows driver m y db1 /\
  length (pattern_rows driver m y db1) = 1%nat.
Proof.
  intros Hc Hm _ Hdow db1 db2.
  destruct (set_pattern_spec tz driver m y dow db Hc)
    as (id & db0 & E1 & Hs0 & Hp0 & Hc0 & _).
  rewrite (proj2 (pattern_checks_range id driver m y dow) (conj Hm Hdow)) in E1.
  set (NEW := mkPattern id driver m y dow) in *.
  assert (Hm' : 1 <= month NEW <= 12) by exact Hm.
  assert (Hdb1 : db1 = create_monthly_dayoff_schedules tz NEW db0)
    by (unfold db1; now rewrite E1).
  assert (Hc1 : constraints db1) by (rewrite Hdb1; now apply trigger_constraints).
  assert (Hp1 : pattern_rows driver m y db1 = [NEW]).
  { unfold pattern_rows. rewrite Hdb1.
    destruct (trigger_tables tz NEW db0) as (_ & -> & _). exact Hp0. }
  destruct (set_pattern_spec tz driver m y dow db1 Hc1)
    as (id2 & db0' & E2 & Hs0' & Hp0' & Hc0' & Hid).
  rewrite (proj2 (pattern_checks_range id2 driver m y dow) (conj Hm Hdow)) in E2.
  rewrite (Hid NEW Hp1) in E2, Hp0'. cbn [p_id NEW] in E2, Hp0'. fold NEW in E2, Hp0'.
  assert (Hdb2 : db2 = create_monthly_dayoff_schedules tz NEW db0')
    by (unfold db2; now rewrite E2).
  assert (Hp2 : pattern_rows driver m y db2 = [NEW]).
  { unfold pattern_rows. rewrite Hdb2.
    destruct (trigger_tables tz NEW db0') as (_ & -> & _). exact Hp0'. }
  pose proof (schedules_unique db0 Hc0) as Hu0.
  pose proof (schedules_unique db0' Hc0') as Hu0'.
  split; [|split; [|split]].
  - rewrite !month_rows_length. apply sum_counts_ext.
    intros d Hd. apply In_month_dates in Hd.
    rewrite Hdb2, Hdb1.
    destruct (Z.eq_dec (local_dow tz d) dow) as [He|Hne].
    + destruct (trigger_on_weekday tz NEW Hm' db0 d Hu0 Hd He) as [H1 _].
      destruct (trigger_on_weekday tz NEW Hm' db0' d Hu0' Hd He) as [H2 _].
      change (p_driver_id NEW) with driver in H1, H2. now rewrite H1, H2.
    + pose proof (trigger_off_weekday tz NEW Hm' (fun _ => true) db0' d Hd Hne) as H2.
      pose proof (trigger_off_weekday tz NEW Hm' (fun _ => true) db0 d Hd Hne) as H1.
      pose proof (trigger_off_weekday tz NEW Hm'
                    (fun s => negb (is_day_off s) && true) db0 d Hd Hne) as H3.
      change (p_driver_id NEW) with driver in H1, H2, H3.
      rewrite H2, H1, Hs0', Hdb1, H3.
      apply count_at_ext. intros s _ _. now destruct (is_day_off s).
  - rewrite !day_off_rows_length. apply sum_counts_ext.
    intros d Hd. apply In_month_dates in Hd.
    rewrite Hdb2, Hdb1.
    destruct (Z.eq_dec (local_dow tz d) dow) as [He|Hne].
    + destruct (trigger_on_weekday tz NEW Hm' db0 d Hu0 Hd He) as [_ H1].
      destruct (trigger_on_weekday tz NEW Hm' db0' d Hu0' Hd He) as [_ H2].
      change (p_driver_id NEW) with driver in H1, H2. now rewrite H1, H2.
    + pose proof (trigger_off_weekday tz NEW Hm' is_day_off db0' d Hd Hne) as H2.
      pose proof (trigger_off_weekday tz NEW Hm' is_day_off db0 d Hd Hne) as H1.
      change (p_driver_id NEW) with driver in H1, H2.
      now rewrite H2, H1, !count_at_negb_day_off.
  - now rewrite Hp1, Hp2.
  - now rewrite Hp1.
Qed.

(* ================================================================== *)
(** ** The constraints hold in every reachable state *)
(* ================================================================== *)

Lemma constraints_frame (db db' : DB) :
  schedules db' = schedules db ->
  driver_monthly_dayoff db' = driver_monthly_dayoff db ->
  (next_uuid db <= next_uuid db')%nat ->
  constraints db -> constraints db'.
Proof.
  intros Hs Hp Hn [H1 H2 H3 H4]. constructor; rewrite ?Hs, ?Hp; try assumption.
  eapply Forall_impl; [|exact H4]. cbn. intros p Hlt. lia.
Qed.

Lemma accrue_overtime_frame (driver : uuid) (d : date) (db : DB) :
  schedules (accrue_overtime driver d db) = schedules db /\
  replacements (accrue_overtime driver d db) = replacements db /\
  driver_monthly_dayoff (accrue_overtime driver d db) = driver_monthly_dayoff db /\
  (next_uuid db <= next_uuid (accrue_overtime driver d db))%nat.
Proof.
  unfold accrue_overtime.
  destruct (maybeSingle _) as [[e|] err].
  - unfold update_overtime_hours. destruct (numeric_5_2 _); cbn; auto.
  - cbn; auto.
Qed.

Lemma Forall_filter {A} (P : A -> Prop) (f : A -> bool) (l : list A) :
  Forall P l -> Forall P (filter f l).
Proof.
  rewrite !Forall_forall. intros H a Ha. apply filter_In in Ha. now apply H.
Qed.

Lemma update_schedule_flags_keys (id : uuid) (a b : bool) (db : DB) :
  map schedule_key (schedules (update_schedule_flags id a b db))
    = map schedule_key (schedules db) /\
  map s_id (schedules (update_schedule_flags id a b db)) = map s_id (schedules db).
Proof.
  cbn. rewrite !map_map. split; apply map_ext; intros s;
    now destruct (Nat.eqb (s_id s) id).
Qed.

Lemma handleScheduleUpdate_constraints (date : Z) (driverId : uuid)
    (type : ScheduleType) (db : DB) :
  constraints db -> constraints (fst (handleScheduleUpdate date driverId type db)).
Proof.
  intros Hc. unfold handleScheduleUpdate.
  destruct (maybeSingle _) as [[e|] err]; cbn [fst].
  - destruct Hc as [H1 H2 H3 H4]. constructor; try assumption.
    now rewrite (proj1 (update_schedule_flags_keys _ _ _ db)).
  - unfold insert_schedule.
    destruct (existsb _ (schedules db)) eqn:E; cbn [fst]; [assumption|].
    destruct Hc as [H1 H2 H3 H4]. constructor; cbn; try assumption.
    + rewrite map_app. apply NoDup_snoc; [assumption|].
      intros Hin.
      change (In (driverId, toISOString_date date) (map schedule_key (schedules db)))
        in Hin.
      apply existsb_key_In in Hin. congruence.
    + eapply Forall_impl; [|exact H4]. cbn. intros p Hlt. lia.
Qed.

Lemma handleDelete_constraints (ctz : Z) (patternId : uuid) (db : DB) :
  constraints db -> constraints (fst (handleDelete ctz patternId db)).
Proof.
  intros Hc. unfold handleDelete.
  destruct (single _) as [[p|] [|]]; cbn [fst]; try assumption.
  destruct Hc as [H1 H2 H3 H4]. constructor; cbn.
  - now apply NoDup_map_filter.
  - now apply NoDup_map_filter.
  - now apply NoDup_map_filter.
  - now apply Forall_filter.
Qed.

Lemma handleAssignReplacement_constraints (outcome : StorageOutcome) (date : Z)
    (scheduleId replacementDriverId driverId shiftId : uuid) (db : DB) :
  constraints db ->
  constraints (fst (handleAssignReplacement outcome date scheduleId
                      replacementDriverId driverId shiftId db)).
Proof.
  intros Hc. unfold handleAssignReplacement. cbn [fst].
  match goal with
  | |- constraints (accrue_overtime ?r ?d ?x) =>
      destruct (accrue_overtime_frame r d x) as (Hs & _ & Hp & Hn);
      apply (constraints_frame x); try assumption
  end.
  destruct outcome; [|assumption].
  apply (constraints_frame db); cbn; auto.
Qed.

Lemma handleUpdateReplacement_constraints (date : Z)
    (replacementId newDriverId driverId scheduleId : uuid) (db : DB) :
  constraints db ->
  constraints (fst (handleUpdateReplacement date replacementId newDriverId
                      driverId scheduleId db)).
Proof.
  intros Hc. unfold handleUpdateReplacement.
  destruct (single _) as [[r|] err]; cbn [fst]; [|assumption].
  match goal with
  | |- constraints (accrue_overtime ?r ?d ?x) =>
      destruct (accrue_overtime_frame r d x) as (Hs & _ & Hp & Hn);
      apply (constraints_frame x); try assumption
  end.
  apply (constraints_frame db); cbn; auto.
Qed.

Lemma set_pattern_constraints (tz : Z) (driver : uuid) (m y dow : Z) (db : DB) :
  constraints db -> constraints (fst (set_pattern tz driver m y dow db)).
Proof.
  intros Hc.
  destruct (set_pattern_spec tz driver m y dow db Hc) as (id & db0 & E & _ & _ & Hc0 & _).
  rewrite E. destruct (pattern_checks _); cbn [fst]; [|assumption].
  now apply trigger_constraints.
Qed.

Lemma run_constraints (tz ctz : Z) (op : Operation) (db : DB) :
  constraints db -> constraints (run tz ctz op db).
Proof.
  intros Hc. destruct op; cbn [run].
  - now apply handleScheduleUpdate_constraints.
  - now apply set_pattern_constraints.
  - now apply handleDelete_constraints.
  - now apply handleAssignReplacement_constraints.
  - now apply handleUpdateReplacement_constraints.
Qed.

Lemma empty_db_constraints : constraints empty_db.
Proof. repeat constructor. Qed.

Lemma reachable_constraints (tz ctz : Z) (db : DB) :
  reachable tz ctz db -> constraints db.
Proof.
  induction 1 as [|op db _ IH]; [apply empty_db_constraints|].
  now apply run_constraints.
Qed.

(* ================================================================== *)
(** ** One schedule row per driver and date *)
(* ================================================================== *)

Lemma upsert_day_off_in_place (driver : uuid) (d : date) (db : DB) :
  In (driver, d) (map schedule_key (schedules db)) ->
  map s_id (schedules (upsert_day_off driver d db)) = map s_id (schedules db) /\
  map schedule_key (schedules (upsert_day_off driver d db))
    = map schedule_key (schedules db).
Proof.
  intros Hin. apply existsb_key_In in Hin. unfold upsert_day_off. rewrite Hin.
  cbn. rewrite !map_map. split; apply map_ext; intros s;
    now destruct (schedule_key_eqb driver d s).
Qed.

Lemma handleScheduleUpdate_in_place (date : Z) (driverId : uuid)
    (type : ScheduleType) (db : DB) :
  NoDup (map schedule_key (schedules db)) ->
  In (driverId, toISOString_date date) (map schedule_key (schedules db)) ->
  map s_id (schedules (fst (handleScheduleUpdate date driverId type db)))
    = map s_id (schedules db) /\
  map schedule_key (schedules (fst (handleScheduleUpdate date driverId type db)))
    = map schedule_key (schedules db).
Proof.
  intros Hnd Hin. unfold handleScheduleUpdate.
  apply in_map_iff in Hin. destruct Hin as [e [Hk Hin]].
  rewrite (filter_unique_In schedule_key _ (driverId, toISOString_date date)
             (schedules db) e (schedule_key_eqb_iff driverId (toISOString_date date))
             Hnd Hin Hk).
  cbn [maybeSingle fst].
  destruct (update_schedule_flags_keys (s_id e)
              (match type with day_off => negb (is_day_off e) | annual_leave => false end)
              (match type with annual_leave => negb (is_annual_leave e) | day_off => false end)
              db) as [H1 H2].
  split; assumption.
Qed.

(** C8. In every reachable state there is at most one schedule row per
    (driver, date); an upsert of the trigger and a marking of the dialog that
    meet an existing key change that row in place: the rows keep their ids
    and keys, none is added, and after the upsert the row is a day off. *)
Theorem schedule_key_unique (tz ctz : Z) (db : DB) :
  reachable tz ctz db ->
  NoDup (map schedule_key (schedules db)) /\
  (forall driver d,
      In (driver, d) (map schedule_key (schedules db)) ->
      map s_id (schedules (upsert_day_off driver d db)) = map s_id (schedules db) /\
      map schedule_key (schedules (upsert_day_off driver d db))
        = map schedule_key (schedules db) /\
      count_at is_day_off driver d (schedules (upsert_day_off driver d db)) = 1%nat) /\
  (forall date driverId type,
      In (driverId, toISOString_date date) (map schedule_key (schedules db)) ->
      map s_id (schedules (fst (handleScheduleUpdate date driverId type db)))
        = map s_id (schedules db) /\
      map schedule_key (schedules (fst (handleScheduleUpdate date driverId type db)))
        = map schedule_key (schedules db)).
Proof.
  intros Hr. apply reachable_constraints in Hr.
  pose proof (schedules_unique db Hr) as Hnd.
  split; [exact Hnd|]. split.
  - intros driver d Hin.
    destruct (upsert_day_off_in_place driver d db Hin) as [H1 H2].
    repeat split; try assumption.
    now apply upsert_day_off_here.
  - intros date driverId type Hin. now apply handleScheduleUpdate_in_place.
Qed.

(* ================================================================== *)
(** ** Day off and annual leave on one row *)
(* ================================================================== *)

(** Where the rows of an upsert come from. *)
Lemma upsert_day_off_rows (driver : uuid) (d : date) (db : DB) (s : Schedule) :
  In s (schedules (upsert_day_off driver d db)) ->
  (schedule_key s = (driver, d) /\ is_day_off s = true /\ is_annual_leave s = false) \/
  (exists s0, In s0 (schedules db) /\ schedule_key s = schedule_key s0 /\
              is_annual_leave s = is_annual_leave s0 /\
              (s = s0 \/ (schedule_key s0 = (driver, d) /\ is_day_off s = true))).
Proof.
  unfold upsert_day_off.
  destruct (existsb (schedule_key_eqb driver d) (schedules db)); cbn; intros Hs.
  - right. apply in_map_iff in Hs. destruct Hs as [s0 [E Hin]].
    exists s0. split; [assumption|].
    destruct (schedule_key_eqb driver d s0) eqn:K; subst s.
    + apply schedule_key_eqb_iff in K. cbn. auto.
    + auto.
  - apply in_app_or in Hs. destruct Hs as [Hs|[<-|[]]].
    + right. exists s. auto.
    + left. auto.
Qed.

Section ExpansionFlags.

Variable tz : Z.
Variable NEW : DayOffPattern.

Lemma dayoff_loop_exclusive (fuel : nat) (curr last : date) (db : DB) :
  (forall s, In s (schedules db) ->
             s_driver_id s = p_driver_id NEW ->
             curr <= s_date s <= last ->
             local_dow tz (s_date s) = day_of_week NEW ->
             is_annual_leave s = false) ->
  Forall exclusive (schedules db) ->
  Forall exclusive (schedules (dayoff_loop tz fuel curr last NEW db)).
Proof.
  revert curr db. induction fuel as [|fuel IH]; intros curr db Hg He; cbn;
    [exact He|].
  destruct (Z.leb_spec curr last) as [Hle|Hgt]; [|exact He].
  destruct (Z.eqb_spec (local_dow tz curr) (day_of_week NEW)) as [Hd|Hd].
  - apply IH.
    + intros s Hs Hdrv Hr Hdow.
      apply upsert_day_off_rows in Hs.
      destruct Hs as [(_ & _ & Ha)|(s0 & Hin & Hk & Ha & _)]; [exact Ha|].
      rewrite Ha. injection Hk as Hk1 Hk2.
      apply Hg; [assumption | congruence | rewrite <- Hk2; lia
                | now rewrite <- Hk2].
    + rewrite Forall_forall in *. intros s Hs.
      apply upsert_day_off_rows in Hs. unfold exclusive.
      destruct Hs as [(_ & _ & ->)|(s0 & Hin & Hk & Ha & [->|[Hk0 Hoff]])].
      * apply andb_false_r.
      * now apply He.
      * rewrite Ha. injection Hk0 as Hk1 Hk2.
        rewrite (Hg s0 Hin Hk1); [apply andb_false_r | rewrite Hk2; lia
                                 | now rewrite Hk2].
  - apply IH; [|exact He].
    intros s Hs Hdrv Hr Hdow. apply Hg; try assumption. lia.
Qed.

Lemma trigger_exclusive (db : DB) :
  1 <= month NEW <= 12 ->
  no_annual_leave_on tz (p_driver_id NEW) (month NEW) (year NEW) (day_of_week NEW) db ->
  exclusive_flags db ->
  exclusive_flags (create_monthly_dayoff_schedules tz NEW db).
Proof.
  intros Hm Hg He. unfold exclusive_flags, create_monthly_dayoff_schedules.
  apply dayoff_loop_exclusive.
  - cbn [schedules delete_schedules]. intros s Hs Hdrv Hr Hdow.
    apply filter_In in Hs. destruct Hs as [Hs _].
    apply Hg; try assumption.
    rewrite <- (trigger_range _ _ _ Hm).
    apply andb_true_iff. split; apply Z.leb_le; lia.
  - cbn [schedules delete_schedules]. now apply Forall_filter.
Qed.

End ExpansionFlags.

Lemma handleScheduleUpdate_exclusive (date : Z) (driverId : uuid)
    (type : ScheduleType) (db : DB) :
  exclusive_flags db ->
  exclusive_flags (fst (handleScheduleUpdate date driverId type db)).
Proof.
  unfold exclusive_flags, handleScheduleUpdate. intros He.
  destruct (maybeSingle _) as [[e|] err]; cbn [fst].
  - cbn. rewrite Forall_forall in *. intros s Hs.
    apply in_map_iff in Hs. destruct Hs as [s0 [<- Hin]].
    destruct (Nat.eqb (s_id s0) (s_id e)); [|now apply He].
    cbn. destruct type; [apply andb_false_r | reflexivity].
  - unfold insert_schedule. destruct (existsb _ _); cbn [fst]; [exact He|].
    cbn. apply Forall_app. split; [exact He|].
    constructor; [|constructor]. now destruct type.
Qed.

Lemma ui_reachable_guarded_invariant (tz : Z) (db : DB) :
  ui_reachable_guarded tz db -> constraints db /\ exclusive_flags db.
Proof.
  induction 1 as [|db date driverId type _ [IHc IHe]
                  |db driver m y dow _ [IHc IHe] Hg].
  - split; [apply empty_db_constraints | constructor].
  - split; [now apply handleScheduleUpdate_constraints
           |now apply handleScheduleUpdate_exclusive].
  - split; [now apply set_pattern_constraints|].
    destruct (set_pattern_spec tz driver m y dow db IHc)
      as (id & db0 & E & Hs0 & _ & _ & _).
    rewrite E. destruct (pattern_checks _) eqn:C; cbn [fst]; [|exact IHe].
    apply pattern_checks_range in C.
    apply trigger_exclusive; cbn [month];
      [tauto | unfold no_annual_leave_on | unfold exclusive_flags];
      rewrite Hs0; assumption.
Qed.

(** C9, as amended.  In every state reached by marking day off or annual
    leave in the dialog and by Set Pattern invoked where the driver has no
    annual leave on a date of the month that falls on the pattern's weekday,
    no schedule row is both a day off and an annual leave. *)
Theorem exclusive_flags_guarded (tz : Z) (db : DB) :
  ui_reachable_guarded tz db -> exclusive_flags db.
Proof. intros H. exact (proj2 (ui_reachable_guarded_invariant tz db H)). Qed.

(* ================================================================== *)
(** ** The overtime ledger *)
(* ================================================================== *)

Lemma filter_map_comm {A} (f : A -> bool) (g : A -> A) (l : list A) :
  (forall a, f (g a) = f a) -> filter f (map g l) = map g (filter f l).
Proof.
  intros H. induction l as [|a l IH]; cbn; [reflexivity|].
  rewrite H. destruct (f a); cbn; now rewrite IH.
Qed.

Lemma total_hours_app (l1 l2 : list OvertimeRecord) :
  total_hours (l1 ++ l2) = total_hours l1 + total_hours l2.
Proof.
  unfold total_hours.
  induction l1 as [|o l1 IH]; cbn; [reflexivity | rewrite IH; lia].
Qed.

Lemma overtime_key_eqb_refl (driver : uuid) (d : date) (id : uuid) (h : Z)
    (ty : OtType) (rate : Z) :
  overtime_key_eqb driver d (mkOvertime id driver d h ty rate) = true.
Proof. unfold overtime_key_eqb. cbn. now rewrite Nat.eqb_refl, Z.eqb_refl. Qed.

(** The accrual when the driver has no record on the date: one is inserted. *)
Lemma accrue_overtime_none (driver : uuid) (d : date) (db : DB) :
  overtime_of driver d db = [] ->
  overtime_of driver d (accrue_overtime driver d db)
    = [mkOvertime (next_uuid db) driver d 800 ot_replacement 150] /\
  replacements (accrue_overtime driver d db) = replacements db.
Proof.
  unfold overtime_of, accrue_overtime. intros E. rewrite E. cbn.
  rewrite filter_app, E. cbn [filter app].
  now rewrite overtime_key_eqb_refl.
Qed.

(** The accrual when the driver has exactly one record on the date: its
    hours grow by 8, whatever its type. *)
Lemma accrue_overtime_one (driver : uuid) (d : date) (db : DB) (e : OvertimeRecord) :
  overtime_of driver d db = [e] ->
  numeric_5_2 (hours e + 800) = true ->
  overtime_of driver d (accrue_overtime driver d db)
    = [mkOvertime (o_id e) (o_driver_id e) (o_date e) (hours e + 800)
                  (ot_type e) (ot_rate e)] /\
  replacements (accrue_overtime driver d db) = replacements db.
Proof.
  unfold overtime_of, accrue_overtime. intros E Hn. rewrite E. cbn [maybeSingle].
  unfold update_overtime_hours. rewrite Hn. cbn.
  rewrite filter_map_comm, E.
  - cbn. now rewrite Nat.eqb_refl.
  - intros o. now destruct (Nat.eqb (o_id o) (o_id e)).
Qed.

(** The accrual when the lookup finds several records: [maybeSingle] yields
    no row, and a new record is inserted next to them. *)
Lemma accrue_overtime_many (driver : uuid) (d : date) (db : DB)
    (e e' : OvertimeRecord) (l : list OvertimeRecord) :
  overtime_of driver d db = e :: e' :: l ->
  overtime_of driver d (accrue_overtime driver d db)
    = e :: e' :: l ++ [mkOvertime (next_uuid db) driver d 800 ot_replacement 150] /\
  replacements (accrue_overtime driver d db) = replacements db.
Proof.
  unfold overtime_of, accrue_overtime. intros E. rewrite E. cbn.
  rewrite filter_app, E. cbn [filter app].
  now rewrite overtime_key_eqb_refl.
Qed.

(** C2. With no overtime record of the replacement driver on the date,
    assigning that driver to two different shifts of the same absent
    driver and date leaves exactly one overtime record for (replacement
    driver, date): 16 hours, of type replacement, at rate 1.5; and the two
    replacement rows are there. *)
Theorem assign_replacement_twice (date : Z)
    (scheduleId replacementDriverId driverId shift1 shift2 : uuid) (db : DB) :
  overtime_of replacementDriverId (toISOString_date date) db = [] ->
  shift1 <> shift2 ->
  let db1 := fst (handleAssignReplacement Accepted date scheduleId
                    replacementDriverId driverId shift1 db) in
  let db2 := fst (handleAssignReplacement Accepted date scheduleId
                    replacementDriverId driverId shift2 db1) in
  (exists id, overtime_of replacementDriverId (toISOString_date date) db2
              = [mkOvertime id replacementDriverId (toISOString_date date) 1600
                            ot_replacement 150]) /\
  (exists id1 id2, replacements db2
     = replacements db
       ++ [mkReplacement id1 scheduleId replacementDriverId shift1;
           mkReplacement id2 scheduleId replacementDriverId shift2]).
Proof.
  intros E _ db1 db2. unfold db2, db1, handleAssignReplacement. cbn [fst].
  set (d := toISOString_date date) in *.
  set (dbA := insert_replacement scheduleId replacementDriverId shift1 db).
  destruct (accrue_overtime_none replacementDriverId d dbA E) as [H1 R1].
  set (db1' := accrue_overtime replacementDriverId d dbA) in *.
  set (dbB := insert_replacement scheduleId replacementDriverId shift2 db1').
  destruct (accrue_overtime_one replacementDriverId d dbB _ H1 eq_refl) as [H2 R2].
  split.
  - eexists. rewrite H2. reflexivity.
  - rewrite R2. unfold dbB. cbn [replacements insert_replacement].
    rewrite R1. unfold dbA. cbn [replacements insert_replacement].
    rewrite <- app_assoc. eexists _, _. reflexivity.
Qed.

(** C10. Assign Replacement is not atomic: when the storage rejects the
    insert of the replacement row, no replacement row is created, and still
    the replacement driver's overtime of the date grows by 8 hours (a record
    is created or incremented) and the handler reports success. *)
Theorem assign_replacement_not_atomic (date : Z)
    (scheduleId replacementDriverId driverId shiftId : uuid) (db : DB) :
  (forall o, In o (overtime_of replacementDriverId (toISOString_date date) db) ->
             numeric_5_2 (hours o + 800) = true) ->
  let result := handleAssignReplacement Rejected date scheduleId
                  replacementDriverId driverId shiftId db in
  replacements (fst result) = replacements db /\
  total_hours (overtime_of replacementDriverId (toISOString_date date) (fst result))
    = total_hours (overtime_of replacementDriverId (toISOString_date date) db) + 800 /\
  snd result = ToastSuccess.
Proof.
  intros Hn result. unfold result, handleAssignReplacement. cbn [fst snd].
  set (d := toISOString_date date) in *.
  destruct (overtime_of replacementDriverId d db) as [|e [|e' l]] eqn:E.
  - destruct (accrue_overtime_none replacementDriverId d db E) as [-> ->].
    cbn. auto.
  - destruct (accrue_overtime_one replacementDriverId d db e E (Hn e (or_introl eq_refl)))
      as [-> ->].
    cbn. repeat split; lia.
  - destruct (accrue_overtime_many replacementDriverId d db e e' l E) as [-> ->].
    repeat split.
    change (e :: e' :: l ++ ?x) with ((e :: e' :: l) ++ x).
    rewrite total_hours_app. cbn. lia.
Qed.

(* ================================================================== *)
(** ** Delete Pattern and the browser's time zone *)
(* ================================================================== *)

(** The dates [handleDelete] sends: the first and last day of the month in
    a browser at or up to a day west of UTC, and the day before each in a
    browser east of UTC. *)
Lemma handleDelete_dates (ctz y m : Z) :
  100 <= y -> 1 <= m <= 12 -> -1440 < ctz <= 1440 ->
  toISOString_date (new_Date ctz y (m - 1) 1)
    = make_date y m 1 - (if 0 <? ctz then 1 else 0) /\
  toISOString_date (new_Date ctz y m 0)
    = first_of_next_month y m - 1 - (if 0 <? ctz then 1 else 0).
Proof.
  intros Hy Hm Hc. unfold toISOString_date, new_Date, MS_PER_DAY.
  replace ((0 <=? y) && (y <=? 99)) with false
    by (symmetry; apply andb_false_iff; right; apply Z.leb_gt; lia).
  assert (E1 : (m - 1) / 12 = 0) by (apply Z.div_small; lia).
  assert (E2 : (m - 1) mod 12 + 1 = m) by (rewrite Z.mod_small; lia).
  rewrite E1, E2, !Z.add_0_r.
  assert (E3 : make_date (y + m / 12) (m mod 12 + 1) 1 = first_of_next_month y m).
  { unfold first_of_next_month. destruct (Z.eqb_spec m 12) as [->|Hne].
    - reflexivity.
    - rewrite Z.div_small, Z.mod_small, Z.add_0_r by lia. reflexivity. }
  rewrite E3.
  destruct (Z.ltb_spec 0 ctz); split; Z.to_euclidean_division_equations; lia.
Qed.

Lemma pattern_key_injective (l : list DayOffPattern) (p q : DayOffPattern) :
  NoDup (map pattern_key l) -> In p l -> In q l ->
  pattern_key p = pattern_key q -> p = q.
Proof.
  induction l as [|a l IH]; cbn; intros Hnd Hp Hq Hk; [contradiction|].
  apply NoDup_cons_iff in Hnd. destruct Hnd as [Hn Hd].
  destruct Hp as [->|Hp], Hq as [->|Hq]; auto.
  - exfalso. apply Hn. rewrite Hk. now apply in_map.
  - exfalso. apply Hn. rewrite <- Hk. now apply in_map.
Qed.

Lemma filter_none {A} (f : A -> bool) (l : list A) :
  (forall a, In a l -> f a = false) -> filter f l = [].
Proof.
  induction l as [|a l IH]; cbn; intros H; [reflexivity|].
  rewrite (H a) by now left. apply IH. intros b Hb. apply H. now right.
Qed.

(** X26. In a browser at or west of UTC, Delete Pattern clears the month:
    no day-off row of the driver in the month and no pattern row of the key
    remain. *)
Lemma handleDelete_west_of_utc (ctz : Z) (p : DayOffPattern) (db : DB) :
  -1440 < ctz <= 0 ->
  constraints db ->
  In p (driver_monthly_dayoff db) ->
  100 <= year p -> 1 <= month p <= 12 ->
  day_off_rows (p_driver_id p) (year p) (month p) (fst (handleDelete ctz (p_id p) db)) = [] /\
  pattern_rows (p_driver_id p) (month p) (year p) (fst (handleDelete ctz (p_id p) db)) = [] /\
  snd (handleDelete ctz (p_id p) db) = ToastSuccess.
Proof.
  intros Hc [H1 H2 H3 H4] Hin Hy Hm. unfold handleDelete.
  rewrite (filter_unique_In p_id (fun q => Nat.eqb (p_id q) (p_id p)) (p_id p)
             (driver_monthly_dayoff db) p (pattern_id_eqb_iff (p_id p)) H3 Hin eq_refl).
  cbn [single fst snd].
  destruct (handleDelete_dates ctz (year p) (month p) Hy Hm ltac:(lia)) as [-> ->].
  replace (0 <? ctz) with false by (symmetry; apply Z.ltb_ge; lia).
  rewrite !Z.sub_0_r.
  split; [|split; [|reflexivity]].
  - unfold day_off_rows. cbn [schedules delete_pattern set_patterns delete_schedules].
    rewrite filter_filter_andb. apply filter_none. intros s _.
    rewrite <- (trigger_range (year p) (month p) (s_date s) Hm).
    destruct (Nat.eqb (s_driver_id s) (p_driver_id p)), (is_day_off s),
             (make_date (year p) (month p) 1 <=? s_date s),
             (s_date s <=? first_of_next_month (year p) (month p) - 1); reflexivity.
  - unfold pattern_rows.
    cbn [driver_monthly_dayoff delete_pattern set_patterns delete_schedules].
    rewrite filter_filter_andb. apply filter_none. intros q Hq.
    destruct (pattern_key_eqb (p_driver_id p) (month p) (year p) q) eqn:K;
      [|apply andb_false_r].
    apply pattern_key_eqb_iff in K.
    rewrite (pattern_key_injective _ q p H2 Hq Hin K), Nat.eqb_refl. reflexivity.
Qed.

(* ================================================================== *)
(** ** The claims on concrete states *)
(* ================================================================== *)

Lemma set_pattern_day_off_count_witness :
  snd (set_pattern 0 1%nat 2 2024 4 february_db) = ToastSuccess /\
  length (day_off_rows 1%nat 2024 2 (fst (set_pattern 0 1%nat 2 2024 4 february_db)))
    = 5%nat /\
  map (fun s => s_date s - feb_2024 1 + 1)
      (day_off_rows 1%nat 2024 2 (fst (set_pattern 0 1%nat 2 2024 4 february_db)))
    = [8; 1; 15; 22; 29].
Proof.
  destruct (set_pattern_day_off_count 0 1%nat 2 2024 4 february_db) as (H1 & H2 & _).
  - lia.
  - constructor; cbn; repeat constructor; cbn; intuition discriminate.
  - lia.
  - lia.
  - lia.
  - split; [exact H1|]. split; [exact H2|]. reflexivity.
Defined.

Lemma set_pattern_idempotent_witness :
  length (month_rows 1%nat 2024 2
            (fst (set_pattern 0 1%nat 2 2024 4
                    (fst (set_pattern 0 1%nat 2 2024 4 february_db)))))
  = length (month_rows 1%nat 2024 2 (fst (set_pattern 0 1%nat 2 2024 4 february_db))).
Proof.
  destruct (set_pattern_idempotent 0 1%nat 2 2024 4 february_db) as (H1 & _).
  - constructor; cbn; repeat constructor; cbn; intuition discriminate.
  - lia.
  - lia.
  - lia.
  - exact H1.
Defined.

Lemma schedule_key_unique_witness :
  NoDup (map schedule_key (schedules leave_then_pattern)).
Proof.
  refine (proj1 (schedule_key_unique 0 420 leave_then_pattern _)).
  exact (reachable_run 0 420 (SetPattern 1%nat 2 2024 4) _
           (reachable_run 0 420 (MarkSchedule (noon (feb_2024 8)) 1%nat annual_leave) _
              (reachable_empty 0 420))).
Defined.

(** C9 as stated fails: an annual leave marked in the dialog on a Thursday,
    followed by the pattern "Thursdays", ends with a row that is both a day
    off and an annual leave. *)
Lemma exclusive_flags_counterexample :
  ui_reachable 0 leave_then_pattern /\ ~ exclusive_flags leave_then_pattern.
Proof.
  split.
  - unfold leave_then_pattern. apply ui_set_pattern, ui_mark, ui_empty.
  - intros H. unfold exclusive_flags in H. vm_compute in H.
    inversion H as [|? ? Hx _]. discriminate Hx.
Qed.

Lemma exclusive_flags_guarded_witness : exclusive_flags leave_off_pattern.
Proof.
  apply (exclusive_flags_guarded 0). unfold leave_off_pattern.
  apply uig_set_pattern.
  - apply uig_mark, uig_empty.
  - intros s Hs _ _ Hdow. cbn in Hs. destruct Hs as [<-|[]].
    vm_compute in Hdow. discriminate Hdow.
Defined.

Lemma assign_replacement_twice_witness :
  exists id, overtime_of 9%nat (feb_2024 29) two_shifts_db
             = [mkOvertime id 9%nat (feb_2024 29) 1600 ot_replacement 150].
Proof.
  refine (proj1 (assign_replacement_twice (noon (feb_2024 29)) 0%nat 9%nat 1%nat
                   3%nat 4%nat
                   (fst (handleScheduleUpdate (noon (feb_2024 29)) 1%nat day_off empty_db))
                   _ _)).
  - reflexivity.
  - discriminate.
Defined.

Lemma assign_replacement_not_atomic_witness :
  replacements (fst (handleAssignReplacement Rejected (noon (feb_2024 29))
                       0%nat 9%nat 1%nat 3%nat extension_db)) = [] /\
  total_hours (overtime_of 9%nat (feb_2024 29)
                 (fst (handleAssignReplacement Rejected (noon (feb_2024 29))
                         0%nat 9%nat 1%nat 3%nat extension_db))) = 1000.
Proof.
  destruct (assign_replacement_not_atomic (noon (feb_2024 29)) 0%nat 9%nat 1%nat 3%nat
              extension_db) as (H1 & H2 & _).
  - intros o [<-|[]]. reflexivity.
  - split; [exact H1 | exact H2].
Defined.

(** Where the rows of the ledger come from after an accrual: a row already
    there, with its driver, date and type, or a row of the accruing driver. *)
Lemma accrue_overtime_rows (driver : uuid) (d : date) (db : DB) (o : OvertimeRecord) :
  In o (overtime_records (accrue_overtime driver d db)) ->
  (exists o0, In o0 (overtime_records db) /\ o_driver_id o = o_driver_id o0 /\
              o_date o = o_date o0 /\ ot_type o = ot_type o0) \/
  o_driver_id o = driver.
Proof.
  unfold accrue_overtime. destruct (maybeSingle _) as [[e|] err].
  - unfold update_overtime_hours. destruct (numeric_5_2 _); cbn; intros Hin.
    + apply in_map_iff in Hin. destruct Hin as [o0 [<- Hin]].
      left. exists o0. destruct (Nat.eqb (o_id o0) (o_id e)); cbn; auto.
    + left. exists o. auto.
  - cbn. intros Hin. apply in_app_or in Hin. destruct Hin as [Hin|[<-|[]]].
    + left. exists o. auto.
    + right. reflexivity.
Qed.

(** X27. Update Replacement leaves the old driver without any replacement
    overtime on the date, however many shifts had been merged into it. *)
Lemma update_replacement_deletes_all (date : Z)
    (replacementId newDriverId driverId scheduleId : uuid) (db : DB) (r : Replacement) :
  filter (fun x => Nat.eqb (r_id x) replacementId) (replacements db) = [r] ->
  replacement_driver_id r <> newDriverId ->
  filter (fun o => OtType_eqb (ot_type o) ot_replacement)
    (overtime_of (replacement_driver_id r) (toISOString_date date)
       (fst (handleUpdateReplacement date replacementId newDriverId driverId
               scheduleId db))) = [].
Proof.
  intros E Hne. unfold handleUpdateReplacement. rewrite E. cbn [single fst].
  unfold overtime_of. rewrite filter_filter_andb. apply filter_none.
  intros o Ho. apply accrue_overtime_rows in Ho.
  destruct (overtime_key_eqb _ _ o) eqn:K; [|reflexivity].
  unfold overtime_key_eqb in K. apply andb_true_iff in K. destruct K as [K1 K2].
  apply Nat.eqb_eq in K1. apply Z.eqb_eq in K2.
  destruct Ho as [(o0 & Hin & H1 & H2 & H3)|Hd]; [|congruence].
  cbn in Hin. apply filter_In in Hin. destruct Hin as [_ Hkeep].
  rewrite <- H1, <- H2, <- H3, K1, K2, Nat.eqb_refl, Z.eqb_refl in Hkeep.
  cbn in Hkeep. cbn. now destruct (OtType_eqb (ot_type o) ot_replacement).
Qed.

(** C3, where the code departs from the claim.  Driver 9 replaces driver 1
    on two shifts of 29 February 2024 and so has 16 hours of replacement
    overtime; moving one of the two shifts to driver 10 gives driver 10 a
    record of 8 hours, but leaves driver 9 with no overtime record at all,
    not with the 8 hours of the shift still covered. *)
Theorem update_replacement_over_deletion :
  total_hours (overtime_of 9%nat (feb_2024 29) two_shifts_db) = 1600 /\
  map (fun r => (r_id r, replacement_driver_id r, r_shift_id r))
      (replacements two_shifts_db)
    = [(1, 9, 3); (3, 9, 4)]%nat /\
  let after := fst (handleUpdateReplacement (noon (feb_2024 29)) 1%nat 10%nat 1%nat
                      0%nat two_shifts_db) in
  map (fun r => (r_id r, replacement_driver_id r, r_shift_id r)) (replacements after)
    = [(1, 10, 3); (3, 9, 4)]%nat /\
  overtime_of 9%nat (feb_2024 29) after = [] /\
  overtime_of 10%nat (feb_2024 29) after
    = [mkOvertime 4%nat 10%nat (feb_2024 29) 800 ot_replacement 150].
Proof. vm_compute. repeat split. Qed.

(** C4, where the code departs from the claim.  The lookup of Assign
    Replacement has no [ot_type] in its key.  With only an extension record
    of 2 hours for the replacement driver on the date, the 8 hours go into
    that extension record and no replacement record is inserted; with an
    extension and a replacement record, the lookup finds two rows, takes
    neither, and a second replacement record is inserted while the first
    keeps its hours. *)
Theorem assign_replacement_ignores_ot_type :
  overtime_records
    (fst (handleAssignReplacement Accepted (noon (feb_2024 29)) 0%nat 9%nat 1%nat 3%nat
            extension_db))
    = [mkOvertime 1%nat 9%nat (feb_2024 29) 1000 ot_extension 150] /\
  overtime_records
    (fst (handleAssignReplacement Accepted (noon (feb_2024 29)) 0%nat 9%nat 1%nat 3%nat
            two_types_db))
    = [mkOvertime 1%nat 9%nat (feb_2024 29) 200 ot_extension 150;
       mkOvertime 2%nat 9%nat (feb_2024 29) 800 ot_replacement 150;
       mkOvertime 4%nat 9%nat (feb_2024 29) 800 ot_replacement 150].
Proof. vm_compute. split; reflexivity. Qed.

(** C5, where the code departs from the claim.  The option labelled Sunday
    carries the value 6, which [handleSubmit] stores as it is; in the
    trigger's numbering 6 is Saturday, and the expansion marks the Saturdays
    of the month.  Every option stores the number of the day before its
    label. *)
Theorem weekday_select_off_by_one :
  select_day_of_week "Sunday" = Some "6"%string /\
  dayOfWeek_of "6" = Some 6 /\
  dow_name 6 = "Saturday"%string /\
  map day_of_week (driver_monthly_dayoff (submit_weekday "Sunday")) = [6] /\
  map (fun s => (s_date s - feb_2024 1 + 1, dow_name (extract_dow (s_date s))))
      (schedules (submit_weekday "Sunday"))
    = [(3, "Saturday"); (10, "Saturday"); (17, "Saturday"); (24, "Saturday")]%string /\
  map (fun o => (snd o, option_map dow_name (dayOfWeek_of (fst o)))) DAYS_OF_WEEK
    = [ ("Sunday", Some "Saturday"); ("Monday", Some "Sunday");
        ("Tuesday", Some "Monday"); ("Wednesday", Some "Tuesday");
        ("Thursday", Some "Wednesday"); ("Friday", Some "Thursday");
        ("Saturday", Some "Friday") ]%string.
Proof. vm_compute. repeat split. Qed.

(** C6, where the code departs from the claim.  In a browser at UTC+7 the
    two dates [handleDelete] sends for February 2024 are 31 January and 28
    February; deleting the pattern "Thursdays of February 2024" removes the
    pattern row but leaves the day-off row of Thursday 29 February. *)
Theorem delete_pattern_east_of_utc :
  pattern_rows 1%nat 2 2024 thursdays_db = [mkPattern 0%nat 1%nat 2 2024 4] /\
  map (fun s => s_date s - feb_2024 1 + 1) (day_off_rows 1%nat 2024 2 thursdays_db)
    = [1; 8; 15; 22; 29] /\
  toISOString_date (new_Date 420 2024 1 1) = make_date 2024 1 31 /\
  toISOString_date (new_Date 420 2024 2 0) = feb_2024 28 /\
  day_off_rows 1%nat 2024 2 (fst (handleDelete 420 0%nat thursdays_db))
    = [mkSchedule 5%nat 1%nat (feb_2024 29) true false] /\
  pattern_rows 1%nat 2 2024 (fst (handleDelete 420 0%nat thursdays_db)) = [] /\
  snd (handleDelete 420 0%nat thursdays_db) = ToastSuccess.
Proof. vm_compute. repeat split. Qed.

(** The earlier version of the trigger keeps the day-off rows of a previous
    weekday: run for "Thursdays of February 2024" it leaves the day off of
    Friday 2 February in place. *)
Example legacy_trigger_keeps_stale_rows :
  map (fun s => s_date s - feb_2024 1 + 1)
      (day_off_rows 1%nat 2024 2
         (create_monthly_dayoff_schedules_v1 (mkPattern 9%nat 1%nat 2 2024 4) february_db))
    = [2; 8; 1; 15; 22; 29].
Proof. reflexivity. Qed.

(* ================================================================== *)
(** ** More on the expansion trigger *)
(* ================================================================== *)

Lemma filter_map_unchanged {A} (f : A -> bool) (g : A -> A) (l : list A) :
  (forall a, f (g a) = f a) ->
  (forall a, f a = true -> g a = a) ->
  filter f (map g l) = filter f l.
Proof.
  intros H1 H2. induction l as [|a l IH]; cbn; [reflexivity|].
  rewrite H1. destruct (f a) eqn:E; [|exact IH].
  now rewrite (H2 a E), IH.
Qed.


(** An upsert leaves the rows of every other key as they are, in place. *)
Lemma upsert_day_off_frame (f : Schedule -> bool) (driver : uuid) (d : date) (db : DB) :
  (forall s t, schedule_key s = schedule_key t -> f s = f t) ->
  (forall s, schedule_key s = (driver, d) -> f s = false) ->
  filter f (schedules (upsert_day_off driver d db)) = filter f (schedules db).
Proof.
  intros Hkey Hout. unfold upsert_day_off.
  destruct (existsb (schedule_key_eqb driver d) (schedules db));
    cbn [schedules set_schedules].
  - apply filter_map_unchanged.
    + intros s. destruct (schedule_key_eqb driver d s); [|reflexivity].
      now apply Hkey.
    + intros s Hs. destruct (schedule_key_eqb driver d s) eqn:K; [|reflexivity].
      apply schedule_key_eqb_iff in K. rewrite (Hout s K) in Hs. discriminate.
  - rewrite filter_app. cbn [filter]. rewrite Hout by reflexivity.
    apply app_nil_r.
Qed.

Section TriggerFrame.

Variable tz : Z.
Variable NEW : DayOffPattern.

Lemma dayoff_loop_frame (f : Schedule -> bool) (fuel : nat) (curr last : date) (db : DB) :
  (forall s t, schedule_key s = schedule_key t -> f s = f t) ->
  (forall s, s_driver_id s = p_driver_id NEW -> curr <= s_date s <= last -> f s = false) ->
  filter f (schedules (dayoff_loop tz fuel curr last NEW db)) = filter f (schedules db).
Proof.
  intros Hkey. revert curr db. induction fuel as [|fuel IH]; intros curr db Hout; cbn;
    [reflexivity|].
  destruct (Z.leb_spec curr last) as [Hle|Hgt]; [|reflexivity].
  rewrite IH by (intros s Hs Hr; apply Hout; [assumption | lia]).
  destruct (local_dow tz curr =? day_of_week NEW); [|reflexivity].
  apply upsert_day_off_frame; [assumption|].
  intros s [= Hs Hd]. apply Hout; [assumption | lia].
Qed.

(** The trigger writes only rows of the pattern's driver dated in the
    pattern's month: all other rows stay, in their order. *)
Lemma trigger_frame (db : DB) :
  1 <= month NEW <= 12 ->
  filter (fun s => negb (Nat.eqb (s_driver_id s) (p_driver_id NEW)
                         && in_month (year NEW) (month NEW) (s_date s)))
         (schedules (create_monthly_dayoff_schedules tz NEW db))
  = filter (fun s => negb (Nat.eqb (s_driver_id s) (p_driver_id NEW)
                           && in_month (year NEW) (month NEW) (s_date s)))
           (schedules db).
Proof.
  intros Hm. unfold create_monthly_dayoff_schedules.
  rewrite dayoff_loop_frame.
  - cbn [schedules delete_schedules]. rewrite filter_filter_andb.
    apply filter_ext. intros s.
    rewrite <- (trigger_range (year NEW) (month NEW) (s_date s) Hm).
    destruct (Nat.eqb (s_driver_id s) (p_driver_id NEW)),
             (make_date (year NEW) (month NEW) 1 <=? s_date s),
             (s_date s <=? first_of_next_month (year NEW) (month NEW) - 1),
             (is_day_off s); reflexivity.
  - intros s t [= H1 H2]. now rewrite H1, H2.
  - intros s Hs Hr. rewrite Hs, Nat.eqb_refl.
    rewrite <- (trigger_range (year NEW) (month NEW) (s_date s) Hm).
    replace (make_date (year NEW) (month NEW) 1 <=? s_date s) with true
      by (symmetry; apply Z.leb_le; lia).
    replace (s_date s <=? first_of_next_month (year NEW) (month NEW) - 1) with true
      by (symmetry; apply Z.leb_le; lia).
    reflexivity.
Qed.

(** The replacements the trigger leaves: those of the rows it does not
    delete.  The loop does not touch the table. *)
Lemma trigger_replacements (db : DB) :
  1 <= month NEW <= 12 ->
  replacements (create_monthly_dayoff_schedules tz NEW db)
  = filter (fun r => negb (existsb (fun s => Nat.eqb (s_id s) (r_schedule_id r))
                             (day_off_rows (p_driver_id NEW) (year NEW) (month NEW) db)))
           (replacements db).
Proof.
  intros Hm. unfold create_monthly_dayoff_schedules.
  match goal with
  | |- context [dayoff_loop tz ?f ?c ?l NEW ?d] =>
      destruct (dayoff_loop_tables tz f c l NEW d) as (-> & _)
  end.
  cbn [replacements delete_schedules]. unfold day_off_rows.
  apply filter_ext. intros r. f_equal. f_equal.
  apply filter_ext. intros s.
  rewrite <- (trigger_range (year NEW) (month NEW) (s_date s) Hm).
  destruct (Nat.eqb (s_driver_id s) (p_driver_id NEW)),
           (make_date (year NEW) (month NEW) 1 <=? s_date s),
           (s_date s <=? first_of_next_month (year NEW) (month NEW) - 1),
           (is_day_off s); reflexivity.
Qed.

End TriggerFrame.

(** Set Pattern again, with what the pattern write leaves of the other
    tables: the trigger starts from the replacements and the overtime
    records of the database. *)
Lemma set_pattern_spec_tables (tz : Z) (driver : uuid) (m y dow : Z) (db : DB) :
  constraints db ->
  exists id db0,
    set_pattern tz driver m y dow db =
      (if pattern_checks (mkPattern id driver m y dow)
       then (create_monthly_dayoff_schedules tz (mkPattern id driver m y dow) db0,
             ToastSuccess)
       else (db, ToastError)) /\
    schedules db0 = schedules db /\
    replacements db0 = replacements db /\
    overtime_records db0 = overtime_records db /\
    pattern_rows driver m y db0 = [mkPattern id driver m y dow] /\
    constraints db0 /\
    (forall p, pattern_rows driver m y db = [p] -> id = p_id p).
Proof.
  intros [H1 H2 H3 H4].
  unfold set_pattern.
  destruct (filter_unique_cases pattern_key (pattern_key_eqb driver m y)
              (driver, m, y) (driver_monthly_dayoff db)
              (pattern_key_eqb_iff driver m y) H2) as [E|[p E]].
  - (* no pattern yet: insert *)
    rewrite E. cbn [maybeSingle]. unfold insert_pattern.
    assert (Hnone : ~ In (driver, m, y) (map pattern_key (driver_monthly_dayoff db))).
    { intros Hin. apply in_map_iff in Hin. destruct Hin as [q [Hq Hin]].
      assert (Hf : In q (filter (pattern_key_eqb driver m y) (driver_monthly_dayoff db))).
      { apply filter_In. split; [assumption | now apply pattern_key_eqb_iff]. }
      rewrite E in Hf. contradiction. }
    assert (Hex : existsb (pattern_key_eqb driver m y) (driver_monthly_dayoff db) = false).
    { apply not_true_iff_false. intros Hex. apply existsb_exists in Hex.
      destruct Hex as [q [Hin Hq]]. apply Hnone. apply pattern_key_eqb_iff in Hq.
      rewrite <- Hq. now apply in_map. }
    rewrite Hex. cbn [negb]. rewrite andb_true_r.
    exists (next_uuid db),
           (mkDB (schedules db) (replacements db) (overtime_records db)
                 (driver_monthly_dayoff db ++ [mkPattern (next_uuid db) driver m y dow])
                 (S (next_uuid db))).
    split; [now destruct (pattern_checks _)|]. cbn [schedules replacements overtime_records].
    split; [reflexivity|]. split; [reflexivity|]. split; [reflexivity|].
    split; [|split].
    + unfold pattern_rows. cbn [driver_monthly_dayoff].
      rewrite filter_app, E. cbn [filter app].
      replace (pattern_key_eqb driver m y _) with true; [reflexivity|].
      symmetry. now apply pattern_key_eqb_iff.
    + constructor; cbn [schedules driver_monthly_dayoff next_uuid].
      * assumption.
      * rewrite map_app. apply NoDup_snoc; assumption.
      * rewrite map_app. apply NoDup_snoc; [assumption|]. cbn.
        intros Hin. apply in_map_iff in Hin. destruct Hin as [q [Hq Hin]].
        rewrite Forall_forall in H4. apply H4 in Hin. lia.
      * apply Forall_app. split.
        -- eapply Forall_impl; [|exact H4]. cbn. intros q Hq. lia.
        -- repeat constructor.
    + intros q Hq. unfold pattern_rows in Hq. congruence.
  - (* a pattern exists: update it *)
    rewrite E. cbn [maybeSingle].
    assert (Hp : In p (filter (pattern_key_eqb driver m y) (driver_monthly_dayoff db)))
      by (rewrite E; now left).
    apply filter_In in Hp. destruct Hp as [Hin Hk].
    apply pattern_key_eqb_iff in Hk. injection Hk as Hk1 Hk2 Hk3.
    unfold update_pattern.
    rewrite (filter_unique_In p_id (fun q => Nat.eqb (p_id q) (p_id p)) (p_id p)
               (driver_monthly_dayoff db) p (pattern_id_eqb_iff (p_id p)) H3 Hin eq_refl).
    assert (Hset : set_day_of_week dow p = mkPattern (p_id p) driver m y dow).
    { unfold set_day_of_week. now rewrite Hk1, Hk2, Hk3. }
    cbn [map forallb fold_left]. rewrite Hset, andb_true_r.
    set (upd := fun q => if Nat.eqb (p_id q) (p_id p) then set_day_of_week dow q else q).
    assert (Hkeys : map pattern_key (map upd (driver_monthly_dayoff db))
                    = map pattern_key (driver_monthly_dayoff db)).
    { rewrite map_map. apply map_ext. intros q. unfold upd.
      now destruct (Nat.eqb (p_id q) (p_id p)). }
    assert (Hids : map p_id (map upd (driver_monthly_dayoff db))
                   = map p_id (driver_monthly_dayoff db)).
    { rewrite map_map. apply map_ext. intros q. unfold upd.
      now destruct (Nat.eqb (p_id q) (p_id p)). }
    exists (p_id p), (set_patterns db (map upd (driver_monthly_dayoff db))).
    split; [now destruct (pattern_checks _)|]. cbn [schedules replacements overtime_records set_patterns].
    split; [reflexivity|]. split; [reflexivity|]. split; [reflexivity|].
    split; [|split].
    + unfold pattern_rows. cbn [driver_monthly_dayoff set_patterns].
      apply (filter_unique_In pattern_key _ (driver, m, y)).
      * apply pattern_key_eqb_iff.
      * now rewrite Hkeys.
      * apply in_map_iff. exists p. split; [|assumption].
        unfold upd. now rewrite Nat.eqb_refl.
      * reflexivity.
    + constructor; cbn [schedules driver_monthly_dayoff next_uuid set_patterns].
      * assumption.
      * now rewrite Hkeys.
      * now rewrite Hids.
      * rewrite Forall_forall in *. intros q Hq.
        apply in_map_iff in Hq. destruct Hq as [q0 [<- Hq0]].
        apply H4 in Hq0. unfold upd.
        now destruct (Nat.eqb (p_id q0) (p_id p)).
    + intros q Hq. unfold pattern_rows in Hq. congruence.
Qed.

(** X1. Set Pattern for a driver and a month leaves every schedule row of
    another driver, and every row of the driver dated outside the month, as
    it was and where it was. *)
Theorem set_pattern_frame (tz : Z) (driver : uuid) (m y dow : Z) (db : DB) :
  constraints db ->
  filter (fun s => negb (Nat.eqb (s_driver_id s) driver && in_month y m (s_date s)))
         (schedules (fst (set_pattern tz driver m y dow db)))
  = filter (fun s => negb (Nat.eqb (s_driver_id s) driver && in_month y m (s_date s)))
           (schedules db).
Proof.
  intros Hc.
  destruct (set_pattern_spec tz driver m y dow db Hc) as (id & db0 & E & Hs0 & _).
  rewrite E. destruct (pattern_checks _) eqn:C; cbn [fst]; [|reflexivity].
  apply pattern_checks_range in C. rewrite <- Hs0.
  apply (trigger_frame tz (mkPattern id driver m y dow) db0). tauto.
Qed.

(** X2. Set Pattern deletes, with the driver's day-off rows of the month,
    the replacements assigned on them, also when the weekday is the one
    already stored; the replacements of all other rows stay. *)
Theorem set_pattern_drops_replacements (tz : Z) (driver : uuid) (m y dow : Z) (db : DB) :
  constraints db ->
  1 <= m <= 12 -> 0 <= dow <= 6 ->
  replacements (fst (set_pattern tz driver m y dow db))
  = filter (fun r => negb (existsb (fun s => Nat.eqb (s_id s) (r_schedule_id r))
                             (day_off_rows driver y m db)))
           (replacements db).
Proof.
  intros Hc Hm Hdow.
  destruct (set_pattern_spec_tables tz driver m y dow db Hc)
    as (id & db0 & E & Hs0 & Hr0 & _).
  rewrite (proj2 (pattern_checks_range id driver m y dow) (conj Hm Hdow)) in E.
  rewrite E. cbn [fst].
  rewrite (trigger_replacements tz (mkPattern id driver m y dow) db0 Hm).
  cbn [p_driver_id year month]. unfold day_off_rows. now rewrite Hs0, Hr0.
Qed.

(* ================================================================== *)
(** ** The two versions of the trigger *)
(* ================================================================== *)






(* ================================================================== *)
(** ** Set Pattern: outcomes and re-pointing *)
(* ================================================================== *)



(* ================================================================== *)
(** ** Delete Pattern east of UTC *)
(* ================================================================== *)

(** X7. In a browser east of UTC, Delete Pattern removes the pattern row
    and clears the driver's day offs from the day before the month to the
    day before its last day: every schedule row dated on the last day of the
    month is still there afterwards. *)
Theorem handleDelete_east_of_utc (ctz : Z) (p : DayOffPattern) (db : DB) :
  0 < ctz <= 1440 ->
  constraints db ->
  In p (driver_monthly_dayoff db) ->
  100 <= year p -> 1 <= month p <= 12 ->
  let after := fst (handleDelete ctz (p_id p) db) in
  let first := make_date (year p) (month p) 1 in
  let last := first_of_next_month (year p) (month p) - 1 in
  (forall s, In s (schedules db) -> s_date s = last -> In s (schedules after)) /\
  (forall s, In s (schedules after) ->
             s_driver_id s = p_driver_id p -> is_day_off s = true ->
             ~ (first - 1 <= s_date s <= last - 1)) /\
  pattern_rows (p_driver_id p) (month p) (year p) after = [] /\
  snd (handleDelete ctz (p_id p) db) = ToastSuccess.
Proof.
  intros Hc [H1 H2 H3 H4] Hin Hy Hm after first last. unfold after, handleDelete.
  rewrite (filter_unique_In p_id (fun q => Nat.eqb (p_id q) (p_id p)) (p_id p)
             (driver_monthly_dayoff db) p (pattern_id_eqb_iff (p_id p)) H3 Hin eq_refl).
  cbn [single fst snd].
  destruct (handleDelete_dates ctz (year p) (month p) Hy Hm ltac:(lia)) as [-> ->].
  replace (0 <? ctz) with true by (symmetry; apply Z.ltb_lt; lia).
  fold first. fold last.
  cbn [schedules delete_pattern set_patterns delete_schedules].
  split; [|split; [|split; [|reflexivity]]].
  - intros s Hs Hd. apply filter_In. split; [assumption|].
    replace (s_date s <=? last - 1) with false by (symmetry; apply Z.leb_gt; lia).
    now rewrite andb_false_r.
  - intros s Hs Hdrv Hoff Hr. apply filter_In in Hs. destruct Hs as [_ Hk].
    rewrite Hdrv, Nat.eqb_refl, Hoff in Hk.
    replace (first - 1 <=? s_date s) with true in Hk by (symmetry; apply Z.leb_le; lia).
    replace (s_date s <=? last - 1) with true in Hk by (symmetry; apply Z.leb_le; lia).
    discriminate Hk.
  - unfold pattern_rows.
    cbn [driver_monthly_dayoff delete_pattern set_patterns delete_schedules].
    rewrite filter_filter_andb. apply filter_none. intros q Hq.
    destruct (pattern_key_eqb (p_driver_id p) (month p) (year p) q) eqn:K;
      [|apply andb_false_r].
    apply pattern_key_eqb_iff in K.
    rewrite (pattern_key_injective _ q p H2 Hq Hin K), Nat.eqb_refl. reflexivity.
Qed.

(* ================================================================== *)
(** ** Marking in the dialog *)
(* ================================================================== *)

(** X8. Marking a driver twice with the same type on the same date: the
    flag of that type is back to what it was, the other flag is cleared, and
    the row stays, with its id; where there was no row, one is left behind
    with both flags off. *)
Theorem mark_twice (date : Z) (driverId : uuid) (type : ScheduleType) (db : DB) :
  NoDup (map schedule_key (schedules db)) ->
  let d := toISOString_date date in
  let db2 := fst (handleScheduleUpdate date driverId type
                    (fst (handleScheduleUpdate date driverId type db))) in
  filter (schedule_key_eqb driverId d) (schedules db2)
  = match filter (schedule_key_eqb driverId d) (schedules db) with
    | [] => [mkSchedule (next_uuid db) driverId d false false]
    | s :: _ =>
        [mkSchedule (s_id s) driverId d
           (match type with day_off => is_day_off s | annual_leave => false end)
           (match type with annual_leave => is_annual_leave s | day_off => false end)]
    end.
Proof.
  intros Hnd d db2. unfold db2.
  set (key := schedule_key_eqb driverId d).
  assert (Hupd : forall id a b l,
    filter key (map (fun s => if Nat.eqb (s_id s) id
                              then mkSchedule (s_id s) (s_driver_id s) (s_date s) a b
                              else s) l)
    = map (fun s => if Nat.eqb (s_id s) id
                    then mkSchedule (s_id s) (s_driver_id s) (s_date s) a b
                    else s) (filter key l)).
  { intros id a b l. apply filter_map_comm. intros s.
    now destruct (Nat.eqb (s_id s) id). }
  destruct (filter_unique_cases schedule_key key (driverId, d) (schedules db)
              (schedule_key_eqb_iff driverId d) Hnd) as [E|[s E]].
  - (* no row: insert, then update *)
    rewrite E. unfold handleScheduleUpdate at 2. fold d. fold key. rewrite E.
    cbn [maybeSingle fst]. unfold insert_schedule.
    assert (Hex : existsb key (schedules db) = false).
    { apply not_true_iff_false. intros Hex. apply existsb_exists in Hex.
      destruct Hex as [x [Hx Hk]].
      assert (Hf : In x (filter key (schedules db))) by (apply filter_In; auto).
      rewrite E in Hf. contradiction. }
    fold key. rewrite Hex. cbn [fst].
    unfold handleScheduleUpdate. fold d. fold key. cbn [schedules].
    rewrite filter_app, E. cbn [filter app].
    assert (Hk : forall a b, key (mkSchedule (next_uuid db) driverId d a b) = true).
    { intros a b. unfold key, schedule_key_eqb. cbn.
      now rewrite Nat.eqb_refl, Z.eqb_refl. }
    rewrite Hk. cbn [maybeSingle fst update_schedule_flags set_schedules schedules].
    rewrite Hupd. cbn [schedules]. rewrite filter_app, E. cbn [filter app].
    rewrite Hk. cbn [map s_id]. rewrite Nat.eqb_refl. cbn.
    now destruct type.
  - (* a row: two updates *)
    rewrite E.
    assert (Hs : In s (filter key (schedules db))) by (rewrite E; now left).
    apply filter_In in Hs. destruct Hs as [_ Hk].
    apply schedule_key_eqb_iff in Hk. injection Hk as Hk1 Hk2.
    unfold handleScheduleUpdate at 2. fold d. fold key. rewrite E.
    cbn [maybeSingle fst].
    unfold handleScheduleUpdate. fold d. fold key.
    cbn [update_schedule_flags set_schedules schedules].
    rewrite Hupd, E. cbn [map]. rewrite Nat.eqb_refl.
    cbn [maybeSingle fst update_schedule_flags set_schedules schedules s_id
         is_day_off is_annual_leave].
    rewrite Hupd, Hupd, E. cbn [map]. rewrite Nat.eqb_refl. cbn [s_id].
    rewrite Nat.eqb_refl. cbn. rewrite Hk1, Hk2.
    destruct type; cbn; now rewrite ?negb_involutive.
Qed.

Lemma schedule_key_injective (l : list Schedule) (s t : Schedule) :
  NoDup (map schedule_key l) -> In s l -> In t l ->
  schedule_key s = schedule_key t -> s = t.
Proof.
  induction l as [|a l IH]; cbn; intros Hnd Hs Ht Hk; [contradiction|].
  apply NoDup_cons_iff in Hnd. destruct Hnd as [Hn Hd].
  destruct Hs as [->|Hs], Ht as [->|Ht]; auto.
  - exfalso. apply Hn. rewrite Hk. now apply in_map.
  - exfalso. apply Hn. rewrite <- Hk. now apply in_map.
Qed.

(** X9. The drivers offered as replacement in the dialog of a date are never
    the absent driver, and none of them has a schedule row of that date, in
    the fetched range, that is a day off or an annual leave. *)
Theorem replacement_options_on_duty (lo hi : date) (date : Z) (db : DB)
    (drivers : list Driver) (driver c : Driver) (s : Schedule) :
  NoDup (map schedule_key (schedules db)) ->
  In c (replacement_options drivers
          (getSchedulesForDate (fetch_schedules lo hi db) date) driver) ->
  In s (schedules db) ->
  s_driver_id s = d_id c ->
  s_date s = toISOString_date date ->
  lo <= s_date s <= hi ->
  d_id c <> d_id driver /\ is_day_off s = false /\ is_annual_leave s = false.
Proof.
  intros Hnd Hc Hs Hdrv Hdate Hr.
  unfold replacement_options in Hc. apply filter_In in Hc. destruct Hc as [Hc Hne].
  unfold getAvailableDrivers in Hc. apply filter_In in Hc. destruct Hc as [_ Hduty].
  split.
  - intros E. rewrite E, Nat.eqb_refl in Hne. discriminate.
  - set (l := getSchedulesForDate (fetch_schedules lo hi db) date) in *.
    assert (Hin : In (join_replacements db s) l).
    { unfold l, getSchedulesForDate. apply filter_In. split.
      - unfold fetch_schedules. apply in_map. apply filter_In. split; [assumption|].
        apply andb_true_iff. split; apply Z.leb_le; lia.
      - cbn. now apply Z.eqb_eq. }
    unfold getDriverSchedule in Hduty.
    destruct (find _ l) as [x|] eqn:F.
    + apply find_some in F. destruct F as [Hx Hxd]. apply Nat.eqb_eq in Hxd.
      unfold l, getSchedulesForDate in Hx. apply filter_In in Hx.
      destruct Hx as [Hx Hxdate]. apply Z.eqb_eq in Hxdate.
      unfold fetch_schedules in Hx. apply in_map_iff in Hx.
      destruct Hx as [t [<- Ht]]. apply filter_In in Ht. destruct Ht as [Ht _].
      cbn in Hxd, Hxdate, Hduty.
      assert (t = s).
      { apply (schedule_key_injective (schedules db)); try assumption.
        unfold schedule_key. congruence. }
      subst t. apply andb_true_iff in Hduty. destruct Hduty as [Ha Hb].
      apply negb_true_iff in Ha, Hb. auto.
    + exfalso. apply (find_none _ _ F) in Hin. cbn in Hin.
      rewrite Hdrv, Nat.eqb_refl in Hin. discriminate.
Qed.

(* ================================================================== *)
(** ** Runs of assignments *)
(* ================================================================== *)

Lemma accrue_overtime_total (driver : uuid) (d : date) (db : DB) (n : Z) :
  0 <= n -> 800 * (n + 1) < 100000 ->
  (forall o, In o (overtime_of driver d db) ->
             -100000 < hours o /\ hours o + 800 * (n + 1) < 100000) ->
  total_hours (overtime_of driver d (accrue_overtime driver d db))
    = total_hours (overtime_of driver d db) + 800 /\
  (forall o, In o (overtime_of driver d (accrue_overtime driver d db)) ->
             -100000 < hours o /\ hours o + 800 * n < 100000).
Proof.
  intros Hn Hb Hall.
  destruct (overtime_of driver d db) as [|e [|e' l]] eqn:E.
  - destruct (accrue_overtime_none driver d db E) as [-> _].
    unfold total_hours. cbn [fold_right hours]. split; [lia|].
    intros o [<-|[]]. cbn [hours]. lia.
  - assert (He : numeric_5_2 (hours e + 800) = true).
    { unfold numeric_5_2. apply Z.ltb_lt.
      destruct (Hall e (or_introl eq_refl)). lia. }
    destruct (accrue_overtime_one driver d db e E He) as [-> _].
    unfold total_hours. cbn [fold_right hours]. split; [lia|].
    intros o [<-|[]]. cbn [hours]. destruct (Hall e (or_introl eq_refl)). lia.
  - destruct (accrue_overtime_many driver d db e e' l E) as [-> _]. split.
    + change (e :: e' :: l ++ ?x) with ((e :: e' :: l) ++ x).
      rewrite total_hours_app. unfold total_hours at 2. cbn [fold_right hours]. lia.
    + intros o Ho. change (e :: e' :: l ++ ?x) with ((e :: e' :: l) ++ x) in Ho.
      apply in_app_or in Ho. destruct Ho as [Ho|[<-|[]]].
      * destruct (Hall o Ho). lia.
      * cbn [hours]. lia.
Qed.

(** X10. A run of assignments of one replacement driver on one date, for
    any schedules and shifts, adds 8 hours to that driver's overtime of the
    date per assignment and one replacement row per assignment, as long as
    the hours stay inside the column's type. *)
Theorem assign_all_accumulates (date : Z) (replacementDriverId : uuid)
    (shifts : list (uuid * uuid * uuid)) (db : DB) :
  800 * Z.of_nat (length shifts) < 100000 ->
  (forall o, In o (overtime_of replacementDriverId (toISOString_date date) db) ->
             -100000 < hours o /\
             hours o + 800 * Z.of_nat (length shifts) < 100000) ->
  total_hours (overtime_of replacementDriverId (toISOString_date date)
                 (assign_all date replacementDriverId shifts db))
    = total_hours (overtime_of replacementDriverId (toISOString_date date) db)
      + 800 * Z.of_nat (length shifts) /\
  length (replacements (assign_all date replacementDriverId shifts db))
    = (length (replacements db) + length shifts)%nat.
Proof.
  unfold assign_all. revert db.
  induction shifts as [|[[scheduleId driverId] shiftId] shifts IH]; intros db Hb Hall.
  - cbn. split; lia.
  - cbn [fold_left length]. cbn [length] in Hb, Hall.
    rewrite Nat2Z.inj_succ in Hb, Hall.
    unfold handleAssignReplacement at 2 4. cbn [fst].
    set (d := toISOString_date date) in *.
    set (dbA := insert_replacement scheduleId replacementDriverId shiftId db).
    destruct (accrue_overtime_total replacementDriverId d dbA
                (Z.of_nat (length shifts)) ltac:(lia) ltac:(lia)) as [Ht Hall'].
    { intros o Ho. apply Hall in Ho. lia. }
    destruct (IH (accrue_overtime replacementDriverId d dbA)) as [IH1 IH2].
    + lia.
    + exact Hall'.
    + assert (EA : overtime_of replacementDriverId d dbA
                   = overtime_of replacementDriverId d db) by reflexivity.
      assert (ER : length (replacements dbA) = S (length (replacements db))).
      { unfold dbA, insert_replacement. cbn [replacements set_replacements].
        rewrite length_app. cbn [length]. lia. }
      destruct (accrue_overtime_frame replacementDriverId d dbA) as (_ & EF & _).
      rewrite IH1, IH2, Ht, EA, EF, ER. split; lia.
Qed.

(* ================================================================== *)
(** ** Pages of the pattern list *)
(* ================================================================== *)

Lemma firstn_skipn_add {A} (a b : nat) (l : list A) :
  firstn a l ++ firstn b (skipn a l) = firstn (a + b) l.
Proof.
  revert l. induction a as [|a IH]; intros l; [reflexivity|].
  destruct l as [|x l]; cbn; [now rewrite firstn_nil|].
  now rewrite IH.
Qed.

Lemma pages_concat {A} (n : nat) (l : list A) :
  concat (map (fun p => currentPatterns p l) (seq 1 n)) = firstn (n * ITEMS_PER_PAGE) l.
Proof.
  induction n as [|n IH]; [reflexivity|].
  rewrite seq_S, map_app, concat_app, IH. cbn [map concat seq].
  rewrite app_nil_r. unfold currentPatterns, slice.
  replace (1 + n - 1)%nat with n by lia.
  replace (n * ITEMS_PER_PAGE + ITEMS_PER_PAGE - n * ITEMS_PER_PAGE)%nat
    with ITEMS_PER_PAGE by lia.
  rewrite firstn_skipn_add. f_equal. unfold ITEMS_PER_PAGE. lia.
Qed.

Lemma ceil_div_bounds (n : nat) :
  (n <= ceil_div n ITEMS_PER_PAGE * ITEMS_PER_PAGE)%nat /\
  (0 < n -> (ceil_div n ITEMS_PER_PAGE - 1) * ITEMS_PER_PAGE < n)%nat.
Proof.
  unfold ceil_div, ITEMS_PER_PAGE.
  pose proof (Nat.div_mod_eq n 5) as E.
  pose proof (Nat.mod_upper_bound n 5 ltac:(lia)) as U.
  destruct (Nat.eqb_spec (n mod 5) 0); lia.
Qed.

(** X11. The pages of the pattern list: the pages 1 .. [totalPages], one
    after the other, are the list itself; a page before the last holds 5
    patterns, the last one at least 1 and at most 5; a page after the last
    is empty. *)
Theorem pages_partition {A} (patterns : list A) :
  concat (map (fun p => currentPatterns p patterns) (seq 1 (totalPages patterns)))
    = patterns /\
  (forall p, (1 <= p < totalPages patterns)%nat ->
             length (currentPatterns p patterns) = 5%nat) /\
  (forall p, (1 <= p)%nat -> p = totalPages patterns ->
             (1 <= length (currentPatterns p patterns) <= 5)%nat) /\
  (forall p, (totalPages patterns < p)%nat -> currentPatterns p patterns = []).
Proof.
  unfold totalPages.
  destruct (ceil_div_bounds (length patterns)) as [Hup Hlow].
  split; [|split; [|split]].
  - rewrite pages_concat. apply firstn_all2. exact Hup.
  - intros p Hp. unfold currentPatterns, slice.
    rewrite length_firstn, length_skipn. unfold ITEMS_PER_PAGE in *.
    assert (0 < length patterns)%nat by (destruct patterns; cbn in *; lia).
    specialize (Hlow ltac:(lia)). nia.
  - intros p Hp ->. unfold currentPatterns, slice.
    rewrite length_firstn, length_skipn. unfold ITEMS_PER_PAGE in *.
    assert (0 < length patterns)%nat.
    { destruct patterns; [|cbn; lia]. cbn in Hp. lia. }
    specialize (Hlow ltac:(lia)). lia.
  - intros p Hp. unfold currentPatterns, slice.
    rewrite skipn_all2; [apply firstn_nil|]. unfold ITEMS_PER_PAGE in *. nia.
Qed.

(** X12. The Previous and Next buttons keep the page between 1 and
    [totalPages], and undo each other away from the two ends. *)
Theorem page_buttons_in_range (total p : nat) :
  (1 <= p <= total)%nat ->
  (1 <= previousPage p <= total)%nat /\
  (1 <= nextPage total p <= total)%nat /\
  (p < total -> previousPage (nextPage total p) = p)%nat /\
  (1 < p -> nextPage total (previousPage p) = p)%nat.
Proof. unfold previousPage, nextPage. lia. Qed.

(* ================================================================== *)
(** ** The overtime form and the report *)
(* ================================================================== *)

(** X13. The overtime form never records anything: each of the four types
    it offers fails the table's check on [ot_type], so every submission ends
    with the error toast and the database as it was. *)
Theorem overtime_form_rejected (values : OvertimeFormValues) (db : DB) :
  OvertimeForm_onSubmit values db = (db, ToastError).
Proof. unfold OvertimeForm_onSubmit. now destruct (v_ot_type values). Qed.

(** X14. The export's "OT Type" column is blank for every type the table
    lets in. *)
Theorem export_ot_type_blank (s : string) (ty : OtType) :
  ot_type_check s = Some ty -> otTypeFormatted s = ""%string.
Proof.
  unfold ot_type_check.
  destruct (String.eqb_spec s "replacement") as [->|_]; [reflexivity|].
  destruct (String.eqb_spec s "extension") as [->|_]; [reflexivity|].
  destruct (String.eqb_spec s "special") as [->|_]; [reflexivity|discriminate].
Qed.

Lemma totalHours_total_hours (l : list OvertimeRecord) :
  totalHours l = total_hours l.
Proof.
  unfold totalHours, total_hours.
  assert (H : forall a, fold_left (fun acc record => acc + hours record) l a
                        = a + fold_right (fun o acc => hours o + acc) 0 l).
  { induction l as [|o l IH]; intros a; cbn; [lia|]. rewrite IH. lia. }
  rewrite H. lia.
Qed.

(** X15. Deleting a record from the report, with the ids of the records
    unique: that record is gone, the others stay in their order, and the
    report's total of hours goes down by the hours of the record. *)
Theorem overtime_delete_total (o : OvertimeRecord) (db : DB) :
  NoDup (map o_id (overtime_records db)) ->
  In o (overtime_records db) ->
  let after := fst (overtime_handleDelete (o_id o) db) in
  ~ In o (overtime_records after) /\
  (forall o', o_id o' <> o_id o ->
              (In o' (overtime_records after) <-> In o' (overtime_records db))) /\
  totalHours (overtime_records after) = totalHours (overtime_records db) - hours o.
Proof.
  intros Hnd Hin after. unfold after, overtime_handleDelete, delete_overtime.
  cbn [fst overtime_records set_overtime_records].
  split; [|split].
  - intros H. apply filter_In in H. destruct H as [_ H].
    rewrite Nat.eqb_refl in H. discriminate.
  - intros o' Hne. rewrite filter_In. split; [tauto|].
    intros H. split; [assumption|].
    apply negb_true_iff. now apply Nat.eqb_neq.
  - rewrite !totalHours_total_hours. unfold total_hours.
    induction (overtime_records db) as [|a l IH]; [contradiction|].
    cbn [map] in Hnd. apply NoDup_cons_iff in Hnd. destruct Hnd as [Hn Hd].
    cbn [filter fold_right]. destruct Hin as [->|Hin].
    + rewrite Nat.eqb_refl. cbn [negb].
      rewrite forallb_filter_id.
      * lia.
      * apply forallb_forall. intros x Hx. apply negb_true_iff, Nat.eqb_neq.
        intros E. apply Hn. rewrite <- E. now apply in_map.
    + destruct (Nat.eqb_spec (o_id a) (o_id o)) as [E|E].
      * exfalso. apply Hn. rewrite E. now apply in_map.
      * cbn [negb fold_right]. rewrite (IH Hd Hin). lia.
Qed.

(* ================================================================== *)
(** ** The label of a pattern in the list *)
(* ================================================================== *)


(* ================================================================== *)
(** ** The views of the dialog *)
(* ================================================================== *)

Lemma groups_partition (filtered : list Driver) (schedules : list DialogSchedule) :
  Forall (fun s => exclusive (ds_row s)) schedules ->
  let '(onDuty, dayOff, annual) := groupedDrivers filtered schedules in
  (length onDuty + length dayOff + length annual = length filtered)%nat /\
  (forall d, In d filtered ->
     (In d onDuty /\ ~ In d dayOff /\ ~ In d annual) \/
     (~ In d onDuty /\ In d dayOff /\ ~ In d annual) \/
     (~ In d onDuty /\ ~ In d dayOff /\ In d annual)).
Proof.
  intros Hex. unfold groupedDrivers.
  assert (Hone : forall d,
    let x := getDriverSchedule schedules (d_id d) in
    (on_duty x = true /\ shows_day_off x = false /\ shows_annual_leave x = false) \/
    (on_duty x = false /\ shows_day_off x = true /\ shows_annual_leave x = false) \/
    (on_duty x = false /\ shows_day_off x = false /\ shows_annual_leave x = true)).
  { intros d x. unfold x, getDriverSchedule.
    destruct (find _ schedules) as [s|] eqn:F; [|left; auto].
    apply find_some in F. destruct F as [Hs _].
    rewrite Forall_forall in Hex. specialize (Hex s Hs). unfold exclusive in Hex.
    cbn. destruct (is_day_off (ds_row s)), (is_annual_leave (ds_row s));
      cbn in *; try discriminate; auto. }
  split.
  - induction filtered as [|d l IH]; [reflexivity|]. cbn [filter length].
    destruct (Hone d) as [(-> & -> & ->)|[(-> & -> & ->)|(-> & -> & ->)]];
      cbn [length]; lia.
  - intros d Hd. rewrite !filter_In.
    destruct (Hone d) as [(E1 & E2 & E3)|[(E1 & E2 & E3)|(E1 & E2 & E3)]];
      rewrite E1, E2, E3; [left|right; left|right; right];
      repeat split; auto; intros [_ H]; discriminate.
Qed.

(** X17. The three groups of the dialog: with no schedule of the date
    carrying both flags, every driver that passes the search and the status
    filter is in exactly one of "on duty", "day off" and "annual leave". *)
Theorem groupedDrivers_partition (matchesSearch : Driver -> bool)
    (statusFilter : list string) (drivers : list Driver)
    (schedules : list DialogSchedule) :
  Forall (fun s => exclusive (ds_row s)) schedules ->
  let filtered := filteredDrivers matchesSearch statusFilter drivers schedules in
  let '(onDuty, dayOff, annual) := groupedDrivers filtered schedules in
  (length onDuty + length dayOff + length annual = length filtered)%nat /\
  (forall d, In d filtered ->
     (In d onDuty /\ ~ In d dayOff /\ ~ In d annual) \/
     (~ In d onDuty /\ In d dayOff /\ ~ In d annual) \/
     (~ In d onDuty /\ ~ In d dayOff /\ In d annual)).
Proof. intros Hex filtered. now apply groups_partition. Qed.

Lemma view_row (lo hi : date) (date : Z) (driverId : uuid) (db : DB) :
  lo <= toISOString_date date <= hi ->
  getDriverSchedule (getSchedulesForDate (fetch_schedules lo hi db) date) driverId
  = option_map (join_replacements db)
      (hd_error (filter (schedule_key_eqb driverId (toISOString_date date))
                        (schedules db))).
Proof.
  intros Hr. unfold getDriverSchedule, getSchedulesForDate, fetch_schedules.
  set (j := join_replacements db).
  assert (Hj : forall s, ds_row (j s) = s) by reflexivity.
  induction (schedules db) as [|s l IH]; [reflexivity|].
  cbn [filter]. unfold schedule_key_eqb at 1.
  destruct (Z.eqb_spec (s_date s) (toISOString_date date)) as [E|E].
  - rewrite E.
    replace (lo <=? toISOString_date date) with true by (symmetry; apply Z.leb_le; lia).
    replace (toISOString_date date <=? hi) with true by (symmetry; apply Z.leb_le; lia).
    cbn [andb map filter]. rewrite Hj, E, Z.eqb_refl. cbn [find]. rewrite Hj.
    rewrite andb_true_r.
    destruct (Nat.eqb (s_driver_id s) driverId); [reflexivity | exact IH].
  - rewrite andb_false_r.
    destruct ((lo <=? s_date s) && (s_date s <=? hi)); [|exact IH].
    cbn [map filter]. rewrite Hj.
    replace (s_date s =? toISOString_date date) with false
      by (symmetry; now apply Z.eqb_neq).
    exact IH.
Qed.

Lemma handleScheduleUpdate_row (date : Z) (driverId : uuid) (type : ScheduleType)
    (db : DB) :
  NoDup (map schedule_key (schedules db)) ->
  let d := toISOString_date date in
  filter (schedule_key_eqb driverId d)
         (schedules (fst (handleScheduleUpdate date driverId type db)))
  = match filter (schedule_key_eqb driverId d) (schedules db) with
    | [] => [mkSchedule (next_uuid db) driverId d
               (match type with day_off => true | annual_leave => false end)
               (match type with annual_leave => true | day_off => false end)]
    | s :: _ =>
        [mkSchedule (s_id s) driverId d
           (match type with day_off => negb (is_day_off s) | annual_leave => false end)
           (match type with annual_leave => negb (is_annual_leave s) | day_off => false end)]
    end.
Proof.
  intros Hnd d. set (key := schedule_key_eqb driverId d).
  destruct (filter_unique_cases schedule_key key (driverId, d) (schedules db)
              (schedule_key_eqb_iff driverId d) Hnd) as [E|[s E]].
  - rewrite E. unfold handleScheduleUpdate. fold d. fold key. rewrite E.
    cbn [maybeSingle fst]. unfold insert_schedule.
    assert (Hex : existsb key (schedules db) = false).
    { apply not_true_iff_false. intros Hex. apply existsb_exists in Hex.
      destruct Hex as [x [Hx Hk]].
      assert (Hf : In x (filter key (schedules db))) by (apply filter_In; auto).
      rewrite E in Hf. contradiction. }
    fold key. rewrite Hex. cbn [fst schedules].
    rewrite filter_app, E. cbn [filter app].
    replace (key _) with true; [reflexivity|].
    symmetry. unfold key, schedule_key_eqb. cbn.
    now rewrite Nat.eqb_refl, Z.eqb_refl.
  - rewrite E.
    assert (Hs : In s (filter key (schedules db))) by (rewrite E; now left).
    apply filter_In in Hs. destruct Hs as [_ Hk].
    apply schedule_key_eqb_iff in Hk. injection Hk as Hk1 Hk2.
    unfold handleScheduleUpdate. fold d. fold key. rewrite E.
    cbn [maybeSingle fst update_schedule_flags set_schedules schedules].
    rewrite filter_map_comm by (intros x; now destruct (Nat.eqb (s_id x) (s_id s))).
    rewrite E. cbn [map]. rewrite Nat.eqb_refl, Hk1, Hk2. reflexivity.
Qed.

(** X18. What the dialog shows after a press on a marking button, once the
    page has fetched again: the driver has a schedule of the date, the flag
    of the button is the opposite of what the dialog showed before, and the
    other flag is off; a button that was not disabled leaves the other flag
    as it was. *)
Theorem mark_then_view (lo hi : date) (date : Z) (driverId : uuid)
    (type : ScheduleType) (db : DB) :
  NoDup (map schedule_key (schedules db)) ->
  lo <= toISOString_date date <= hi ->
  let view db :=
    getDriverSchedule (getSchedulesForDate (fetch_schedules lo hi db) date) driverId in
  let before := view db in
  let after := view (fst (handleScheduleUpdate date driverId type db)) in
  after <> None /\
  shows_day_off after
    = match type with day_off => negb (shows_day_off before) | annual_leave => false end /\
  shows_annual_leave after
    = match type with annual_leave => negb (shows_annual_leave before) | day_off => false end /\
  (button_disabled type before = false ->
   match type with
   | day_off => shows_annual_leave after = shows_annual_leave before
   | annual_leave => shows_day_off after = shows_day_off before
   end).
Proof.
  intros Hnd Hr view before after. unfold before, after, view.
  rewrite !(view_row lo hi date driverId) by assumption.
  rewrite (handleScheduleUpdate_row date driverId type db Hnd).
  destruct (filter _ (schedules db)) as [|s l]; cbn;
    (split; [discriminate|]); destruct type; cbn; auto.
Qed.

(** X19. After an assignment that the storage accepts, the schedule no
    longer needs a replacement, and the replacements nested in every other
    schedule are as before. *)
Theorem assigned_needs_no_replacement (date : Z)
    (scheduleId replacementDriverId driverId shiftId : uuid) (db : DB) (s : Schedule) :
  let after := fst (handleAssignReplacement Accepted date scheduleId
                      replacementDriverId driverId shiftId db) in
  (s_id s = scheduleId -> needsReplacement (join_replacements after s) = false) /\
  (s_id s <> scheduleId -> join_replacements after s = join_replacements db s).
Proof.
  intros after. unfold after, handleAssignReplacement. cbn [fst].
  unfold join_replacements, needsReplacement.
  destruct (accrue_overtime_frame replacementDriverId (toISOString_date date)
              (insert_replacement scheduleId replacementDriverId shiftId db))
    as (_ & -> & _).
  cbn [replacements insert_replacement ds_row ds_replacements].
  rewrite filter_app. cbn [filter r_schedule_id]. split.
  - intros ->. rewrite Nat.eqb_refl, length_app. cbn [length].
    replace (Nat.eqb _ 0) with false; [apply andb_false_r|].
    symmetry. apply Nat.eqb_neq. lia.
  - intros Hne. replace (Nat.eqb scheduleId (s_id s)) with false.
    + now rewrite app_nil_r.
    + symmetry. apply Nat.eqb_neq. congruence.
Qed.

(** X20. Update Replacement with a new driver other than the old one: the
    new driver's overtime of the date grows by 8 hours, as long as the hours
    stay inside the column's type, and the replacement rows keep their ids,
    schedules and shifts. *)
Theorem update_replacement_new_driver (date : Z)
    (replacementId newDriverId driverId scheduleId : uuid) (db : DB) (r : Replacement) :
  filter (fun x => Nat.eqb (r_id x) replacementId) (replacements db) = [r] ->
  replacement_driver_id r <> newDriverId ->
  (forall o, In o (overtime_of newDriverId (toISOString_date date) db) ->
             -100000 < hours o /\ hours o + 800 < 100000) ->
  let after := fst (handleUpdateReplacement date replacementId newDriverId driverId
                      scheduleId db) in
  total_hours (overtime_of newDriverId (toISOString_date date) after)
    = total_hours (overtime_of newDriverId (toISOString_date date) db) + 800 /\
  map (fun x => (r_id x, r_schedule_id x, r_shift_id x)) (replacements after)
    = map (fun x => (r_id x, r_schedule_id x, r_shift_id x)) (replacements db) /\
  (forall x, In x (replacements after) -> r_id x = replacementId ->
             replacement_driver_id x = newDriverId).
Proof.
  intros E Hne Hall after. unfold after, handleUpdateReplacement.
  rewrite E. cbn [single fst].
  set (d := toISOString_date date) in *.
  set (db2 := delete_overtime _ _).
  assert (E2 : overtime_of newDriverId d db2 = overtime_of newDriverId d db).
  { unfold db2, overtime_of, delete_overtime, update_replacement_driver.
    cbn [overtime_records set_overtime_records set_replacements].
    rewrite filter_filter_andb. apply filter_ext. intros o.
    unfold overtime_key_eqb.
    destruct (Nat.eqb_spec (o_driver_id o) (replacement_driver_id r)) as [E1|E1];
      [|cbn; reflexivity].
    destruct (Nat.eqb_spec (o_driver_id o) newDriverId) as [E3|E3];
      [congruence|]. now rewrite andb_false_r. }
  destruct (accrue_overtime_total newDriverId d db2 0 ltac:(lia) ltac:(lia)) as [Ht _].
  { intros o Ho. rewrite E2 in Ho. apply Hall in Ho. lia. }
  destruct (accrue_overtime_frame newDriverId d db2) as (_ & -> & _).
  rewrite Ht, E2. split; [reflexivity|].
  unfold db2, delete_overtime, update_replacement_driver.
  cbn [replacements set_overtime_records set_replacements]. split.
  - rewrite map_map. apply map_ext. intros x.
    now destruct (Nat.eqb (r_id x) replacementId).
  - intros x Hx Hid. apply in_map_iff in Hx. destruct Hx as [x0 [<- _]].
    destruct (Nat.eqb_spec (r_id x0) replacementId) as [_|Hn]; [reflexivity|].
    cbn in Hid. contradiction.
Qed.

(* ================================================================== *)
(** ** Day numbers and the civil calendar *)
(* ================================================================== *)

Lemma DayFromYear_succ (y : Z) : DayFromYear (y + 1) = DayFromYear y + DaysInYear y.
Proof.
  unfold DayFromYear, DaysInYear.
  destruct (Z.eqb_spec (y mod 4) 0), (Z.eqb_spec (y mod 100) 0),
           (Z.eqb_spec (y mod 400) 0); cbn [negb];
    Z.to_euclidean_division_equations; lia.
Qed.

Lemma DaysInYear_is_leap (y : Z) :
  DaysInYear y = if is_leap y then 366 else 365.
Proof.
  unfold DaysInYear, is_leap.
  destruct (Z.eqb_spec (y mod 4) 0), (Z.eqb_spec (y mod 100) 0),
           (Z.eqb_spec (y mod 400) 0); cbn; try reflexivity;
    exfalso; Z.to_euclidean_division_equations; lia.
Qed.

(** [YearFromDay] is the year the specification asks for. *)
Lemma YearFromDay_spec (day : Z) :
  DayFromYear (YearFromDay day) <= day < DayFromYear (YearFromDay day + 1).
Proof.
  unfold YearFromDay.
  set (y := 1970 + 400 * day / 146097).
  assert (H : DayFromYear (y - 1) <= day < DayFromYear (y + 2)).
  { unfold DayFromYear, y. Z.to_euclidean_division_equations. lia. }
  destruct (Z.leb_spec (DayFromYear (y + 1)) day) as [H1|H1].
  - replace (y + 1 + 1) with (y + 2) by lia. lia.
  - destruct (Z.ltb_spec day (DayFromYear y)) as [H2|H2].
    + replace (y - 1 + 1) with y by lia. lia.
    + lia.
Qed.

Lemma DayFromYear_mono (a b : Z) : a <= b -> DayFromYear a <= DayFromYear b.
Proof. unfold DayFromYear. intros H. Z.to_euclidean_division_equations. lia. Qed.

Lemma YearFromDay_unique (day y : Z) :
  DayFromYear y <= day < DayFromYear (y + 1) -> YearFromDay day = y.
Proof.
  intros H. pose proof (YearFromDay_spec day) as S.
  destruct (Z.lt_trichotomy (YearFromDay day) y) as [L|[E|G]]; [|exact E|].
  - pose proof (DayFromYear_mono (YearFromDay day + 1) y ltac:(lia)). lia.
  - pose proof (DayFromYear_mono (y + 1) (YearFromDay day) ltac:(lia)). lia.
Qed.

Lemma make_date_DayFromYear (y m d : Z) :
  1 <= m <= 12 ->
  make_date y m d
  = DayFromYear y + days_before (if is_leap y then 1 else 0) m + d - 1.
Proof.
  intros Hm.
  assert (Hc : m = 1 \/ m = 2 \/ m = 3 \/ m = 4 \/ m = 5 \/ m = 6 \/ m = 7 \/ m = 8
               \/ m = 9 \/ m = 10 \/ m = 11 \/ m = 12) by lia.
  unfold make_date, date2j, UNIX_EPOCH_JDATE, DayFromYear, is_leap.
  destruct (Z.eqb_spec (y mod 4) 0), (Z.eqb_spec (y mod 100) 0),
           (Z.eqb_spec (y mod 400) 0); cbn [negb andb orb];
  repeat (destruct Hc as [->|Hc]); try subst m; cbn [days_before Z.ltb Z.compare Pos.compare Pos.compare_cont];
    Z.to_euclidean_division_equations; lia.
Qed.

Lemma civil_of_day (y m d t : Z) :
  1 <= m <= 12 -> 1 <= d <= days_in_month y m ->
  Day t = make_date y m d ->
  YearFromTime t = y /\ MonthFromTime t = m - 1 /\ DateFromTime t = d.
Proof.
  intros Hm Hd Ht.
  rewrite (make_date_DayFromYear y m d Hm) in Ht.
  set (leap := if is_leap y then 1 else 0) in *.
  assert (Hleap : DaysInYear y = 365 + leap).
  { rewrite DaysInYear_is_leap. unfold leap. now destruct (is_leap y). }
  assert (Hdm : days_in_month y m
                = if m =? 2 then 28 + leap
                  else if (m =? 4) || (m =? 6) || (m =? 9) || (m =? 11) then 30 else 31).
  { unfold days_in_month, leap. destruct (m =? 2); [now destruct (is_leap y)|reflexivity]. }
  assert (Hl : leap = 0 \/ leap = 1) by (unfold leap; destruct (is_leap y); auto).
  clearbody leap.
  assert (Hc : m = 1 \/ m = 2 \/ m = 3 \/ m = 4 \/ m = 5 \/ m = 6 \/ m = 7 \/ m = 8
               \/ m = 9 \/ m = 10 \/ m = 11 \/ m = 12) by lia.
  assert (Hy : YearFromTime t = y).
  { unfold YearFromTime. apply YearFromDay_unique. rewrite DayFromYear_succ, Ht, Hleap.
    rewrite Hdm in Hd.
    repeat (destruct Hc as [->|Hc]); try subst m; cbn [Z.eqb Pos.eqb orb] in Hd; cbv [days_before]; lia. }
  assert (Hw : DayWithinYear t = days_before leap m + d - 1).
  { unfold DayWithinYear. rewrite Hy, Ht. lia. }
  assert (Hi : InLeapYear t = leap).
  { unfold InLeapYear. rewrite Hy, Hleap. destruct Hl as [-> | ->]; reflexivity. }
  split; [exact Hy|].
  assert (Hmonth : MonthFromTime t = m - 1).
  { unfold MonthFromTime. rewrite Hw, Hi. rewrite Hdm in Hd.
    repeat (destruct Hc as [->|Hc]); try subst m; cbn [Z.eqb Pos.eqb orb] in Hd; cbv [days_before];
      repeat match goal with
             | |- context [?a <? ?b] => destruct (Z.ltb_spec a b); try lia
             end. }
  split; [exact Hmonth|].
  unfold DateFromTime. rewrite Hmonth, Hw, Hi.
  repeat (destruct Hc as [->|Hc]); try subst m;
    match goal with
    | |- context [?a - 1] =>
        let v := eval vm_compute in (a - 1) in change (a - 1) with v
    end; cbv [days_before]; lia.
Qed.

Lemma WeekDay_extract_dow (t : Z) : WeekDay t = extract_dow (Day t).
Proof.
  unfold WeekDay, extract_dow, UNIX_EPOCH_JDATE.
  Z.to_euclidean_division_equations. lia.
Qed.

(** [new Date(y, monthIndex, d)] is the local midnight of a civil date. *)
Lemma new_Date_local (tz y monthIndex d : Z) :
  100 <= y ->
  Day (LocalTime tz (new_Date tz y monthIndex d))
  = make_date (y + monthIndex / 12) (monthIndex mod 12 + 1) d.
Proof.
  intros Hy. unfold Day, LocalTime, new_Date.
  replace ((0 <=? y) && (y <=? 99)) with false
    by (symmetry; apply andb_false_iff; right; apply Z.leb_gt; lia).
  rewrite (make_date_day _ _ d).
  replace (_ - tz * 60000 + tz * 60000) with
    ((make_date (y + monthIndex / 12) (monthIndex mod 12 + 1) 1 + (d - 1)) * MS_PER_DAY)
    by lia.
  apply Z.div_mul. unfold MS_PER_DAY. lia.
Qed.

(** The UTC date of a local midnight: the civil date at or west of UTC, the
    day before east of it. *)
Lemma toISOString_local_midnight (tz y monthIndex d : Z) :
  100 <= y -> -1440 < tz <= 1440 ->
  toISOString_date (new_Date tz y monthIndex d)
  = make_date (y + monthIndex / 12) (monthIndex mod 12 + 1) d
    - (if 0 <? tz then 1 else 0).
Proof.
  intros Hy Htz. unfold toISOString_date, new_Date.
  replace ((0 <=? y) && (y <=? 99)) with false
    by (symmetry; apply andb_false_iff; right; apply Z.leb_gt; lia).
  rewrite (make_date_day _ _ d). unfold MS_PER_DAY.
  destruct (Z.ltb_spec 0 tz); Z.to_euclidean_division_equations; lia.
Qed.

Lemma month_index (month : Z) :
  0 <= month <= 11 -> month / 12 = 0 /\ month mod 12 + 1 = month + 1.
Proof. intros H. Z.to_euclidean_division_equations. lia. Qed.

Lemma last_day_of_month (y month : Z) :
  0 <= month <= 11 ->
  make_date (y + (month + 1) / 12) ((month + 1) mod 12 + 1) 0
  = make_date y (month + 1) (days_in_month y (month + 1)).
Proof.
  intros Hm.
  pose proof (first_of_next_month_spec y (month + 1) ltac:(lia)) as F.
  unfold first_of_next_month in F.
  rewrite (make_date_day _ _ 0), (make_date_day y (month + 1) (days_in_month _ _)).
  destruct (Z.eqb_spec (month + 1) 12) as [E|E].
  - rewrite E in *. change (12 / 12) with 1. change (12 mod 12 + 1) with 1. lia.
  - replace ((month + 1) / 12) with 0 by (Z.to_euclidean_division_equations; lia).
    replace ((month + 1) mod 12 + 1) with (month + 1 + 1)
      by (Z.to_euclidean_division_equations; lia).
    rewrite Z.add_0_r. lia.
Qed.

(* ================================================================== *)
(** ** The grid of the calendar *)
(* ================================================================== *)

(** X21. The grid of the monthly calendar, in any time zone: the empty
    cells in front are as many as the weekday number of the first of the
    month, a cell follows for each day of the month, and the cell at position
    [k] holds a day whose weekday is the column [k mod 7] of the header and
    whose day of the month is its rank among the cells. *)
Theorem calendar_grid (tz year month : Z) :
  100 <= year -> 0 <= month <= 11 ->
  let days := getDaysInMonth tz year month in
  let first := extract_dow (make_date year (month + 1) 1) in
  Z.of_nat (length days) = first + days_in_month year (month + 1) /\
  (forall k, (k < Z.to_nat first)%nat -> nth_error days k = Some None) /\
  (forall k, (Z.to_nat first <= k < length days)%nat ->
     exists day, nth_error days k = Some (Some day) /\
                 getDay tz day = Z.of_nat k mod 7 /\
                 getDate tz day = Z.of_nat k - first + 1 /\
                 getMonth tz day = month /\ getFullYear tz day = year).
Proof.
  intros Hy Hm days first.
  destruct (month_index month Hm) as [E1 E2].
  pose proof (days_in_month_range year (month + 1)) as Hr.
  assert (Hfirst : getDay tz (new_Date tz year month 1) = first).
  { unfold getDay. rewrite WeekDay_extract_dow, new_Date_local by assumption.
    now rewrite E1, E2, Z.add_0_r. }
  assert (Hlast : getDate tz (new_Date tz year (month + 1) 0)
                  = days_in_month year (month + 1)).
  { unfold getDate.
    apply (civil_of_day year (month + 1) (days_in_month year (month + 1)));
      [lia|lia|].
    rewrite new_Date_local by assumption. now apply last_day_of_month. }
  assert (Hf : 0 <= first < 7) by (apply Z.mod_pos_bound; lia).
  assert (Hdays : days = repeat None (Z.to_nat first)
                    ++ map (fun i => Some (new_Date tz year month (Z.of_nat i)))
                           (seq 1 (Z.to_nat (days_in_month year (month + 1))))).
  { unfold days, getDaysInMonth. now rewrite Hfirst, Hlast. }
  assert (Hlen : Z.of_nat (length days) = first + days_in_month year (month + 1)).
  { rewrite Hdays, length_app, repeat_length, length_map, length_seq. lia. }
  split; [exact Hlen|]. split.
  - intros k Hk. rewrite Hdays, nth_error_app1 by (rewrite repeat_length; lia).
    apply nth_error_repeat. exact Hk.
  - intros k Hk. exists (new_Date tz year month (Z.of_nat (1 + (k - Z.to_nat first)))).
    split.
    + rewrite Hdays, nth_error_app2 by (rewrite repeat_length; lia).
      rewrite repeat_length, nth_error_map.
      rewrite (nth_error_nth' _ 0%nat) by (rewrite length_seq; lia).
      rewrite seq_nth by lia. reflexivity.
    + set (d := Z.of_nat (1 + (k - Z.to_nat first))).
      assert (Hd : d = Z.of_nat k - first + 1) by (unfold d; lia).
      assert (Hday : Day (LocalTime tz (new_Date tz year month d))
                     = make_date year (month + 1) d).
      { rewrite new_Date_local by assumption. now rewrite E1, E2, Z.add_0_r. }
      destruct (civil_of_day year (month + 1) d
                  (LocalTime tz (new_Date tz year month d)) ltac:(lia) ltac:(lia) Hday)
        as (C1 & C2 & C3).
      unfold getDay, getDate, getMonth, getFullYear.
      rewrite C1, C2, C3, WeekDay_extract_dow, Hday.
      repeat split; try lia.
      rewrite (make_date_day year (month + 1) d). unfold first, extract_dow in *.
      rewrite Hd. Z.to_euclidean_division_equations. lia.
Qed.

(* ================================================================== *)
(** ** The page's schedules in the cells of the calendar *)
(* ================================================================== *)

Lemma page_range (stz year month : Z) :
  100 <= year -> 0 <= month <= 11 -> -1440 < stz <= 1440 ->
  toISOString_date (new_Date stz year month 1)
    = make_date year (month + 1) 1 - (if 0 <? stz then 1 else 0) /\
  toISOString_date (new_Date stz year (month + 1) 0)
    = make_date year (month + 1) (days_in_month year (month + 1))
      - (if 0 <? stz then 1 else 0).
Proof.
  intros Hy Hm Hs. destruct (month_index month Hm) as [E1 E2].
  rewrite !toISOString_local_midnight by assumption.
  rewrite E1, E2, Z.add_0_r, last_day_of_month by assumption. auto.
Qed.

Lemma cell_date (ctz year month i : Z) :
  100 <= year -> 0 <= month <= 11 -> -1440 < ctz <= 1440 ->
  toISOString_date (new_Date ctz year month i)
    = make_date year (month + 1) 1 + (i - 1) - (if 0 <? ctz then 1 else 0).
Proof.
  intros Hy Hm Hc. destruct (month_index month Hm) as [E1 E2].
  rewrite toISOString_local_midnight by assumption.
  rewrite E1, E2, Z.add_0_r. now rewrite (make_date_day year (month + 1) i).
Qed.

Lemma cell_of_fetch (lo hi : date) (date : Z) (db : DB) :
  getSchedulesForDate (fetch_schedules lo hi db) date
  = if (lo <=? toISOString_date date) && (toISOString_date date <=? hi)
    then map (join_replacements db)
             (filter (fun s => s_date s =? toISOString_date date) (schedules db))
    else [].
Proof.
  unfold getSchedulesForDate, fetch_schedules.
  set (d := toISOString_date date). set (j := join_replacements db).
  assert (Hj : forall s, ds_row (j s) = s) by reflexivity.
  induction (schedules db) as [|s l IH].
  - cbn. now destruct ((lo <=? d) && (d <=? hi)).
  - cbn [filter]. destruct (Z.eqb_spec (s_date s) d) as [E|E].
    + rewrite E. destruct ((lo <=? d) && (d <=? hi)) eqn:R.
      * cbn [map filter]. rewrite Hj, E, Z.eqb_refl. now rewrite IH.
      * exact IH.
    + destruct ((lo <=? s_date s) && (s_date s <=? hi)).
      * cbn [map filter]. rewrite Hj.
        replace (s_date s =? d) with false by (symmetry; now apply Z.eqb_neq).
        exact IH.
      * exact IH.
Qed.

(** X22. With the server and the browser on the same side of UTC, the
    range the page fetches never hides a row from its cell: each cell of the
    month shows every schedule of the database whose date is the ISO date of
    the cell, the date the dialog of that cell writes. *)
Theorem calendar_cell_shows_rows (stz ctz year month i : Z) (db : DB) :
  100 <= year -> 0 <= month <= 11 ->
  -1440 < stz <= 1440 -> -1440 < ctz <= 1440 ->
  (0 <? stz) = (0 <? ctz) ->
  1 <= i <= days_in_month year (month + 1) ->
  getSchedulesForDate (SchedulePage_schedules stz year month db)
                      (new_Date ctz year month i)
  = map (join_replacements db)
        (filter (fun s => s_date s =? toISOString_date (new_Date ctz year month i))
                (schedules db)).
Proof.
  intros Hy Hm Hs Hc Hside Hi. unfold SchedulePage_schedules.
  rewrite cell_of_fetch.
  destruct (page_range stz year month Hy Hm Hs) as [-> ->].
  rewrite (cell_date ctz year month i Hy Hm Hc), Hside.
  rewrite (make_date_day year (month + 1) (days_in_month _ _)).
  replace (_ && _) with true; [reflexivity|].
  symmetry. apply andb_true_iff. split; apply Z.leb_le; lia.
Qed.

(** X23. With the server at or west of UTC and the browser east of it, the
    cell of the first day of the month is always blank, also right after a
    marking made in its dialog, and the schedules dated on the last day of
    the month are shown in no cell of the month. *)
Theorem calendar_first_cell_blank (stz ctz year month : Z) (db : DB) :
  100 <= year -> 0 <= month <= 11 ->
  -1440 < stz <= 0 -> 0 < ctz <= 1440 ->
  let cell i := new_Date ctz year month i in
  let shown db i := getSchedulesForDate (SchedulePage_schedules stz year month db) (cell i) in
  shown db 1 = [] /\
  (forall driverId type,
     shown (fst (handleScheduleUpdate (cell 1) driverId type db)) 1 = []) /\
  (forall i x, 1 <= i <= days_in_month year (month + 1) -> In x (shown db i) ->
     s_date (ds_row x) <> make_date year (month + 1) (days_in_month year (month + 1))).
Proof.
  intros Hy Hm Hs Hc cell shown.
  assert (Hblank : forall db', shown db' 1 = []).
  { intros db'. unfold shown, cell, SchedulePage_schedules. rewrite cell_of_fetch.
    destruct (page_range stz year month Hy Hm ltac:(lia)) as [-> ->].
    rewrite (cell_date ctz year month 1 Hy Hm ltac:(lia)).
    replace (0 <? stz) with false by (symmetry; apply Z.ltb_ge; lia).
    replace (0 <? ctz) with true by (symmetry; apply Z.ltb_lt; lia).
    replace (_ <=? _) with false; [reflexivity|].
    symmetry. apply Z.leb_gt. lia. }
  split; [apply Hblank|]. split; [intros; apply Hblank|].
  intros i x Hi Hx. unfold shown, getSchedulesForDate in Hx.
  apply filter_In in Hx. destruct Hx as [_ Hx]. apply Z.eqb_eq in Hx.
  unfold cell in Hx. rewrite (cell_date ctz year month i Hy Hm ltac:(lia)) in Hx.
  replace (0 <? ctz) with true in Hx by (symmetry; apply Z.ltb_lt; lia).
  rewrite (make_date_day year (month + 1) (days_in_month _ _)). lia.
Qed.

(* ================================================================== *)
(** ** A pattern in the calendar *)
(* ================================================================== *)

(** X24. In a browser east of UTC, with the database's session zone not
    east of Bangkok, the two shifts cancel: after a submission with a weekday
    option, every day off of the driver in the month is shown by the calendar
    in a cell of the weekday that the option is labelled with. *)
Theorem pattern_shown_under_its_label (tz ctz : Z) (driver : uuid)
    (selectedMonth selectedYear value label : string) (m y : Z) (db : DB)
    (s : Schedule) (cellYear cellMonth cellDay : Z) :
  -1020 < tz <= 420 -> 0 < ctz <= 1440 ->
  constraints db ->
  parseInt selectedMonth = Some m ->
  parseInt selectedYear = Some y ->
  1 <= m <= 12 ->
  In (value, label) DAYS_OF_WEEK ->
  In s (day_off_rows driver y m
          (fst (handleSubmit tz (Some driver) selectedMonth selectedYear value db))) ->
  100 <= cellYear ->
  toISOString_date (new_Date ctz cellYear cellMonth cellDay) = s_date s ->
  dow_name (getDay ctz (new_Date ctz cellYear cellMonth cellDay)) = label.
Proof.
  intros Htz Hctz Hc Hm Hy Hr Hin Hs Hcy Hcell.
  assert (Hdow : exists dow, dayOfWeek_of value = Some dow /\ 0 <= dow <= 6 /\
                             dow_name ((dow + 1) mod 7) = label).
  { cbn in Hin.
    repeat (destruct Hin as [[= <- <-]|Hin];
            [eexists; split; [vm_compute; reflexivity|split; [lia|reflexivity]]|]).
    contradiction. }
  destruct Hdow as (dow & Hd & Hdr & Hl).
  rewrite (handleSubmit_set_pattern tz driver _ _ _ m y dow db Hm Hy Hd) in Hs.
  destruct (set_pattern_spec tz driver m y dow db Hc) as (id & db0 & E & _ & _ & _ & _).
  rewrite E, (proj2 (pattern_checks_range id driver m y dow)) in Hs by auto.
  cbn [fst] in Hs.
  apply (trigger_day_off_dates tz (mkPattern id driver m y dow)) in Hs.
  - cbn [day_of_week] in Hs. rewrite local_dow_extract_dow in Hs by assumption.
    rewrite <- Hl, <- Hs, <- Hcell. f_equal.
    unfold getDay. rewrite WeekDay_extract_dow, new_Date_local by assumption.
    rewrite toISOString_local_midnight by (assumption || lia).
    replace (0 <? ctz) with true by (symmetry; apply Z.ltb_lt; lia).
    unfold extract_dow. Z.to_euclidean_division_equations. lia.
  - exact Hr.
Qed.

(* ================================================================== *)
(** ** The links to the neighbouring months *)
(* ================================================================== *)

Lemma digit_of_digit (n : Z) :
  0 <= n <= 9 -> digit_of (ascii_of_nat (Z.to_nat (48 + n))) = Some n.
Proof.
  intros H. destruct n as [|p|p]; [reflexivity| |lia].
  do 4 (try destruct p as [p|p|]); try lia; reflexivity.
Qed.

Lemma to_digits_parse (fuel : nat) (n : Z) (acc : string) :
  0 <= n < 2 ^ Z.of_nat (S fuel) ->
  parse_digits (to_digits (S fuel) n acc) None = parse_digits acc (Some n) /\
  all_digits (to_digits (S fuel) n acc) = all_digits acc.
Proof.
  revert n acc. induction fuel as [|fuel IH]; intros n acc Hn.
  - change (2 ^ Z.of_nat 1) with 2 in Hn. cbn [to_digits].
    replace (n <? 10) with true by (symmetry; apply Z.ltb_lt; lia).
    rewrite Z.mod_small by lia. cbn [parse_digits all_digits].
    rewrite digit_of_digit by lia. split; [f_equal; f_equal; lia | reflexivity].
  - assert (Hd : 0 <= n mod 10 <= 9) by (Z.to_euclidean_division_equations; lia).
    change (to_digits (S (S fuel)) n acc)
      with (let acc' := String (ascii_of_nat (Z.to_nat (48 + n mod 10))) acc in
            if n <? 10 then acc' else to_digits (S fuel) (n / 10) acc').
    cbv zeta. destruct (Z.ltb_spec n 10) as [H|H].
    + rewrite Z.mod_small by lia. cbn [parse_digits all_digits].
      rewrite digit_of_digit by lia. split; [f_equal; f_equal; lia | reflexivity].
    + destruct (IH (n / 10) (String (ascii_of_nat (Z.to_nat (48 + n mod 10))) acc))
        as [-> ->].
      * rewrite Nat2Z.inj_succ, Z.pow_succ_r in Hn by lia.
        Z.to_euclidean_division_equations. lia.
      * cbn [parse_digits all_digits]. rewrite digit_of_digit by assumption.
        split; [f_equal; f_equal; Z.to_euclidean_division_equations; lia | reflexivity].
Qed.

(** [Number] reads back what the template literal wrote. *)
Lemma Number_of_toString (n : Z) : 0 <= n -> Number_of (Number_toString n) = Some n.
Proof.
  intros Hn. unfold Number_toString, Number_of.
  replace (n <? 0) with false by (symmetry; apply Z.ltb_ge; lia).
  destruct (to_digits_parse (Z.to_nat (Z.log2 n)) n EmptyString) as [-> ->].
  - rewrite Nat2Z.inj_succ, Z2Nat.id by apply Z.log2_nonneg.
    destruct (Z.eq_dec n 0) as [->|Hne]; [cbn; lia|].
    pose proof (Z.log2_spec n ltac:(lia)). lia.
  - reflexivity.
Qed.

Lemma month_url (tz year monthIndex : Z) :
  100 <= year ->
  getMonth tz (new_Date tz year monthIndex 1) + 1 = monthIndex mod 12 + 1 /\
  getFullYear tz (new_Date tz year monthIndex 1) = year + monthIndex / 12.
Proof.
  intros Hy.
  pose proof (new_Date_local tz year monthIndex 1 Hy) as Hday.
  assert (Hm : 1 <= monthIndex mod 12 + 1 <= 12)
    by (Z.to_euclidean_division_equations; lia).
  pose proof (days_in_month_range (year + monthIndex / 12) (monthIndex mod 12 + 1)).
  destruct (civil_of_day (year + monthIndex / 12) (monthIndex mod 12 + 1) 1
              (LocalTime tz (new_Date tz year monthIndex 1)) Hm ltac:(lia) Hday)
    as (C1 & C2 & _).
  unfold getMonth, getFullYear. rewrite C1, C2. split; lia.
Qed.

Lemma prevMonthUrl_params (tz today year month : Z) :
  101 <= year -> 0 <= month <= 11 ->
  let '(m', y') := prevMonthUrl tz year month in
  SchedulePage_month tz today (Some m') = Some (if month =? 0 then 11 else month - 1) /\
  SchedulePage_year tz today (Some y') = Some (if month =? 0 then year - 1 else year).
Proof.
  intros Hy Hm. unfold prevMonthUrl, SchedulePage_month, SchedulePage_year.
  destruct (month_url tz year (month - 1) ltac:(lia)) as [-> ->].
  rewrite !Number_of_toString by (Z.to_euclidean_division_equations; lia).
  cbn [option_map].
  destruct (Z.eqb_spec month 0) as [->|Hne].
  - split; reflexivity.
  - split; f_equal; Z.to_euclidean_division_equations; lia.
Qed.

Lemma nextMonthUrl_params (tz today year month : Z) :
  100 <= year -> 0 <= month <= 11 ->
  let '(m', y') := nextMonthUrl tz year month in
  SchedulePage_month tz today (Some m') = Some (if month =? 11 then 0 else month + 1) /\
  SchedulePage_year tz today (Some y') = Some (if month =? 11 then year + 1 else year).
Proof.
  intros Hy Hm. unfold nextMonthUrl, SchedulePage_month, SchedulePage_year.
  destruct (month_url tz year (month + 1) ltac:(lia)) as [-> ->].
  rewrite !Number_of_toString by (Z.to_euclidean_division_equations; lia).
  cbn [option_map].
  destruct (Z.eqb_spec month 11) as [->|Hne].
  - split; reflexivity.
  - split; f_equal; Z.to_euclidean_division_equations; lia.
Qed.

(** X25. The links of the schedule page: "previous" leads to the month
    before and "next" to the month after, across the turn of the year, as
    the page reads their parameters; and from the page that "next" leads to,
    "previous" leads back to this month. *)
Theorem month_links (tz today year month : Z) :
  101 <= year -> 0 <= month <= 11 ->
  let page url := (SchedulePage_year tz today (Some (snd url)),
                   SchedulePage_month tz today (Some (fst url))) in
  page (prevMonthUrl tz year month)
    = (Some (if month =? 0 then year - 1 else year),
       Some (if month =? 0 then 11 else month - 1)) /\
  page (nextMonthUrl tz year month)
    = (Some (if month =? 11 then year + 1 else year),
       Some (if month =? 11 then 0 else month + 1)) /\
  page (prevMonthUrl tz (if month =? 11 then year + 1 else year)
                        (if month =? 11 then 0 else month + 1))
    = (Some year, Some month).
Proof.
  intros Hy Hm page. unfold page.
  pose proof (prevMonthUrl_params tz today year month Hy Hm) as P.
  pose proof (nextMonthUrl_params tz today year month ltac:(lia) Hm) as N.
  destruct (prevMonthUrl tz year month) as [m1 y1].
  destruct (nextMonthUrl tz year month) as [m2 y2].
  destruct P as [P1 P2], N as [N1 N2]. cbn [fst snd]. rewrite P1, P2, N1, N2.
  split; [reflexivity|]. split; [reflexivity|].
  pose proof (prevMonthUrl_params tz today (if month =? 11 then year + 1 else year)
                (if month =? 11 then 0 else month + 1)) as P'.
  destruct (prevMonthUrl tz _ _) as [m3 y3]. cbn [fst snd].
  destruct (Z.eqb_spec month 11) as [->|Hne].
  - destruct P' as [-> ->]; [lia|lia|]. cbn. do 2 f_equal. lia.
  - destruct P' as [-> ->]; [lia|lia|].
    destruct (Z.eqb_spec (month + 1) 0); [lia|]. do 2 f_equal. lia.
Qed.

(* ================================================================== *)
(** ** The theorems at work on the examples *)
(* ================================================================== *)

Lemma set_pattern_frame_witness :
  filter (fun s => negb (Nat.eqb (s_driver_id s) 1 && in_month 2024 2 (s_date s)))
         (schedules (fst (set_pattern 0 1%nat 2 2024 4 roster_db)))
  = [ mkSchedule 2%nat 2%nat (feb_2024 8) true false;
      mkSchedule 3%nat 3%nat (feb_2024 8) false false;
      mkSchedule 4%nat 1%nat (feb_2024 29 + 1) true false ].
Proof.
  refine (eq_trans (set_pattern_frame 0 1%nat 2 2024 4 roster_db _) _).
  - constraints_hold.
  - reflexivity.
Defined.

Lemma set_pattern_drops_replacements_witness :
  replacements (fst (set_pattern 0 1%nat 2 2024 4 roster_db))
  = [ mkReplacement 6%nat 2%nat 3%nat 7%nat ].
Proof.
  refine (eq_trans (set_pattern_drops_replacements 0 1%nat 2 2024 4 roster_db _ _ _) _).
  - constraints_hold.
  - lia.
  - lia.
  - reflexivity.
Defined.





Lemma handleDelete_east_of_utc_witness :
  In (mkSchedule 5%nat 1%nat (feb_2024 29) true false)
     (schedules (fst (handleDelete 420 0%nat thursdays_db))).
Proof.
  pose proof (handleDelete_east_of_utc 420 (mkPattern 0%nat 1%nat 2 2024 4) thursdays_db)
    as H.
  cbv zeta in H. destruct H as (H & _).
  - lia.
  - constraints_hold.
  - vm_compute. left. reflexivity.
  - cbn. lia.
  - cbn. lia.
  - apply (H (mkSchedule 5%nat 1%nat (feb_2024 29) true false)).
    + vm_compute. do 4 right. left. reflexivity.
    + reflexivity.
Defined.

Lemma mark_twice_witness :
  filter (schedule_key_eqb 1%nat (feb_2024 2))
    (schedules (fst (handleScheduleUpdate (noon (feb_2024 2)) 1%nat day_off
                       (fst (handleScheduleUpdate (noon (feb_2024 2)) 1%nat day_off
                               february_db)))))
  = [ mkSchedule 0%nat 1%nat (feb_2024 2) true false ].
Proof.
  refine (eq_trans (mark_twice (noon (feb_2024 2)) 1%nat day_off february_db _) _).
  - vm_compute. distinct_keys.
  - reflexivity.
Defined.

Lemma replacement_options_on_duty_witness :
  3%nat <> 1%nat /\
  is_day_off (mkSchedule 3%nat 3%nat (feb_2024 8) false false) = false /\
  is_annual_leave (mkSchedule 3%nat 3%nat (feb_2024 8) false false) = false.
Proof.
  apply (replacement_options_on_duty (feb_2024 1) (feb_2024 29) (noon (feb_2024 8))
           roster_db roster_drivers (mkDriver 1%nat "Dara" "S001" None)
           (mkDriver 3%nat "Vanna" "S003" None)
           (mkSchedule 3%nat 3%nat (feb_2024 8) false false)).
  - vm_compute. distinct_keys.
  - vm_compute. left. reflexivity.
  - vm_compute. do 3 right. left. reflexivity.
  - reflexivity.
  - reflexivity.
  - evaluated.
Defined.

Lemma assign_all_accumulates_witness :
  total_hours (overtime_of 9%nat (feb_2024 29)
                 (assign_all (noon (feb_2024 29)) 9%nat
                    [ (0%nat, 1%nat, 3%nat); (0%nat, 1%nat, 4%nat) ] extension_db))
  = 1800.
Proof.
  destruct (assign_all_accumulates (noon (feb_2024 29)) 9%nat
              [ (0%nat, 1%nat, 3%nat); (0%nat, 1%nat, 4%nat) ] extension_db) as [H _].
  - evaluated.
  - intros o Ho. vm_compute in Ho. destruct Ho as [<-|[]]. evaluated.
  - exact (eq_trans H eq_refl).
Defined.

Lemma page_buttons_in_range_witness : previousPage (nextPage 3 2) = 2%nat.
Proof.
  apply (proj1 (proj2 (proj2 (page_buttons_in_range 3 2 ltac:(lia))))). lia.
Defined.

Lemma export_ot_type_blank_witness : otTypeFormatted "replacement" = EmptyString.
Proof. exact (export_ot_type_blank "replacement" ot_replacement eq_refl). Defined.

Lemma overtime_delete_total_witness :
  totalHours (overtime_records (fst (overtime_handleDelete 1%nat two_types_db))) = 800.
Proof.
  pose proof (overtime_delete_total (mkOvertime 1%nat 9%nat (feb_2024 29) 200 ot_extension 150)
                two_types_db) as H.
  cbv zeta in H. destruct H as (_ & _ & H).
  - vm_compute. distinct_keys.
  - left. reflexivity.
  - exact (eq_trans H eq_refl).
Defined.


Lemma groupedDrivers_partition_witness :
  let '(onDuty, dayOff, annual) :=
    groupedDrivers
      (filteredDrivers (fun _ => true) [] roster_drivers
         (getSchedulesForDate (fetch_schedules (feb_2024 1) (feb_2024 29) roster_db)
                              (noon (feb_2024 8))))
      (getSchedulesForDate (fetch_schedules (feb_2024 1) (feb_2024 29) roster_db)
                           (noon (feb_2024 8))) in
  (length onDuty + length dayOff + length annual = 3)%nat.
Proof.
  pose proof (groupedDrivers_partition (fun _ => true) [] roster_drivers
                (getSchedulesForDate (fetch_schedules (feb_2024 1) (feb_2024 29) roster_db)
                                     (noon (feb_2024 8)))) as H.
  cbv zeta in H.
  destruct (groupedDrivers _ _) as [[onDuty dayOff] annual].
  apply H. vm_compute. repeat constructor.
Defined.

Lemma mark_then_view_witness :
  shows_day_off
    (getDriverSchedule
       (getSchedulesForDate
          (fetch_schedules (feb_2024 1) (feb_2024 29)
             (fst (handleScheduleUpdate (noon (feb_2024 2)) 1%nat day_off february_db)))
          (noon (feb_2024 2)))
       1%nat) = false.
Proof.
  pose proof (mark_then_view (feb_2024 1) (feb_2024 29) (noon (feb_2024 2)) 1%nat day_off
                february_db) as H.
  cbv zeta in H. destruct H as (_ & H & _).
  - vm_compute. distinct_keys.
  - evaluated.
  - exact (eq_trans H eq_refl).
Defined.

Lemma update_replacement_new_driver_witness :
  total_hours (overtime_of 10%nat (feb_2024 29)
                 (fst (handleUpdateReplacement (noon (feb_2024 29)) 1%nat 10%nat 1%nat
                         0%nat two_shifts_db))) = 800.
Proof.
  pose proof (update_replacement_new_driver (noon (feb_2024 29)) 1%nat 10%nat 1%nat 0%nat
                two_shifts_db (mkReplacement 1%nat 0%nat 9%nat 3%nat)) as H.
  cbv zeta in H. destruct H as (H & _).
  - reflexivity.
  - discriminate.
  - intros o Ho. vm_compute in Ho. destruct Ho.
  - exact (eq_trans H eq_refl).
Defined.

Lemma calendar_grid_witness : Z.of_nat (length (getDaysInMonth 420 2024 1)) = 33.
Proof.
  pose proof (calendar_grid 420 2024 1) as H.
  cbv zeta in H. destruct H as (H & _).
  - lia.
  - lia.
  - exact (eq_trans H eq_refl).
Defined.

Lemma calendar_cell_shows_rows_witness :
  getSchedulesForDate (SchedulePage_schedules 420 2024 1 roster_db)
                      (new_Date 420 2024 1 9)
  = map (join_replacements roster_db)
        [ mkSchedule 1%nat 1%nat (feb_2024 8) false true;
          mkSchedule 2%nat 2%nat (feb_2024 8) true false;
          mkSchedule 3%nat 3%nat (feb_2024 8) false false ].
Proof.
  refine (eq_trans (calendar_cell_shows_rows 420 420 2024 1 9 roster_db _ _ _ _ _ _) _).
  - lia.
  - lia.
  - lia.
  - lia.
  - reflexivity.
  - evaluated.
  - reflexivity.
Defined.

Lemma calendar_first_cell_blank_witness :
  getSchedulesForDate
    (SchedulePage_schedules 0 2024 1
       (fst (handleScheduleUpdate (new_Date 420 2024 1 1) 1%nat day_off empty_db)))
    (new_Date 420 2024 1 1) = [].
Proof.
  pose proof (calendar_first_cell_blank 0 420 2024 1 empty_db) as H.
  cbv zeta in H. destruct H as (_ & H & _).
  - lia.
  - lia.
  - lia.
  - lia.
  - exact (H 1%nat day_off).
Defined.

Lemma pattern_shown_under_its_label_witness :
  dow_name (getDay 420 (new_Date 420 2024 1 4)) = "Sunday"%string.
Proof.
  apply (pattern_shown_under_its_label 0 420 1%nat "2" "2024" "6" "Sunday" 2 2024
           empty_db (mkSchedule 1%nat 1%nat (feb_2024 3) true false) 2024 1 4).
  - lia.
  - lia.
  - constraints_hold.
  - reflexivity.
  - reflexivity.
  - lia.
  - left. reflexivity.
  - vm_compute. left. reflexivity.
  - lia.
  - reflexivity.
Defined.

Lemma month_links_witness :
  (SchedulePage_year 420 0 (Some (snd (nextMonthUrl 420 2024 11))),
   SchedulePage_month 420 0 (Some (fst (nextMonthUrl 420 2024 11))))
  = (Some 2025, Some 0).
Proof.
  pose proof (month_links 420 0 2024 11) as H.
  cbv zeta in H. destruct H as (_ & H & _).
  - lia.
  - lia.
  - exact (eq_trans H eq_refl).
Defined.

Lemma handleDelete_west_of_utc_witness :
  day_off_rows 1%nat 2024 2 (fst (handleDelete (-300) 0%nat thursdays_db)) = [].
Proof.
  refine (proj1 (handleDelete_west_of_utc (-300) (mkPattern 0%nat 1%nat 2 2024 4)
                   thursdays_db _ _ _ _ _)).
  - lia.
  - constraints_hold.
  - vm_compute. left. reflexivity.
  - cbn. lia.
  - cbn. lia.
Defined.

Lemma update_replacement_deletes_all_witness :
  filter (fun o => OtType_eqb (ot_type o) ot_replacement)
    (overtime_of 9%nat (feb_2024 29)
       (fst (handleUpdateReplacement (noon (feb_2024 29)) 1%nat 10%nat 1%nat 0%nat
               two_shifts_db))) = [].
Proof.
  apply (update_replacement_deletes_all (noon (feb_2024 29)) 1%nat 10%nat 1%nat 0%nat
           two_shifts_db (mkReplacement 1%nat 0%nat 9%nat 3%nat)).
  - reflexivity.
  - discriminate.
Defined.
